(** * chogwatch: the eligibility screening engine

    A shallow embedding of the worker's screening job
    ([apps/worker/src/cron/screening.ts]) together with the exposure
    calculator ([lib/chog.ts]), the query helpers it uses ([lib/db.ts]) and
    the Telegram sender ([lib/telegram.ts]); then of what surrounds the job:
    the other helpers of [lib/db.ts] on profiles, wallets and snapshots, the
    text of the summary and the group management calls of [lib/telegram.ts],
    the bot's answer to a join request ([routes/bot.ts]), and the routes
    that trigger a run, change a setting, hand out a new edit secret or
    unlink a wallet.

    Conventions.
    - A JavaScript [bigint] is a [Z].  A JavaScript [number] that holds a
      timestamp, a counter or an hour count is a [Z] as well (exact on the
      safe-integer range); [NaN] is [None].
    - A thrown exception is a value of type [exn]; code that may throw or
      that touches the database, the clock or the network lives in the monad
      [M], a state monad over [World] with exceptions.  State survives an
      exception, as D1 writes are not rolled back by a JavaScript [catch].
    - The D1 store is a record of tables, each a list of rows in rowid order.
      Statements on it do not fail.  Where an [INSERT] could meet a key that
      is taken, the statements about it are made for a key that is new.
    - Everything the worker does not define itself (the chain behind the RPC
      URL, the clock, the UUID source, the Telegram HTTP endpoint, the
      engine's [Array.prototype.sort], number formatting) is a field of
      [Host]. *)

From Stdlib Require Import ZArith List String Ascii Bool Lia.
From Stdlib Require Import Permutation Sorted DecimalString DecimalPos DecimalZ.
From stdpp Require Import gmap strings.

Import ListNotations.
Local Open Scope string_scope.
Local Open Scope list_scope.
Local Open Scope Z_scope.

(* ===================================================================== *)
(** ** JavaScript built-ins used by the worker *)
(* ===================================================================== *)

Module Js.

(** What a [catch (err)] clause can receive: an [Error] object with its
    [message], or any other thrown value. *)
Inductive exn : Type :=
| Error (message : string)
| Thrown.

(** [err instanceof Error ? err.message : 'Unknown error'] *)
Definition errMessage (err : exn) : string :=
  match err with
  | Error m => m
  | Thrown => "Unknown error"
  end.

(** [v || dflt] for a string that may be missing ([setting?.value]): the
    empty string and [undefined] are falsy. *)
Definition or_else (v : option string) (dflt : string) : string :=
  match v with
  | Some (String c s) => String c s
  | _ => dflt
  end.

(** ASCII white space of [StrWhiteSpaceChar]: TAB, LF, VT, FF, CR, SP. *)
Definition is_ws (c : ascii) : bool :=
  let n := N_of_ascii c in
  ((9 <=? n)%N && (n <=? 13)%N) || (n =? 32)%N.

Fixpoint trim_start (s : string) : string :=
  match s with
  | String c r => if is_ws c then trim_start r else s
  | EmptyString => EmptyString
  end.

Fixpoint trim_end (s : string) : string :=
  match s with
  | String c r =>
      match trim_end r with
      | EmptyString => if is_ws c then EmptyString else String c EmptyString
      | r' => String c r'
      end
  | EmptyString => EmptyString
  end.

Definition trim (s : string) : string := trim_end (trim_start s).

(** Value of one digit in the given radix. *)
Definition digit_val (radix : Z) (c : ascii) : option Z :=
  let n := Z.of_N (N_of_ascii c) in
  let v := if (48 <=? n) && (n <=? 57) then n - 48
           else if (97 <=? n) && (n <=? 102) then n - 87
           else if (65 <=? n) && (n <=? 70) then n - 55
           else radix in
  if v <? radix then Some v else None.

Fixpoint digits_acc (radix : Z) (s : string) (acc : Z) : option Z :=
  match s with
  | EmptyString => Some acc
  | String c r =>
      match digit_val radix c with
      | Some v => digits_acc radix r (radix * acc + v)
      | None => None
      end
  end.

(** A non-empty run of digits in the given radix. *)
Definition digits (radix : Z) (s : string) : option Z :=
  match s with
  | EmptyString => None
  | _ => digits_acc radix s 0
  end.

(** A non-empty run of decimal digits, read with the Standard Library's
    decimal reader. *)
Definition decimal (s : string) : option Z :=
  match NilEmpty.uint_of_string s with
  | Some Decimal.Nil => None
  | Some d => Some (Z.of_uint d)
  | None => None
  end.

(** [BigInt(s)] for a string ([StringToBigInt]): white space is trimmed,
    the empty string is [0n], then either an unsigned literal with a
    [0x], [0o] or [0b] prefix or a decimal literal with an optional sign.
    [None] is the [SyntaxError]. *)
Definition BigInt (s : string) : option Z :=
  match trim s with
  | EmptyString => Some 0
  | String "-" r => option_map Z.opp (decimal r)
  | String "+" r => decimal r
  | String "0" (String "x" r) | String "0" (String "X" r) => digits 16 r
  | String "0" (String "o" r) | String "0" (String "O" r) => digits 8 r
  | String "0" (String "b" r) | String "0" (String "B" r) => digits 2 r
  | t => decimal t
  end.

(** [BigInt.prototype.toString()], and [String(n)] for an integral number. *)
Definition toString (z : Z) : string := NilZero.string_of_int (Z.to_int z).

(** [a / b] on bigints: truncating division; a zero divisor throws a
    [RangeError]. *)
Definition bigint_div (a b : Z) : exn + Z :=
  if b =? 0 then inl (Error "Division by zero") else inr (Z.quot a b).

(** The longest prefix of decimal digits of [s], as a number, and whether
    it is non-empty. *)
Fixpoint digit_prefix (s : string) (acc : Z) (seen : bool) : Z * bool :=
  match s with
  | String c r =>
      match digit_val 10 c with
      | Some v => digit_prefix r (10 * acc + v) true
      | None => (acc, seen)
      end
  | EmptyString => (acc, seen)
  end.

(** [parseInt(s, 10)]: leading white space, an optional sign, then the
    longest prefix of digits; [None] is [NaN]. *)
Definition parseInt (s : string) : option Z :=
  let body sign r :=
    match digit_prefix r 0 false with
    | (v, true) => Some (sign * v)
    | (_, false) => None
    end in
  match trim_start s with
  | String "-" r => body (-1) r
  | String "+" r => body 1 r
  | t => body 1 t
  end.

(** [Math.ceil(a / b)] for integers [a] and [b > 0]. *)
Definition ceil_div (a b : Z) : Z := - ((- a) / b).

(** [s.replace('@', '')]: a string pattern replaces its first occurrence. *)
Fixpoint replace_at (s : string) : string :=
  match s with
  | String c r => if Ascii.eqb c "@" then r else String c (replace_at r)
  | EmptyString => EmptyString
  end.

End Js.

(* ===================================================================== *)
(** ** The D1 store ([lib/db.ts] and the schema of [0001_initial.sql]) *)
(* ===================================================================== *)

Module Db.

Inductive WalletStatus : Type := WVerified | WPending | WError.
Inductive RunStatus : Type := RunRunning | RunSuccess | RunError | RunPartial.

Definition RunStatus_eqb (a b : RunStatus) : bool :=
  match a, b with
  | RunRunning, RunRunning | RunSuccess, RunSuccess
  | RunError, RunError | RunPartial, RunPartial => true
  | _, _ => false
  end.

Record Profile : Type := mkProfile {
  p_id : string;
  p_telegram_handle : string;
  p_edit_secret_hash : string;
  p_created_at : Z;
  p_updated_at : Z
}.

Record Wallet : Type := mkWallet {
  w_id : string;
  w_profile_id : string;
  w_address : string;
  w_wallet_rdns : option string;
  w_verified_at : option Z;
  w_last_checked_at : option Z;
  w_last_direct_chog_raw : option string;
  w_last_lp_chog_raw : option string;
  w_last_total_chog_raw : option string;
  w_status : WalletStatus;
  w_error_reason : option string;
  w_created_at : Z
}.

Record LpPair : Type := mkLpPair {
  pair_address : string;
  name : option string;
  token0 : string;
  token1 : string;
  chog_side : Z;
  enabled : Z;
  lp_created_at : Z
}.

Record ScreeningRun : Type := mkScreeningRun {
  r_id : string;
  r_started_at : Z;
  r_finished_at : option Z;
  r_status : RunStatus;
  r_error : option string;
  r_profiles_processed : Z;
  r_wallets_processed : Z;
  r_eligible_count : Z;
  r_message_sent : Z
}.

(** One element of the array that [details_json] serialises. *)
Record WalletDetail : Type := mkWalletDetail {
  d_address : string;
  d_directChog : string;
  d_lpChog : string;
  d_totalChog : string
}.

(** [details_json] is kept as the array that [JSON.stringify] is applied
    to. *)
Record ProfileSnapshot : Type := mkProfileSnapshot {
  s_run_id : string;
  s_profile_id : string;
  s_total_chog_raw : string;
  s_eligible : Z;
  s_details_json : list WalletDetail
}.

Record DB : Type := mkDB {
  profiles : list Profile;
  wallets : list Wallet;
  lp_pairs : list LpPair;
  screening_runs : list ScreeningRun;
  profile_snapshots : list ProfileSnapshot;
  settings : list (string * string)
}.

(** [ORDER BY key DESC]: rows by decreasing key, rows with the same key in
    rowid order. *)
Fixpoint insert_desc {A : Type} (key : A -> Z) (x : A) (l : list A) : list A :=
  match l with
  | [] => [x]
  | y :: l' => if key y <=? key x then x :: l else y :: insert_desc key x l'
  end.

Definition order_by_desc {A : Type} (key : A -> Z) (rows : list A) : list A :=
  fold_right (insert_desc key) [] rows.

(** [SELECT value FROM settings WHERE key = ?] with [.first()] *)
Definition select_setting (db : DB) (key : string) : option string :=
  snd <$> List.find (fun kv => String.eqb (fst kv) key) (settings db).

(** [SELECT * FROM wallets WHERE profile_id = ? ORDER BY created_at DESC] *)
Definition getWalletsByProfile (db : DB) (profileId : string) : list Wallet :=
  order_by_desc w_created_at
    (List.filter (fun w => String.eqb (w_profile_id w) profileId) (wallets db)).

(** [SELECT * FROM lp_pairs WHERE enabled = 1] *)
Definition getEnabledLpPairs (db : DB) : list LpPair :=
  List.filter (fun p => enabled p =? 1) (lp_pairs db).

(** Every profile that has at least one wallet, with its wallets. *)
Fixpoint profilesWithWallets (db : DB) (ps : list Profile)
  : list (Profile * list Wallet) :=
  match ps with
  | [] => []
  | profile :: rest =>
      let ws := getWalletsByProfile db (p_id profile) in
      if (0 <? Z.of_nat (List.length ws))
      then (profile, ws) :: profilesWithWallets db rest
      else profilesWithWallets db rest
  end.

Definition getAllProfilesWithWallets (db : DB) : list (Profile * list Wallet) :=
  profilesWithWallets db (profiles db).

(** [SELECT * FROM screening_runs WHERE status = 'success'
     ORDER BY started_at DESC LIMIT 1] *)
Definition getLastScreeningRun (db : DB) : option ScreeningRun :=
  List.head (order_by_desc r_started_at
    (List.filter (fun r => RunStatus_eqb (r_status r) RunSuccess) (screening_runs db))).

(** [SELECT * FROM profile_snapshots WHERE run_id = ?] *)
Definition getSnapshotsForRun (db : DB) (runId : string) : list ProfileSnapshot :=
  List.filter (fun s => String.eqb (s_run_id s) runId) (profile_snapshots db).

(** [UPDATE wallets SET last_direct_chog_raw = ?, last_lp_chog_raw = ?,
     last_total_chog_raw = ?, last_checked_at = ? WHERE id = ?] *)
Definition set_balances (directChog lpChog totalChog : string) (now : Z)
    (walletId : string) (w : Wallet) : Wallet :=
  if String.eqb (w_id w) walletId then
    mkWallet (w_id w) (w_profile_id w) (w_address w) (w_wallet_rdns w)
      (w_verified_at w) (Some now) (Some directChog) (Some lpChog)
      (Some totalChog) (w_status w) (w_error_reason w) (w_created_at w)
  else w.

(** [UPDATE wallets SET status = 'error', error_reason = ? WHERE id = ?] *)
Definition set_error (reason : string) (walletId : string) (w : Wallet) : Wallet :=
  if String.eqb (w_id w) walletId then
    mkWallet (w_id w) (w_profile_id w) (w_address w) (w_wallet_rdns w)
      (w_verified_at w) (w_last_checked_at w) (w_last_direct_chog_raw w)
      (w_last_lp_chog_raw w) (w_last_total_chog_raw w) WError (Some reason)
      (w_created_at w)
  else w.

Definition with_wallets (db : DB) (ws : list Wallet) : DB :=
  mkDB (profiles db) ws (lp_pairs db) (screening_runs db)
    (profile_snapshots db) (settings db).

Definition with_runs (db : DB) (rs : list ScreeningRun) : DB :=
  mkDB (profiles db) (wallets db) (lp_pairs db) rs
    (profile_snapshots db) (settings db).

Definition with_snapshots (db : DB) (ss : list ProfileSnapshot) : DB :=
  mkDB (profiles db) (wallets db) (lp_pairs db) (screening_runs db)
    ss (settings db).

(** [UPDATE screening_runs SET finished_at = ?, status = 'success',
     profiles_processed = ?, wallets_processed = ?, eligible_count = ?,
     message_sent = ? WHERE id = ?] *)
Definition set_success (finished profilesN walletsN eligibleN sent : Z)
    (runId : string) (r : ScreeningRun) : ScreeningRun :=
  if String.eqb (r_id r) runId then
    mkScreeningRun (r_id r) (r_started_at r) (Some finished) RunSuccess
      (r_error r) profilesN walletsN eligibleN sent
  else r.

(** [UPDATE screening_runs SET finished_at = ?, status = 'error', error = ?
     WHERE id = ?] *)
Definition set_failed (finished : Z) (error : string)
    (runId : string) (r : ScreeningRun) : ScreeningRun :=
  if String.eqb (r_id r) runId then
    mkScreeningRun (r_id r) (r_started_at r) (Some finished) RunError
      (Some error) (r_profiles_processed r) (r_wallets_processed r)
      (r_eligible_count r) (r_message_sent r)
  else r.

End Db.

(* ===================================================================== *)
(** ** The worker's surroundings and the monad of effects *)
(* ===================================================================== *)

Module Rt.
Import Db.

(** [{ handle, totalChog }], an entry of [newlyEligible] and [topEligible]. *)
Record Listed : Type := mkListed {
  handle : string;
  totalChog : string
}.

(** [{ handle, totalChog, totalRaw }], an entry of [allEligible]. *)
Record Ranked : Type := mkRanked {
  k_handle : string;
  k_totalChog : string;
  k_totalRaw : Z
}.

(** The argument of [formatEligibilityMessage]; [droppedEligible] holds
    [{ handle }] objects, kept as their handles. *)
Record Summary : Type := mkSummary {
  date : string;
  eligibleCount : Z;
  newlyEligible : list Listed;
  droppedEligible : list string;
  topEligible : list Listed
}.

(** The JSON body the Telegram Bot API answers with. *)
Record TelegramReply : Type := mkTelegramReply {
  ok : bool;
  reply_message_id : option Z;
  description : option string
}.

(** [getReserves()] of a V2 pair. *)
Record Reserves : Type := mkReserves {
  reserve0 : N;
  reserve1 : N;
  blockTimestampLast : N
}.

(** What the worker calls but does not define.  Chain reads decode
    [uint256], [uint112] and [uint32] values, hence [N]; each may throw.
    The clock and the UUID source are indexed by the number of impure
    steps taken so far. *)
Record Host : Type := mkHost {
  balanceOf : string -> string -> string -> Js.exn + N;
  totalSupply : string -> string -> Js.exn + N;
  getReserves : string -> string -> Js.exn + Reserves;
  date_now : nat -> Z;
  randomUUID : nat -> string;
  isoDate : Z -> string;
  postSendMessage : string -> string -> string -> Js.exn + TelegramReply;
  array_sort : (Ranked -> Ranked -> Z) -> list Ranked -> list Ranked;
  formatChogBalance : Z -> string;
  formatEligibilityMessage : Summary -> string
}.

(** The bindings of [Env] that the job reads; [DB] is in [World]. *)
Record Env : Type := mkEnv {
  TELEGRAM_BOT_TOKEN : string;
  TELEGRAM_CHAT_ID : string;
  MONAD_RPC_URL : string;
  CHOG_CONTRACT : string
}.

(** Outbound requests and writes of a run's status, in program order. *)
Inductive Event : Type :=
| ReadContract (rpcUrl address functionName : string) (args : list string)
| TelegramPost (botToken chatId text : string)
| RunStatusWrite (runId : string) (status : RunStatus).

Record World : Type := mkWorld {
  db : DB;
  steps : nat;
  trace : list Event
}.

Definition M (A : Type) : Type := World -> (Js.exn + A) * World.

Definition ret {A : Type} (a : A) : M A := fun w => (inr a, w).

Definition bind {A B : Type} (m : M A) (k : A -> M B) : M B :=
  fun w =>
    match m w with
    | (inr a, w') => k a w'
    | (inl e, w') => (inl e, w')
    end.

Definition throw {A : Type} (e : Js.exn) : M A := fun w => (inl e, w).

(** [try { m } catch (err) { h err }] *)
Definition try_catch {A : Type} (m : M A) (h : Js.exn -> M A) : M A :=
  fun w =>
    match m w with
    | (inl e, w') => h e w'
    | (inr a, w') => (inr a, w')
    end.

(** A value that was computed by code that may throw. *)
Definition lift {A : Type} (r : Js.exn + A) : M A := fun w => (r, w).

(** A query: reads the store. *)
Definition query {A : Type} (q : DB -> A) : M A := fun w => (inr (q (db w)), w).

(** A statement: changes the store. *)
Definition exec (f : DB -> DB) : M unit :=
  fun w => (inr tt, mkWorld (f (db w)) (steps w) (trace w)).

Definition emit (e : Event) : M unit :=
  fun w => (inr tt, mkWorld (db w) (steps w) (trace w ++ [e])).

(** One impure step of the host, such as reading the clock. *)
Definition step {A : Type} (f : nat -> A) : M A :=
  fun w => (inr (f (steps w)), mkWorld (db w) (S (steps w)) (trace w)).

End Rt.

Declare Scope js_scope.
Delimit Scope js_scope with js.
Notation "'let*' x ':=' m 'in' k" := (Rt.bind m (fun x => k))
  (at level 10, x pattern, m at level 100, k at level 200) : js_scope.
Notation "m ';;' k" := (Rt.bind m (fun _ => k))
  (at level 100, k at level 200, right associativity) : js_scope.

(* ===================================================================== *)
(** ** The exposure calculator and the eligibility test ([lib/chog.ts]) *)
(* ===================================================================== *)

Module Chog.
Import Db Rt.
Local Open Scope js_scope.

(** An element of [lpBreakdown]. *)
Record LpShare : Type := mkLpShare {
  pairAddress : string;
  pairName : option string;
  b_userLpBalance : Z;
  b_chogUnderlying : Z
}.

(** The result of [getLpChogExposure]. *)
Record LpPosition : Type := mkLpPosition {
  userLpBalance : Z;
  chogUnderlying : Z
}.

Record ChogExposure : Type := mkChogExposure {
  directBalance : Z;
  lpBalance : Z;
  totalBalance : Z;
  lpBreakdown : list LpShare
}.

(** The first parameter of [isEligible], of type [bigint | string]. *)
Inductive Balance : Type :=
| OfBigint (z : Z)
| OfString (s : string).

(** [BigInt(s)] as code that may throw. *)
Definition toBigInt (s : string) : Js.exn + Z :=
  match Js.BigInt s with
  | Some z => inr z
  | None => inl (Js.Error ("Cannot convert " +:+ s +:+ " to a BigInt"))
  end.

Definition isEligible (balance : Balance) (thresholdRaw : string) : Js.exn + bool :=
  let balanceValue :=
    match balance with
    | OfString s => toBigInt s
    | OfBigint z => inr z
    end in
  match balanceValue with
  | inl e => inl e
  | inr b =>
      match toBigInt thresholdRaw with
      | inl e => inl e
      | inr threshold => inr (b >=? threshold)
      end
  end.

Section WithHost.
Context (host : Host).

(** [client.readContract] of [balanceOf(account)] *)
Definition readBalanceOf (rpcUrl address account : string) : M Z :=
  emit (ReadContract rpcUrl address "balanceOf" [account]);;
  let* v := lift (balanceOf host rpcUrl address account) in
  ret (Z.of_N v).

Definition getDirectChogBalance (rpcUrl chogContract userAddress : string) : M Z :=
  let* balance := readBalanceOf rpcUrl chogContract userAddress in
  ret balance.

(** The three reads of a pair go out together ([Promise.all]); the
    results are then taken in array order, so that when several fail the
    first of them in that order is the one rethrown.  The callers only
    log it. *)
Definition getLpChogExposure (rpcUrl chogContract : string) (lpPair : LpPair)
    (userAddress : string) : M LpPosition :=
  let pairAddress := pair_address lpPair in
  emit (ReadContract rpcUrl pairAddress "balanceOf" [userAddress]);;
  emit (ReadContract rpcUrl pairAddress "totalSupply" []);;
  emit (ReadContract rpcUrl pairAddress "getReserves" []);;
  let* userLpBalance := lift (balanceOf host rpcUrl pairAddress userAddress) in
  let* totalSupply := lift (totalSupply host rpcUrl pairAddress) in
  let* reserves := lift (getReserves host rpcUrl pairAddress) in
  let userLpBalance := Z.of_N userLpBalance in
  let totalSupply := Z.of_N totalSupply in
  if (userLpBalance =? 0) || (totalSupply =? 0) then
    ret (mkLpPosition 0 0)
  else
    let chogReserve :=
      if chog_side lpPair =? 0 then Z.of_N (reserve0 reserves)
      else Z.of_N (reserve1 reserves) in
    let* chogUnderlying :=
      lift (Js.bigint_div (userLpBalance * chogReserve) totalSupply) in
    ret (mkLpPosition userLpBalance chogUnderlying).

(** One turn of the loop over [lpPairs], on [(lpBreakdown, lpBalance)]. *)
Definition lpStep (rpcUrl chogContract userAddress : string) (lpPair : LpPair)
    (acc : list LpShare * Z) : M (list LpShare * Z) :=
  try_catch
    (let* r := getLpChogExposure rpcUrl chogContract lpPair userAddress in
     if chogUnderlying r >? 0 then
       ret (fst acc ++ [mkLpShare (pair_address lpPair) (name lpPair)
                          (userLpBalance r) (chogUnderlying r)],
            snd acc + chogUnderlying r)
     else ret acc)
    (fun err => ret acc).

Fixpoint lpLoop (rpcUrl chogContract userAddress : string)
    (lpPairs : list LpPair) (acc : list LpShare * Z) : M (list LpShare * Z) :=
  match lpPairs with
  | [] => ret acc
  | lpPair :: rest =>
      let* acc' := lpStep rpcUrl chogContract userAddress lpPair acc in
      lpLoop rpcUrl chogContract userAddress rest acc'
  end.

Definition getTotalChogExposure (rpcUrl chogContract : string)
    (lpPairs : list LpPair) (userAddress : string) : M ChogExposure :=
  let* directBalance := getDirectChogBalance rpcUrl chogContract userAddress in
  let* acc := lpLoop rpcUrl chogContract userAddress lpPairs ([], 0) in
  let lpBreakdown := fst acc in
  let lpBalance := snd acc in
  ret (mkChogExposure directBalance lpBalance (directBalance + lpBalance)
         lpBreakdown).

End WithHost.
End Chog.

(* ===================================================================== *)
(** ** The Telegram sender ([lib/telegram.ts], [routes/admin.ts]) *)
(* ===================================================================== *)

Module Telegram.
Import Db Rt.
Local Open Scope js_scope.

Record TelegramSendResult : Type := mkTelegramSendResult {
  success : bool;
  messageId : option Z;
  send_error : option string
}.

Definition sendTelegramMessage (host : Host) (botToken chatId text : string)
  : M TelegramSendResult :=
  try_catch
    (emit (TelegramPost botToken chatId text);;
     let* data := lift (postSendMessage host botToken chatId text) in
     if negb (ok data) then
       ret (mkTelegramSendResult false None
              (Some (Js.or_else (description data) "Unknown error")))
     else
       ret (mkTelegramSendResult true (reply_message_id data) None))
    (fun err => ret (mkTelegramSendResult false None (Some (Js.errMessage err)))).

(** [setting?.value || envChatId] *)
Definition getGroupChatId (envChatId : string) : M string :=
  let* setting := query (fun d => select_setting d "telegram_chat_id") in
  ret (Js.or_else setting envChatId).

End Telegram.

(* ===================================================================== *)
(** ** The screening job ([cron/screening.ts]) *)
(* ===================================================================== *)

Module Screening.
Import Db Rt Chog Telegram.
Local Open Scope js_scope.

Record ScreeningResult : Type := mkScreeningResult {
  runId : string;
  status : RunStatus;
  profilesProcessed : Z;
  walletsProcessed : Z;
  eligibleCount : Z;
  messageSent : bool;
  error : option string
}.

(** The variables a profile's wallet loop updates: [profileTotalChog],
    [walletDetails] and the job-wide [walletsProcessed]. *)
Record Inner : Type := mkInner {
  i_profileTotalChog : Z;
  i_walletDetails : list WalletDetail;
  i_walletsProcessed : Z
}.

(** The variables the profile loop updates. *)
Record Tally : Type := mkTally {
  t_walletsProcessed : Z;
  t_eligibleCount : Z;
  t_newlyEligible : list Listed;
  t_droppedEligible : list string;
  t_allEligible : list Ranked
}.

(** [new Map(previousSnapshots.filter(s => s.eligible)
               .map(s => [s.profile_id, s]))] *)
Definition previousEligibleOf (previousSnapshots : list ProfileSnapshot)
  : gmap string ProfileSnapshot :=
  fold_left (fun m s => <[s_profile_id s := s]> m)
    (List.filter (fun s => negb (s_eligible s =? 0)) previousSnapshots) ∅.

(** [(a, b) => (b.totalRaw > a.totalRaw ? 1 : -1)] *)
Definition byTotalDesc (a b : Ranked) : Z :=
  if k_totalRaw b >? k_totalRaw a then 1 else -1.

Section WithHost.
Context (host : Host).

Definition updateWalletBalances (walletId directChog lpChog totalChog : string)
  : M unit :=
  let* now := step (date_now host) in
  exec (fun d => with_wallets d
          (List.map (set_balances directChog lpChog totalChog now walletId)
             (wallets d))).

(** The body of the loop over [profile.wallets]. *)
Definition processWallet (env : Env) (lpPairs : list LpPair) (wallet : Wallet)
    (st : Inner) : M Inner :=
  try_catch
    (let* exposure :=
       getTotalChogExposure host (MONAD_RPC_URL env) (CHOG_CONTRACT env)
         lpPairs (w_address wallet) in
     updateWalletBalances (w_id wallet)
       (Js.toString (directBalance exposure))
       (Js.toString (lpBalance exposure))
       (Js.toString (totalBalance exposure));;
     ret (mkInner
            (i_profileTotalChog st + totalBalance exposure)
            (i_walletDetails st ++
               [mkWalletDetail (w_address wallet)
                  (Js.toString (directBalance exposure))
                  (Js.toString (lpBalance exposure))
                  (Js.toString (totalBalance exposure))])
            (i_walletsProcessed st + 1)))
    (fun err =>
       exec (fun d => with_wallets d
               (List.map (set_error (Js.errMessage err) (w_id wallet))
                  (wallets d)));;
       ret st).

Fixpoint processWallets (env : Env) (lpPairs : list LpPair)
    (ws : list Wallet) (st : Inner) : M Inner :=
  match ws with
  | [] => ret st
  | wallet :: rest =>
      let* st' := processWallet env lpPairs wallet st in
      processWallets env lpPairs rest st'
  end.

(** The body of the loop over [profiles]. *)
Definition processProfile (env : Env) (lpPairs : list LpPair)
    (previousEligible : gmap string ProfileSnapshot)
    (thresholdRaw runId : string)
    (profile : Profile * list Wallet) (t : Tally) : M Tally :=
  let* inner :=
    processWallets env lpPairs (snd profile)
      (mkInner 0 [] (t_walletsProcessed t)) in
  let profileTotalChog := i_profileTotalChog inner in
  let* eligible := lift (isEligible (OfBigint profileTotalChog) thresholdRaw) in
  let wasEligible :=
    bool_decide (is_Some (previousEligible !! p_id (fst profile))) in
  let handle := Js.replace_at (p_telegram_handle (fst profile)) in
  let formattedChog := formatChogBalance host profileTotalChog in
  let t' :=
    if eligible then
      mkTally (i_walletsProcessed inner) (t_eligibleCount t + 1)
        (if negb wasEligible
         then t_newlyEligible t ++ [mkListed handle formattedChog]
         else t_newlyEligible t)
        (t_droppedEligible t)
        (t_allEligible t ++ [mkRanked handle formattedChog profileTotalChog])
    else if wasEligible then
      mkTally (i_walletsProcessed inner) (t_eligibleCount t)
        (t_newlyEligible t) (t_droppedEligible t ++ [handle])
        (t_allEligible t)
    else
      mkTally (i_walletsProcessed inner) (t_eligibleCount t)
        (t_newlyEligible t) (t_droppedEligible t) (t_allEligible t) in
  exec (fun d => with_snapshots d
          (profile_snapshots d ++
             [mkProfileSnapshot runId (p_id (fst profile))
                (Js.toString profileTotalChog)
                (if eligible then 1 else 0)
                (i_walletDetails inner)]));;
  ret t'.

Fixpoint processProfiles (env : Env) (lpPairs : list LpPair)
    (previousEligible : gmap string ProfileSnapshot)
    (thresholdRaw runId : string)
    (profiles : list (Profile * list Wallet)) (t : Tally) : M Tally :=
  match profiles with
  | [] => ret t
  | profile :: rest =>
      let* t' :=
        processProfile env lpPairs previousEligible thresholdRaw runId
          profile t in
      processProfiles env lpPairs previousEligible thresholdRaw runId rest t'
  end.

(** [allEligible.sort(...)] followed by
    [allEligible.slice(0, 10).map(({ handle, totalChog }) => ...)] *)
Definition topEligibleOf (allEligible : list Ranked) : list Listed :=
  List.map (fun r => mkListed (k_handle r) (k_totalChog r))
    (firstn 10 (array_sort host byTotalDesc allEligible)).

(** What an invocation answers when the interval gate holds it back. *)
Definition skipped (hoursRemaining : Z) : ScreeningResult :=
  mkScreeningResult "" RunSuccess 0 0 0 false
    (Some ("Skipped: " +:+ Js.toString hoursRemaining +:+ "h until next run")).

(** The interval check that opens [runScreening]: [Some r] when the
    invocation returns [r] at once, [None] when it goes on. *)
Definition intervalGate (force : bool) (startedAt : Z)
  : M (option ScreeningResult) :=
  if negb force then
    let* lastRun := query getLastScreeningRun in
    match lastRun with
    | Some lastRun =>
        if RunStatus_eqb (r_status lastRun) RunSuccess then
          let* intervalSetting :=
            query (fun d => select_setting d "screening_interval_hours") in
          let intervalHours := Js.parseInt (Js.or_else intervalSetting "24") in
          let intervalMs := (fun h => h * 60 * 60 * 1000) <$> intervalHours in
          let timeSinceLastRun := startedAt - r_started_at lastRun in
          match intervalMs with
          | Some intervalMs =>
              if timeSinceLastRun <? intervalMs then
                let hoursRemaining :=
                  Js.ceil_div (intervalMs - timeSinceLastRun) (60 * 60 * 1000) in
                ret (Some (skipped hoursRemaining))
              else ret None
          | None => ret None
          end
        else ret None
    | None => ret None
    end
  else ret None.

(** The delivery of the summary; the result is [messageSent]. *)
Definition notify (env : Env) (message : string) : M bool :=
  let* groupChatId := getGroupChatId (TELEGRAM_CHAT_ID env) in
  match TELEGRAM_BOT_TOKEN env, groupChatId with
  | String _ _, String _ _ =>
      let* notificationsSetting :=
        query (fun d => select_setting d "bot_notifications_enabled") in
      let notificationsEnabled :=
        match notificationsSetting with
        | Some v => negb (String.eqb v "false")
        | None => true
        end in
      if notificationsEnabled then
        let* result :=
          sendTelegramMessage host (TELEGRAM_BOT_TOKEN env) groupChatId message in
        ret (success result)
      else ret false
  | _, _ => ret false
  end.

(** The [try] block of [runScreening]. *)
Definition screen (env : Env) (runId : string) : M ScreeningResult :=
  let* profiles := query getAllProfilesWithWallets in
  let* lpPairs := query getEnabledLpPairs in
  let* lastRun := query getLastScreeningRun in
  let* previousSnapshots :=
    match lastRun with
    | Some lastRun => query (fun d => getSnapshotsForRun d (r_id lastRun))
    | None => ret []
    end in
  let previousEligible := previousEligibleOf previousSnapshots in
  let* thresholdSetting :=
    query (fun d => select_setting d "eligibility_threshold_raw") in
  let thresholdRaw := Js.or_else thresholdSetting "1000000000000000000000000" in
  let* t :=
    processProfiles env lpPairs previousEligible thresholdRaw runId profiles
      (mkTally 0 0 [] [] []) in
  let topEligible := topEligibleOf (t_allEligible t) in
  let* clock := step (date_now host) in
  let today := isoDate host clock in
  let message :=
    formatEligibilityMessage host
      (mkSummary today (t_eligibleCount t) (t_newlyEligible t)
         (t_droppedEligible t) topEligible) in
  let* messageSent := notify env message in
  let* finished := step (date_now host) in
  let profilesN := Z.of_nat (List.length profiles) in
  exec (fun d => with_runs d
          (List.map (set_success finished profilesN (t_walletsProcessed t)
                       (t_eligibleCount t) (if messageSent then 1 else 0) runId)
             (screening_runs d)));;
  emit (RunStatusWrite runId RunSuccess);;
  ret (mkScreeningResult runId RunSuccess profilesN (t_walletsProcessed t)
         (t_eligibleCount t) messageSent None).

(** The [catch] block of [runScreening]. *)
Definition screenFailed (runId : string) (err : Js.exn) : M ScreeningResult :=
  let error := Js.errMessage err in
  let* finished := step (date_now host) in
  exec (fun d => with_runs d
          (List.map (set_failed finished error runId) (screening_runs d)));;
  emit (RunStatusWrite runId RunError);;
  ret (mkScreeningResult runId RunError 0 0 0 false (Some error)).

Definition runScreening (env : Env) (force : bool) : M ScreeningResult :=
  let* runId := step (randomUUID host) in
  let* startedAt := step (date_now host) in
  let* gate := intervalGate force startedAt in
  match gate with
  | Some result => ret result
  | None =>
      exec (fun d => with_runs d
              (screening_runs d ++
                 [mkScreeningRun runId startedAt None RunRunning None 0 0 0 0]));;
      emit (RunStatusWrite runId RunRunning);;
      try_catch (screen env runId) (screenFailed runId)
  end.

End WithHost.
End Screening.

(* ===================================================================== *)
(** ** Reference notions the properties are stated with *)
(* ===================================================================== *)

Module Ref.
Import Db Rt Chog Screening.

Definition blankDB : DB := mkDB [] [] [] [] [] [].
Definition blank : World := mkWorld blankDB 0 [].

(** The value and the requests of a computation that only talks to the
    chain: it neither reads nor changes the store or the step counter, so
    any world serves to run it (see [reads_getTotalChogExposure]). *)
Definition result_of {A : Type} (m : M A) : Js.exn + A := fst (m blank).
Definition events_of {A : Type} (m : M A) : list Event := trace (snd (m blank)).

Definition reads_only {A : Type} (m : M A) : Prop :=
  forall w, m w = (result_of m, mkWorld (db w) (steps w) (trace w ++ events_of m)).

Definition sumZ (l : list Z) : Z := fold_right Z.add 0 l.

Section WithHost.
Context (host : Host) (rpcUrl chogContract : string).

(** What one pool yields for an address: a position, or the failure of
    one of its reads. *)
Definition poolOf (userAddress : string) (lpPair : LpPair) : Js.exn + LpPosition :=
  result_of (getLpChogExposure host rpcUrl chogContract lpPair userAddress).

Definition poolReads (userAddress : string) (lpPair : LpPair) : list Event :=
  events_of (getLpChogExposure host rpcUrl chogContract lpPair userAddress).

(** A pool's contribution: zero when its reads fail. *)
Definition contribution (userAddress : string) (lpPair : LpPair) : Z :=
  match poolOf userAddress lpPair with
  | inr r => chogUnderlying r
  | inl _ => 0
  end.

(** The breakdown rows of a pool: none when its reads fail or when it
    contributes nothing. *)
Definition shareRows (userAddress : string) (lpPair : LpPair) : list LpShare :=
  match poolOf userAddress lpPair with
  | inr r =>
      if chogUnderlying r >? 0
      then [mkLpShare (pair_address lpPair) (name lpPair)
              (userLpBalance r) (chogUnderlying r)]
      else []
  | inl _ => []
  end.

Definition exposureOf (lpPairs : list LpPair) (userAddress : string)
  : Js.exn + ChogExposure :=
  result_of (getTotalChogExposure host rpcUrl chogContract lpPairs userAddress).

Definition exposureReads (lpPairs : list LpPair) (userAddress : string)
  : list Event :=
  events_of (getTotalChogExposure host rpcUrl chogContract lpPairs userAddress).

End WithHost.

(** Descending order on totals as a three-way comparison. *)
Definition byTotalDesc3 (a b : Ranked) : Z :=
  if k_totalRaw b >? k_totalRaw a then 1
  else if k_totalRaw a >? k_totalRaw b then -1
  else 0.

(** Insertion sort as an engine runs it: each element, in array order, is
    compared as the first argument against the elements already placed and
    goes in front of the first one it is smaller than. *)
Fixpoint place {A : Type} (cmp : A -> A -> Z) (x : A) (placed : list A) : list A :=
  match placed with
  | [] => [x]
  | y :: rest => if cmp x y <? 0 then x :: placed else y :: place cmp x rest
  end.

Definition insertion_sort {A : Type} (cmp : A -> A -> Z) (l : list A) : list A :=
  fold_left (fun placed x => place cmp x placed) l [].

(** A consistent comparison function on the elements of [l] (ECMAScript,
    Array.prototype.sort). *)
Record consistent {A : Type} (cmp : A -> A -> Z) (l : list A) : Prop := {
  cmp_refl : forall a, In a l -> cmp a a = 0;
  cmp_sym : forall a b, In a l -> In b l -> cmp a b = 0 -> cmp b a = 0;
  cmp_trans_eq : forall a b c, In a l -> In b l -> In c l ->
    cmp a b = 0 -> cmp b c = 0 -> cmp a c = 0;
  cmp_trans_lt : forall a b c, In a l -> In b l -> In c l ->
    cmp a b < 0 -> cmp b c < 0 -> cmp a c < 0;
  cmp_trans_gt : forall a b c, In a l -> In b l -> In c l ->
    cmp a b > 0 -> cmp b c > 0 -> cmp a c > 0
}.

(** What is assumed of the engine's sort: it permutes the array; with a
    consistent comparison function it sorts stably, as [insertion_sort]
    does; and it never compares an element with itself, so that two
    comparison functions that agree on distinct elements sort an array
    without repetitions alike. *)
Record sort_conforms {A : Type}
    (sort : (A -> A -> Z) -> list A -> list A) : Prop := {
  sort_perm : forall cmp l, Permutation l (sort cmp l);
  sort_stable : forall cmp l, consistent cmp l -> sort cmp l = insertion_sort cmp l;
  sort_irrefl : forall cmp cmp' l, List.NoDup l ->
    (forall a b, In a l -> In b l -> a <> b -> cmp a b = cmp' a b) ->
    sort cmp l = sort cmp' l
}.

(** What an engine's sort does beyond the letter of the language: it orders
    the elements on the answers of the comparison function and on nothing
    else.  So when no answer contradicts a transitive relation [le], a
    negative one for [a] and [b] being given only when [le a b], a positive
    one only when [le b a] and zero only when both hold, the sorted array is
    ordered by [le].  Insertion sort is such a sort, as are the merge sorts
    of the engines; the language leaves the order to the implementation when
    the comparison function is not consistent. *)
Definition sort_sound {A : Type}
    (sort : (A -> A -> Z) -> list A -> list A) : Prop :=
  forall (cmp : A -> A -> Z) (le : A -> A -> Prop) (l : list A),
    (forall a b c, In a l -> In b l -> In c l -> le a b -> le b c -> le a c) ->
    (forall a b, In a l -> In b l ->
                 (cmp a b < 0 -> le a b) /\ (0 < cmp a b -> le b a)
                 /\ (cmp a b = 0 -> le a b /\ le b a)) ->
    StronglySorted le (sort cmp l).

Definition descending (a b : Ranked) : Prop := k_totalRaw a >= k_totalRaw b.
Definition strictly_descending (a b : Ranked) : Prop := k_totalRaw a > k_totalRaw b.

(** The leaderboard of a stable descending sort. *)
Definition stableTop (allEligible : list Ranked) : list Listed :=
  List.map (fun r => mkListed (k_handle r) (k_totalChog r))
    (firstn 10 (insertion_sort byTotalDesc3 allEligible)).

(** *** The closed form of the two loops of the job *)

Section Loops.
Context (host : Host) (env : Env) (lpPairs : list LpPair).

Definition exposure (wallet : Wallet) : Js.exn + ChogExposure :=
  exposureOf host (MONAD_RPC_URL env) (CHOG_CONTRACT env) lpPairs
    (w_address wallet).

Definition reads (wallet : Wallet) : list Event :=
  exposureReads host (MONAD_RPC_URL env) (CHOG_CONTRACT env) lpPairs
    (w_address wallet).

Definition succeeded (wallet : Wallet) : bool :=
  match exposure wallet with inr _ => true | inl _ => false end.

(** A wallet's share of its profile's aggregate: zero when its exposure
    computation throws. *)
Definition share (wallet : Wallet) : Z :=
  match exposure wallet with
  | inr e => totalBalance e
  | inl _ => 0
  end.

Definition total (ws : list Wallet) : Z := sumZ (List.map share ws).

Definition detail (wallet : Wallet) : list WalletDetail :=
  match exposure wallet with
  | inr e => [mkWalletDetail (w_address wallet)
                (Js.toString (directBalance e))
                (Js.toString (lpBalance e))
                (Js.toString (totalBalance e))]
  | inl _ => []
  end.

(** What the wallet loop over [ws], started at step [n], makes of a row of
    the wallets table. *)
Fixpoint touch (ws : list Wallet) (n : nat) (row : Wallet) : Wallet :=
  match ws with
  | [] => row
  | wallet :: rest =>
      match exposure wallet with
      | inr e =>
          touch rest (S n)
            (set_balances (Js.toString (directBalance e))
               (Js.toString (lpBalance e)) (Js.toString (totalBalance e))
               (date_now host n) (w_id wallet) row)
      | inl err =>
          touch rest n (set_error (Js.errMessage err) (w_id wallet) row)
      end
  end.

Definition ticks (ws : list Wallet) : nat :=
  List.length (List.filter succeeded ws).

Section Threshold.
Context (previousEligible : gmap string ProfileSnapshot) (threshold : Z).

Definition eligibleNow (profile : Profile * list Wallet) : bool :=
  total (snd profile) >=? threshold.

Definition wasEligible (profile : Profile * list Wallet) : bool :=
  bool_decide (is_Some (previousEligible !! p_id (fst profile))).

Definition handleOf (profile : Profile * list Wallet) : string :=
  Js.replace_at (p_telegram_handle (fst profile)).

Definition listedOf (profile : Profile * list Wallet) : Listed :=
  mkListed (handleOf profile) (formatChogBalance host (total (snd profile))).

Definition rankedOf (profile : Profile * list Wallet) : Ranked :=
  mkRanked (handleOf profile) (formatChogBalance host (total (snd profile)))
    (total (snd profile)).

Definition snapshotOf (runId : string) (profile : Profile * list Wallet)
  : ProfileSnapshot :=
  mkProfileSnapshot runId (p_id (fst profile))
    (Js.toString (total (snd profile)))
    (if eligibleNow profile then 1 else 0)
    (flat_map detail (snd profile)).

Definition newly (profiles : list (Profile * list Wallet)) : list Listed :=
  List.map listedOf
    (List.filter (fun p => eligibleNow p && negb (wasEligible p)) profiles).

Definition dropped (profiles : list (Profile * list Wallet)) : list string :=
  List.map handleOf
    (List.filter (fun p => negb (eligibleNow p) && wasEligible p) profiles).

Definition ranked (profiles : list (Profile * list Wallet)) : list Ranked :=
  List.map rankedOf (List.filter eligibleNow profiles).

End Threshold.
End Loops.

(** The snapshots the previously-eligible set is built from. *)
Definition baseline (d : DB) : list ProfileSnapshot :=
  match getLastScreeningRun d with
  | Some lastRun => getSnapshotsForRun d (r_id lastRun)
  | None => []
  end.

(** The threshold a run reads. *)
Definition thresholdOf (d : DB) : string :=
  Js.or_else (select_setting d "eligibility_threshold_raw")
    "1000000000000000000000000".

(** The interval a run reads, in hours; [None] is [NaN]. *)
Definition intervalHoursOf (d : DB) : option Z :=
  Js.parseInt (Js.or_else (select_setting d "screening_interval_hours") "24").

(** The status writes of a run among some events. *)
Definition statusWrites (evs : list Event) : list (string * RunStatus) :=
  flat_map (fun e => match e with
                     | RunStatusWrite runId st => [(runId, st)]
                     | _ => []
                     end) evs.

Definition chainReads (evs : list Event) : list Event :=
  List.filter (fun e => match e with ReadContract _ _ _ _ => true | _ => false end) evs.

(** What the job leaves behind once the run record exists: [w] is the world
    right after the record was created, [w'] the world at the end, [ws] the
    wallets whose exposure was computed or attempted, in order. *)
Record Job (host : Host) (env : Env) (runId : string) (w w' : World)
    (res : ScreeningResult) (terminal : RunStatus) (ws : list Wallet) : Prop := {
  job_runId : Screening.runId res = runId;
  job_status : status res = terminal;
  job_terminal : terminal = RunSuccess \/ terminal = RunError;
  job_success :
    terminal = RunSuccess <->
    (getAllProfilesWithWallets (db w) = []
     \/ is_Some (Js.BigInt (thresholdOf (db w))));
  job_trace :
    exists evs,
      trace w' = trace w ++ evs ++ [RunStatusWrite runId terminal] /\
      statusWrites evs = [] /\
      chainReads evs = flat_map (reads host env (getEnabledLpPairs (db w))) ws;
  job_ws :
    exists rest, flat_map snd (getAllProfilesWithWallets (db w)) = ws ++ rest;
  job_counts :
    terminal = RunSuccess ->
    ws = flat_map snd (getAllProfilesWithWallets (db w)) /\
    walletsProcessed res
      = Z.of_nat (List.length
                    (List.filter (succeeded host env (getEnabledLpPairs (db w))) ws)) /\
    profilesProcessed res
      = Z.of_nat (List.length (getAllProfilesWithWallets (db w))) /\
    error res = None;
  job_sent :
    messageSent res = true ->
    terminal = RunSuccess /\
    exists chatId message reply,
      postSendMessage host (TELEGRAM_BOT_TOKEN env) chatId message = inr reply
      /\ ok reply = true;
  job_wallets :
    wallets (db w')
    = List.map (touch host env (getEnabledLpPairs (db w)) ws (steps w))
        (wallets (db w));
  job_frame :
    profiles (db w') = profiles (db w) /\ lp_pairs (db w') = lp_pairs (db w) /\
    settings (db w') = settings (db w);
  job_runs :
    exists f,
      screening_runs (db w') = List.map f (screening_runs (db w)) /\
      forall r, r_id (f r) = r_id r /\ r_started_at (f r) = r_started_at r /\
                (r_id r = runId -> r_status (f r) = terminal) /\
                (r_id r <> runId -> f r = r)
}.

(** The world right after the run record is created. *)
Definition inserted (host : Host) (w : World) : World :=
  mkWorld
    (with_runs (db w)
       (screening_runs (db w)
        ++ [mkScreeningRun (randomUUID host (steps w))
              (date_now host (S (steps w))) None RunRunning None 0 0 0 0]))
    (S (S (steps w)))
    (trace w ++ [RunStatusWrite (randomUUID host (steps w)) RunRunning]).

(** The invocation created its run record: the first thing it added to the
    trace is the write of [running], and the table has one more row, with
    the invocation's id and start time. *)
Definition created (runId : string) (startedAt : Z) (w w' : World) : Prop :=
  (exists evs, trace w' = trace w ++ RunStatusWrite runId RunRunning :: evs) /\
  List.length (screening_runs (db w')) = S (List.length (screening_runs (db w))) /\
  exists r, In r (screening_runs (db w')) /\ r_id r = runId
            /\ r_started_at r = startedAt.

(** The invocation was held back: nothing was written, nothing was sent. *)
Definition untouched (w w' : World) : Prop :=
  db w' = db w /\ trace w' = trace w.

(** The invocation went through the job: from the world in which its run
    record was created, [w'] and [res] are what the job leaves behind.  When
    the threshold setting reads as an integer the run is a success that has
    evaluated every profile that has a wallet: the answer carries the
    counts, the snapshots table has one more row for each such profile, the
    wallets table has the outcome of each wallet, and the chain was read for
    each wallet in turn. *)
Definition executed (host : Host) (env : Env) (w w' : World)
    (res : ScreeningResult) : Prop :=
  let d := db w in
  let profiles := getAllProfilesWithWallets d in
  let lpPairs := getEnabledLpPairs d in
  let ws := flat_map snd profiles in
  let runId := randomUUID host (steps w) in
  (exists terminal ws',
      Job host env runId (inserted host w) w' res terminal ws') /\
  forall threshold,
    Js.BigInt (thresholdOf d) = Some threshold ->
    (exists sent,
        res = mkScreeningResult runId RunSuccess
                (Z.of_nat (List.length profiles))
                (Z.of_nat (ticks host env lpPairs ws))
                (Z.of_nat (List.length
                             (List.filter
                                (eligibleNow host env lpPairs threshold)
                                profiles)))
                sent None) /\
    profile_snapshots (db w')
    = profile_snapshots d
      ++ List.map (snapshotOf host env lpPairs threshold runId) profiles /\
    wallets (db w')
    = List.map (touch host env lpPairs ws (S (S (steps w)))) (wallets d) /\
    chainReads (trace w')
    = chainReads (trace w) ++ flat_map (reads host env lpPairs) ws.

(** The profile was eligible at the last successful run: a snapshot of the
    run that [getLastScreeningRun] finds is this profile's and is marked
    eligible. *)
Definition previously (d : DB) (pid : string) : bool :=
  match getLastScreeningRun d with
  | Some lastRun =>
      existsb (fun s => String.eqb (s_run_id s) (r_id lastRun)
                        && String.eqb (s_profile_id s) pid
                        && negb (s_eligible s =? 0))
        (profile_snapshots d)
  | None => false
  end.

(** The chat the summary goes to. *)
Definition chatIdOf (env : Env) (d : DB) : string :=
  Js.or_else (select_setting d "telegram_chat_id") (TELEGRAM_CHAT_ID env).

(** The summary is sent: there is a token and a chat, and notifications are
    not switched off. *)
Definition notifying (env : Env) (d : DB) : bool :=
  negb (String.eqb (TELEGRAM_BOT_TOKEN env) "")
  && negb (String.eqb (chatIdOf env d) "")
  && match select_setting d "bot_notifications_enabled" with
     | Some v => negb (String.eqb v "false")
     | None => true
     end.

(** The summary of a run over the store [d] whose profile loop ended at
    step [n], with eligibility decided against [threshold]. *)
Definition summaryOf (host : Host) (env : Env) (d : DB) (threshold : Z)
    (n : nat) : Summary :=
  let profiles := getAllProfilesWithWallets d in
  let lpPairs := getEnabledLpPairs d in
  mkSummary (isoDate host (date_now host n))
    (Z.of_nat (List.length
                 (List.filter (eligibleNow host env lpPairs threshold) profiles)))
    (newly host env lpPairs (previousEligibleOf (baseline d)) threshold profiles)
    (dropped host env lpPairs (previousEligibleOf (baseline d)) threshold
       profiles)
    (topEligibleOf host (ranked host env lpPairs threshold profiles)).

(** What a run that sends its summary adds to the trace. *)
Definition posts (host : Host) (env : Env) (d : DB) (summary : Summary)
  : list Event :=
  if notifying env d
  then [TelegramPost (TELEGRAM_BOT_TOKEN env) (chatIdOf env d)
          (formatEligibilityMessage host summary)]
  else [].

End Ref.

(* ===================================================================== *)
(** ** A concrete deployment, used to exercise the statements *)
(* ===================================================================== *)

Module Demo.
Import Db Rt Chog Screening.

Definition chog : string := "0xc406".
Definition poolP : string := "0xpool".
Definition poolQ : string := "0xdown".

(** Balances of the token and of pool P's share token; pool Q's node is
    down, and so is the token's for the address [0xbad]. *)
Definition demo_balanceOf (rpcUrl address account : string) : Js.exn + N :=
  if String.eqb address chog then
    if String.eqb account "0xw" then inr 100%N
    else if String.eqb account "0xa" then inr 500%N
    else if String.eqb account "0xb" then inr 2000000%N
    else if String.eqb account "0xc" then inr 1000000%N
    else if String.eqb account "0xd" then inr 42%N
    else if String.eqb account "0xbad" then inl (Js.Error "execution reverted")
    else inr 0%N
  else if String.eqb address poolP then
    if String.eqb account "0xw" then inr 10%N else inr 0%N
  else inl (Js.Error "HTTP request failed").

Definition demo_totalSupply (rpcUrl address : string) : Js.exn + N :=
  if String.eqb address poolP then inr 100%N
  else inl (Js.Error "HTTP request failed").

Definition demo_getReserves (rpcUrl address : string) : Js.exn + Reserves :=
  if String.eqb address poolP then inr (mkReserves 5000 77 0)
  else inl (Js.Error "HTTP request failed").

Definition host : Host :=
  mkHost demo_balanceOf demo_totalSupply demo_getReserves
    (fun n => 1700000000000 + 1000 * Z.of_nat n)
    (fun n => "run-" +:+ Js.toString (Z.of_nat n))
    (fun _ => "2023-11-14")
    (fun _ _ _ => inl (Js.Error "fetch failed"))
    Ref.insertion_sort
    Js.toString
    (fun s => "Eligible: " +:+ Js.toString (Rt.eligibleCount s)).

Definition env : Env := mkEnv "bot-token" "-100200300" "https://rpc.monad.xyz" chog.

Definition pairP : LpPair := mkLpPair poolP (Some "CHOG/MON") chog "0xmon" 0 1 1.
Definition pairQ : LpPair := mkLpPair poolQ None "0xmon" chog 1 1 2.

Definition wallet (id profileId address : string) (created : Z) : Wallet :=
  mkWallet id profileId address None (Some created) (Some 5) (Some "7") (Some "0")
    (Some "7") WVerified None created.

Definition walletA := wallet "wa" "A" "0xa" 10.
Definition walletB := wallet "wb" "B" "0xb" 11.
Definition walletC := wallet "wc" "C" "0xc" 12.
Definition walletBad := wallet "wx" "D" "0xbad" 13.
Definition walletD := wallet "wd" "D" "0xd" 14.

Definition lastRunAt (started : Z) : ScreeningRun :=
  mkScreeningRun "run-old" started (Some (started + 5000)) RunSuccess None 3 3 2 1.

(** The last successful run found A and B eligible and C not. *)
Definition storeAt (lastStarted : Z) : DB :=
  mkDB
    [mkProfile "A" "@alice" "h" 1 1; mkProfile "B" "@bob" "h" 2 2;
     mkProfile "C" "carol" "h" 3 3; mkProfile "D" "@dave" "h" 4 4;
     mkProfile "E" "@erin" "h" 5 5]
    [walletA; walletB; walletC; walletBad; walletD]
    [pairP; pairQ]
    [lastRunAt lastStarted]
    [mkProfileSnapshot "run-old" "A" "3000000" 1 [];
     mkProfileSnapshot "run-old" "B" "2000000" 1 [];
     mkProfileSnapshot "run-old" "C" "5" 0 []]
    [("eligibility_threshold_raw", "1000000"); ("screening_interval_hours", "24")].

(** The clock starts at 1700000000000: the last run is more than a day old. *)
Definition store : DB := storeAt 1699900000000.

Definition world : World := mkWorld store 0 [].

(** The same deployment with a last run less than three hours old. *)
Definition recent : World := mkWorld (storeAt 1699990000000) 0 [].

(** Two profiles that hold the same total. *)
Definition tied : list Ranked :=
  [mkRanked "first" "5.0M" 5; mkRanked "second" "5.0M" 5].

End Demo.

(* ===================================================================== *)
(** ** Text functions of the lookups *)
(* ===================================================================== *)

(** Strings are sequences of bytes.  SQLite's [lower] changes the letters
    [A] to [Z] and no other byte, on every string, and [sql_lower] is that
    function.  [String.prototype.toLowerCase] does the same on ASCII
    strings, and [toLowerCase] stands for it on those only: JavaScript also
    folds the letters outside ASCII, which SQLite leaves as they are.
    Addresses are hexadecimal and the user names Telegram issues are ASCII.
    A handle typed into the profile form is checked against
    [[a-zA-Z0-9_]]; the one sent to [POST /link] is stored as it comes, so
    what is said of created handles is said of those that satisfy
    [ascii_only]. *)
Module Text.

(** Every byte of the string is below 128. *)
Fixpoint ascii_only (s : string) : bool :=
  match s with
  | EmptyString => true
  | String c rest => (nat_of_ascii c <? 128)%nat && ascii_only rest
  end.

Definition lower_char (c : ascii) : ascii :=
  let n := nat_of_ascii c in
  if (65 <=? n)%nat && (n <=? 90)%nat then ascii_of_nat (n + 32) else c.

(** [s.toLowerCase()] *)
Fixpoint toLowerCase (s : string) : string :=
  match s with
  | EmptyString => EmptyString
  | String c rest => String (lower_char c) (toLowerCase rest)
  end.

(** SQLite's [lower(X)] *)
Definition sql_lower (s : string) : string := toLowerCase s.

(** SQLite's [replace(X, '@', '')]: every [@] goes. *)
Fixpoint sql_replace_at (s : string) : string :=
  match s with
  | EmptyString => EmptyString
  | String c rest =>
      if Ascii.eqb c "@" then sql_replace_at rest
      else String c (sql_replace_at rest)
  end.

(** [s.replace(/^@/, '')]: one leading [@] goes. *)
Definition replace_leading_at (s : string) : string :=
  match s with
  | String c rest => if Ascii.eqb c "@" then rest else s
  | EmptyString => s
  end.

End Text.

(* ===================================================================== *)
(** ** Profiles, wallets and snapshots ([lib/db.ts], continued) *)
(* ===================================================================== *)

Module Accounts.
Import Db Rt.
Local Open Scope js_scope.

Definition with_profiles (db : DB) (ps : list Profile) : DB :=
  mkDB ps (wallets db) (lp_pairs db) (screening_runs db)
    (profile_snapshots db) (settings db).

(** [SELECT * FROM profiles
     WHERE lower(replace(telegram_handle, '@', '')) = ?] with [.first()] *)
Definition getProfileByHandle (db : DB) (handle : string) : option Profile :=
  let normalized := Text.replace_leading_at (Text.toLowerCase handle) in
  List.find
    (fun p => String.eqb
                (Text.sql_lower (Text.sql_replace_at (p_telegram_handle p)))
                normalized)
    (profiles db).

(** [SELECT * FROM profiles WHERE id = ?] with [.first()] *)
Definition getProfileById (db : DB) (id : string) : option Profile :=
  List.find (fun p => String.eqb (p_id p) id) (profiles db).

(** [SELECT * FROM wallets WHERE lower(address) = ?] with [.first()] *)
Definition getWalletByAddress (db : DB) (address : string) : option Wallet :=
  let normalized := Text.toLowerCase address in
  List.find (fun w => String.eqb (Text.sql_lower (w_address w)) normalized)
    (wallets db).

Definition getProfileByWalletAddress (db : DB) (address : string)
  : option Profile :=
  let normalized := Text.toLowerCase address in
  match List.find
          (fun w => String.eqb (Text.sql_lower (w_address w)) normalized)
          (wallets db) with
  | None => None
  | Some wallet => getProfileById db (w_profile_id wallet)
  end.

Definition createProfile (host : Host) (id handle editSecretHash : string)
  : M unit :=
  let* now := step (date_now host) in
  exec (fun d => with_profiles d
          (profiles d ++ [mkProfile id handle editSecretHash now now])).

(** [UPDATE profiles SET edit_secret_hash = ?, updated_at = ? WHERE id = ?] *)
Definition set_edit_secret (editSecretHash : string) (now : Z) (id : string)
    (p : Profile) : Profile :=
  if String.eqb (p_id p) id then
    mkProfile (p_id p) (p_telegram_handle p) editSecretHash (p_created_at p) now
  else p.

Definition updateProfileEditSecret (host : Host) (id editSecretHash : string)
  : M unit :=
  let* now := step (date_now host) in
  exec (fun d => with_profiles d
          (List.map (set_edit_secret editSecretHash now id) (profiles d))).

(** The row is inserted with the address in lower case, status [verified]
    and the same time in [verified_at] and [created_at]; the columns that
    are not listed are NULL. *)
Definition createWallet (host : Host) (id profileId address : string)
    (walletRdns : option string) : M unit :=
  let* now := step (date_now host) in
  exec (fun d => with_wallets d
          (wallets d
           ++ [mkWallet id profileId (Text.toLowerCase address) walletRdns
                 (Some now) None None None None WVerified None now])).

(** [WHERE profile_id = ? AND lower(address) = ?] *)
Definition deleted_row (profileId normalized : string) (w : Wallet) : bool :=
  String.eqb (w_profile_id w) profileId
  && String.eqb (Text.sql_lower (w_address w)) normalized.

(** [DELETE FROM wallets WHERE profile_id = ? AND lower(address) = ?];
    the answer is [result.meta.changes > 0]. *)
Definition deleteWallet (profileId address : string) : M bool :=
  let normalized := Text.toLowerCase address in
  let* changes :=
    query (fun d => List.length
                      (List.filter (deleted_row profileId normalized) (wallets d))) in
  exec (fun d => with_wallets d
          (List.filter (fun w => negb (deleted_row profileId normalized w))
             (wallets d)));;
  ret (0 <? Z.of_nat changes).

(** [profile_snapshots ps JOIN screening_runs sr ON ps.run_id = sr.id] *)
Definition joined (db : DB) : list (ProfileSnapshot * ScreeningRun) :=
  flat_map
    (fun ps =>
       List.map (fun sr => (ps, sr))
         (List.filter (fun sr => String.eqb (s_run_id ps) (r_id sr))
            (screening_runs db)))
    (profile_snapshots db).

(** [SELECT ps.* FROM profile_snapshots ps
     JOIN screening_runs sr ON ps.run_id = sr.id
     WHERE ps.profile_id = ? AND sr.status = 'success'
     ORDER BY sr.started_at DESC LIMIT 1] with [.first()] *)
Definition getLatestSnapshotForProfile (db : DB) (profileId : string)
  : option ProfileSnapshot :=
  fst <$>
    List.head
      (order_by_desc (fun row => r_started_at (snd row))
         (List.filter
            (fun row => String.eqb (s_profile_id (fst row)) profileId
                        && RunStatus_eqb (r_status (snd row)) RunSuccess)
            (joined db))).

End Accounts.

(* ===================================================================== *)
(** ** The text of the summary ([lib/telegram.ts]) *)
(* ===================================================================== *)

Module Message.
Import Rt.

Definition newline : string := String (ascii_of_nat 10) EmptyString.

(** The built-ins of [formatNumber] that work on floating-point numbers:
    [parseFloat], which answers [None] for [NaN], and [toLocaleString] for
    [en-US] without fraction digits. *)
Record Numbers : Type := mkNumbers {
  number : Type;
  parseFloat : string -> option number;
  toLocaleString : number -> string
}.

Section WithNumbers.
Context (numbers : Numbers).

Definition formatNumber (value : string) : string :=
  match parseFloat numbers value with
  | None => value
  | Some num => toLocaleString numbers num
  end.

(** An array length in a template literal. *)
Definition count {A : Type} (l : list A) : string :=
  Js.toString (Z.of_nat (List.length l)).

Definition medal (i : nat) : string :=
  match i with
  | 0%nat => "🥇"
  | 1%nat => "🥈"
  | 2%nat => "🥉"
  | _ => Js.toString (Z.of_nat i + 1) +:+ "."
  end.

(** The [forEach] over the top holders, from index [i] on. *)
Fixpoint topLines (i : nat) (users : list Listed) : list string :=
  match users with
  | [] => []
  | user :: rest =>
      (medal i +:+ " @" +:+ handle user +:+ " — "
       +:+ formatNumber (totalChog user) +:+ " CHOG")
      :: topLines (S i) rest
  end.

(** The array [lines].  [topEligible] is optional in the source; the job
    always passes it. *)
Definition messageLines (data : Summary) : list string :=
  ["🐸 *CHOG Eligibility — " +:+ date data +:+ "*";
   "";
   "📊 *Summary*";
   "• Eligible: " +:+ Js.toString (eligibleCount data);
   "• New: " +:+ count (newlyEligible data);
   "• Dropped: " +:+ count (droppedEligible data);
   ""]
  ++ (if (0 <? List.length (newlyEligible data))%nat then
        ["✅ *Newly Eligible*"]
        ++ List.map
             (fun user => "• @" +:+ handle user +:+ " — "
                          +:+ formatNumber (totalChog user) +:+ " CHOG")
             (firstn 20 (newlyEligible data))
        ++ (if (20 <? List.length (newlyEligible data))%nat then
              ["  _...and "
               +:+ Js.toString (Z.of_nat (List.length (newlyEligible data)) - 20)
               +:+ " more_"]
            else [])
        ++ [""]
      else [])
  ++ (if (0 <? List.length (droppedEligible data))%nat then
        ["❌ *No Longer Eligible*"]
        ++ List.map (fun user => "• @" +:+ user)
             (firstn 10 (droppedEligible data))
        ++ (if (10 <? List.length (droppedEligible data))%nat then
              ["  _...and "
               +:+ Js.toString (Z.of_nat (List.length (droppedEligible data)) - 10)
               +:+ " more_"]
            else [])
        ++ [""]
      else [])
  ++ (if (0 <? List.length (topEligible data))%nat then
        "🏆 *Top 10 Holders*" :: topLines 0 (firstn 10 (topEligible data))
      else []).

Definition formatEligibilityMessage (data : Summary) : string :=
  String.concat newline (messageLines data).

End WithNumbers.
End Message.

(* ===================================================================== *)
(** ** Group management ([lib/telegram.ts], [routes/bot.ts]) *)
(* ===================================================================== *)

(** The membership calls of the Bot API are kept in a log of their own,
    beside the world of the job. *)
Module BotRt.
Import Rt.

Inductive Call : Type :=
| BanChatMember (botToken chatId : string) (userId : Z) (revokeMessages : bool)
| UnbanChatMember (botToken chatId : string) (userId : Z)
| ApproveChatJoinRequest (botToken chatId : string) (userId : Z)
| DeclineChatJoinRequest (botToken chatId : string) (userId : Z).

(** The JSON body of an answer, as far as it is read. *)
Record ApiReply : Type := mkApiReply {
  a_ok : bool;
  a_description : option string
}.

(** The Bot API: [fetch] and [response.json()] may throw. *)
Record Api : Type := mkApi {
  answer : Call -> Js.exn + ApiReply
}.

Record State : Type := mkState {
  base : World;
  calls : list Call
}.

Definition B (A : Type) : Type := State -> (Js.exn + A) * State.

Definition ret {A : Type} (a : A) : B A := fun st => (inr a, st).

Definition bind {A C : Type} (m : B A) (k : A -> B C) : B C :=
  fun st =>
    match m st with
    | (inr a, st') => k a st'
    | (inl e, st') => (inl e, st')
    end.

Definition try_catch {A : Type} (m : B A) (h : Js.exn -> B A) : B A :=
  fun st =>
    match m st with
    | (inl e, st') => h e st'
    | (inr a, st') => (inr a, st')
    end.

(** One request to the Bot API. *)
Definition call (api : Api) (c : Call) : B ApiReply :=
  fun st => (answer api c, mkState (base st) (calls st ++ [c])).

(** A computation of the worker that does not manage members. *)
Definition run {A : Type} (m : M A) : B A :=
  fun st =>
    match m (base st) with
    | (r, w') => (r, mkState w' (calls st))
    end.

End BotRt.

Declare Scope bot_scope.
Delimit Scope bot_scope with bot.
Notation "'let*' x ':=' m 'in' k" := (BotRt.bind m (fun x => k))
  (at level 10, x pattern, m at level 100, k at level 200) : bot_scope.
Notation "m ';;' k" := (BotRt.bind m (fun _ => k))
  (at level 100, k at level 200, right associativity) : bot_scope.

Module Bot.
Import Db Rt BotRt.
Local Open Scope bot_scope.

Record TelegramApiResult : Type := mkTelegramApiResult {
  api_success : bool;
  api_error : option string
}.

(** Ban, then unban so that the user may come back later. *)
Definition kickChatMember (api : Api) (botToken chatId : string) (userId : Z)
    (revokeMessages : bool) : B TelegramApiResult :=
  try_catch
    (let* data := call api (BanChatMember botToken chatId userId revokeMessages) in
     if negb (a_ok data) then
       ret (mkTelegramApiResult false
              (Some (Js.or_else (a_description data) "Unknown error")))
     else
       call api (UnbanChatMember botToken chatId userId);;
       ret (mkTelegramApiResult true None))
    (fun err => ret (mkTelegramApiResult false (Some (Js.errMessage err)))).

Definition approveChatJoinRequest (api : Api) (botToken chatId : string)
    (userId : Z) : B TelegramApiResult :=
  try_catch
    (let* data := call api (ApproveChatJoinRequest botToken chatId userId) in
     ret (mkTelegramApiResult (a_ok data)
            (if a_ok data then None else a_description data)))
    (fun err => ret (mkTelegramApiResult false (Some (Js.errMessage err)))).

Definition declineChatJoinRequest (api : Api) (botToken chatId : string)
    (userId : Z) : B TelegramApiResult :=
  try_catch
    (let* data := call api (DeclineChatJoinRequest botToken chatId userId) in
     ret (mkTelegramApiResult (a_ok data)
            (if a_ok data then None else a_description data)))
    (fun err => ret (mkTelegramApiResult false (Some (Js.errMessage err)))).

(** [ORDER BY key DESC] for a key that is compared by [le]. *)
Fixpoint insert_desc_by {A K : Type} (le : K -> K -> bool) (key : A -> K)
    (x : A) (l : list A) : list A :=
  match l with
  | [] => [x]
  | y :: l' =>
      if le (key y) (key x) then x :: l else y :: insert_desc_by le key x l'
  end.

Definition order_by_desc_by {A K : Type} (le : K -> K -> bool) (key : A -> K)
    (rows : list A) : list A :=
  fold_right (insert_desc_by le key) [] rows.

(** The order of a nullable text column: NULL comes before every text, and
    texts compare byte by byte. *)
Definition text_le (a b : option string) : bool :=
  match a, b with
  | None, _ => true
  | Some _, None => false
  | Some x, Some y => String.leb x y
  end.

(** [p LEFT JOIN profile_snapshots ps ON p.id = ps.profile_id]: a profile
    without snapshots gives one row, with NULL for the snapshot. *)
Definition left_join (d : DB) (p : Profile)
  : list (Profile * option ProfileSnapshot) :=
  match List.filter (fun ps => String.eqb (p_id p) (s_profile_id ps))
          (profile_snapshots d) with
  | [] => [(p, None)]
  | ps :: rest => List.map (fun ps => (p, Some ps)) (ps :: rest)
  end.

(** [SELECT p.*, ps.total_chog_raw, ps.eligible FROM profiles p
     LEFT JOIN profile_snapshots ps ON p.id = ps.profile_id
     WHERE LOWER(REPLACE(p.telegram_handle, '@', '')) = ?
     ORDER BY ps.run_id DESC LIMIT 1] with [.first()] *)
Definition profileWithSnapshot (d : DB) (username : string)
  : option (Profile * option ProfileSnapshot) :=
  List.head
    (order_by_desc_by text_le (fun row => s_run_id <$> snd row)
       (flat_map (left_join d)
          (List.filter
             (fun p => String.eqb
                         (Text.sql_lower
                            (Text.sql_replace_at (p_telegram_handle p)))
                         username)
             (profiles d)))).

(** The part of a join request that is read. *)
Record ChatJoinRequest : Type := mkChatJoinRequest {
  chat_id : Z;
  from_id : Z;
  from_username : option string
}.

Definition welcome (username : string) : string :=
  "🐸 Welcome @" +:+ username +:+ "! Your CHOG eligibility has been verified.".

Definition handleJoinRequest (api : Api) (host : Host) (env : Env)
    (request : ChatJoinRequest) : B unit :=
  let chatId := Js.toString (chat_id request) in
  match Text.toLowerCase <$> from_username request with
  | None | Some EmptyString =>
      declineChatJoinRequest api (TELEGRAM_BOT_TOKEN env) chatId (from_id request);;
      ret tt
  | Some username =>
      let* profile := run (query (fun d => profileWithSnapshot d username)) in
      match profile with
      | None =>
          declineChatJoinRequest api (TELEGRAM_BOT_TOKEN env) chatId
            (from_id request);;
          ret tt
      | Some row =>
          let isUserEligible :=
            match snd row with
            | Some ps => s_eligible ps =? 1
            | None => false
            end in
          if isUserEligible then
            approveChatJoinRequest api (TELEGRAM_BOT_TOKEN env) chatId
              (from_id request);;
            run (Telegram.sendTelegramMessage host (TELEGRAM_BOT_TOKEN env)
                   chatId (welcome username));;
            ret tt
          else
            declineChatJoinRequest api (TELEGRAM_BOT_TOKEN env) chatId
              (from_id request);;
            ret tt
      end
  end.

End Bot.

(* ===================================================================== *)
(** ** Routes that read or rewrite the store ([routes/profile.ts],
       [routes/wallets.ts], [routes/admin.ts]) and the cron trigger
       ([index.ts]) *)
(* ===================================================================== *)

(** A route is its handler, past the middleware that checks the admin
    session where there is one.  A field of a request body that is missing
    or empty is the empty string: the handlers test such fields for
    truthiness before anything else reads them. *)
Module Routes.
Import Db Rt Accounts Screening.
Local Open Scope js_scope.

(** [lib/crypto.ts]: SHA-256 in hexadecimal, and the source of fresh
    secrets, indexed like the clock. *)
Record Crypto : Type := mkCrypto {
  hashSecret : string -> string;
  generateSecret : nat -> string
}.

Definition verifySecret (crypto : Crypto) (secret hash : string) : bool :=
  String.eqb (hashSecret crypto secret) hash.

(** The JSON bodies of the answers. *)
Inductive Body : Type :=
| Failure (error : string)
| Success
| Recovered (profile_id telegram_handle edit_secret : string)
    (wallets : list Wallet) (snapshot : option ProfileSnapshot)
| RunNow (result : ScreeningResult)
| Saved (key value : string).

Record Response : Type := Json {
  code : Z;
  body : Body
}.

(** [POST /api/profile/recover] *)
Definition recover (crypto : Crypto) (host : Host) (address : string)
  : M Response :=
  match address with
  | EmptyString => ret (Json 400 (Failure "address is required"))
  | String _ _ =>
      let* profile := query (fun d => getProfileByWalletAddress d address) in
      match profile with
      | None =>
          ret (Json 404 (Failure "No profile found with this wallet address"))
      | Some profile =>
          let* newEditSecret := step (generateSecret crypto) in
          let newEditSecretHash := hashSecret crypto newEditSecret in
          updateProfileEditSecret host (p_id profile) newEditSecretHash;;
          let* wallets := query (fun d => getWalletsByProfile d (p_id profile)) in
          let* snapshot :=
            query (fun d => getLatestSnapshotForProfile d (p_id profile)) in
          ret (Json 200
                 (Recovered (p_id profile) (p_telegram_handle profile)
                    newEditSecret wallets snapshot))
      end
  end.

(** [POST /api/wallets/unlink] *)
Definition unlink (crypto : Crypto) (profile_id edit_secret address : string)
  : M Response :=
  match profile_id, edit_secret, address with
  | String _ _, String _ _, String _ _ =>
      let* profile := query (fun d => getProfileById d profile_id) in
      match profile with
      | None => ret (Json 404 (Failure "Profile not found"))
      | Some profile =>
          if negb (verifySecret crypto edit_secret (p_edit_secret_hash profile))
          then ret (Json 403 (Failure "Invalid edit_secret"))
          else
            let* deleted := deleteWallet profile_id address in
            if negb deleted then ret (Json 404 (Failure "Wallet not found"))
            else ret (Json 200 Success)
      end
  | _, _, _ => ret (Json 400 (Failure "Missing required fields"))
  end.

(** [POST /api/admin/screening/run-now] *)
Definition runNow (host : Host) (env : Env) : M Response :=
  try_catch
    (let* result := runScreening host env true in
     ret (Json 200 (RunNow result)))
    (fun err => ret (Json 500 (Failure (Js.errMessage err)))).

(** [INSERT OR REPLACE INTO settings (key, value) VALUES (?, ?)]: the row
    with the key goes, if there is one, and the new row is added. *)
Definition with_settings (db : DB) (kvs : list (string * string)) : DB :=
  mkDB (profiles db) (wallets db) (lp_pairs db) (screening_runs db)
    (profile_snapshots db) kvs.

Definition replace_setting (key value : string) (db : DB) : DB :=
  with_settings db
    (List.filter (fun kv => negb (String.eqb (fst kv) key)) (settings db)
     ++ [(key, value)]).

Definition allowedSettings : list string :=
  ["screening_interval_hours"; "eligibility_threshold_raw"; "chog_decimals";
   "bot_notifications_enabled"; "msg_template_eligibility";
   "msg_template_welcome"; "msg_template_status"; "telegram_chat_id"].

(** [PUT /api/admin/settings/:key] *)
Definition putSetting (key value : string) : M Response :=
  match value with
  | EmptyString => ret (Json 400 (Failure "value is required"))
  | String _ _ =>
      if negb (existsb (String.eqb key) allowedSettings) then
        ret (Json 400 (Failure "Unknown setting key"))
      else
        exec (replace_setting key value);;
        ret (Json 200 (Saved key value))
  end.


End Routes.

(* ===================================================================== *)
(** ** Further deployments *)
(* ===================================================================== *)

Module Scenario.
Import Db Rt Chog Screening.

(** The deployment of [Demo] with a threshold that [BigInt] rejects. *)
Definition misconfigured : World :=
  mkWorld
    (mkDB (profiles Demo.store) (wallets Demo.store) (lp_pairs Demo.store)
       (screening_runs Demo.store) (profile_snapshots Demo.store)
       [("eligibility_threshold_raw", "1e24")])
    0 [].

(** A store in which the run that started last has the smaller id: the run
    [a-run] started after [b-run] and found the profile below the
    threshold. *)
Definition stale : DB :=
  mkDB [mkProfile "A" "@alice" "h" 1 1] [] []
    [mkScreeningRun "b-run" 100 (Some 110) RunSuccess None 1 1 1 1;
     mkScreeningRun "a-run" 200 (Some 210) RunSuccess None 1 1 0 1]
    [mkProfileSnapshot "b-run" "A" "2000000" 1 [];
     mkProfileSnapshot "a-run" "A" "5" 0 []]
    [].

(** A Bot API that accepts every call. *)
Definition accepting : BotRt.Api :=
  BotRt.mkApi (fun _ => inr (BotRt.mkApiReply true None)).

(** Secrets and their hashes, for the routes. *)
Definition crypto : Routes.Crypto :=
  Routes.mkCrypto (fun s => "sha:" +:+ s)
    (fun n => "secret-" +:+ Js.toString (Z.of_nat n)).

(** Numbers that print as they are written. *)
Definition plain : Message.Numbers :=
  Message.mkNumbers string (fun s => Some s) (fun s => s).

(** The host of [Demo] with the summary text of [lib/telegram.ts]. *)
Definition reporter : Host :=
  mkHost (balanceOf Demo.host) (totalSupply Demo.host) (getReserves Demo.host)
    (date_now Demo.host) (randomUUID Demo.host) (isoDate Demo.host)
    (postSendMessage Demo.host) (array_sort Demo.host)
    (formatChogBalance Demo.host)
    (Message.formatEligibilityMessage plain).

(** The same host on a chain where every address holds five million
    tokens: A, B and C hold the same total and D, with two wallets, twice
    as much. *)
Definition flat : Host :=
  mkHost
    (fun rpcUrl address account =>
       if String.eqb address Demo.chog then inr 5000000%N
       else balanceOf Demo.host rpcUrl address account)
    (totalSupply Demo.host) (getReserves Demo.host)
    (date_now Demo.host) (randomUUID Demo.host) (isoDate Demo.host)
    (postSendMessage Demo.host) (array_sort Demo.host)
    (formatChogBalance Demo.host)
    (Message.formatEligibilityMessage plain).

(** The deployment of [Demo] after A has unlinked its only wallet: the
    last successful run found A and B eligible, and A has no wallet left. *)
Definition unlinked : World :=
  mkWorld
    (mkDB (profiles Demo.store)
       [Demo.walletB; Demo.walletC; Demo.walletBad; Demo.walletD]
       (lp_pairs Demo.store) (screening_runs Demo.store)
       (profile_snapshots Demo.store) (settings Demo.store))
    0 [].

End Scenario.

(* ===================================================================== *)
(** ** Facts about the built-ins *)
(* ===================================================================== *)

Module JsFacts.
Import Js.

Lemma trim_end_uint (d : Decimal.uint) :
  trim_end (NilEmpty.string_of_uint d) = NilEmpty.string_of_uint d.
Proof.
  induction d as [|d IH|d IH|d IH|d IH|d IH|d IH|d IH|d IH|d IH|d IH];
    simpl; [reflexivity|..]; rewrite IH;
    destruct (NilEmpty.string_of_uint d); reflexivity.
Qed.

Lemma trim_start_uint (d : Decimal.uint) :
  trim_start (NilEmpty.string_of_uint d) = NilEmpty.string_of_uint d.
Proof. destruct d; reflexivity. Qed.

Lemma trim_uint (d : Decimal.uint) :
  trim (NilEmpty.string_of_uint d) = NilEmpty.string_of_uint d.
Proof. unfold trim. rewrite trim_start_uint. apply trim_end_uint. Qed.

Lemma decimal_uint (d : Decimal.uint) :
  d <> Decimal.Nil -> decimal (NilEmpty.string_of_uint d) = Some (Z.of_uint d).
Proof.
  intros Hd. unfold decimal. rewrite NilEmpty.usu.
  destruct d; [congruence|reflexivity..].
Qed.

(** [BigInt] reads back a non-empty run of decimal digits. *)
Lemma BigInt_uint (d : Decimal.uint) :
  d <> Decimal.Nil -> BigInt (NilEmpty.string_of_uint d) = Some (Z.of_uint d).
Proof.
  intros Hd. rewrite <- (decimal_uint d Hd). unfold BigInt. rewrite trim_uint.
  destruct d as [|d|d|d|d|d|d|d|d|d|d]; try congruence; try reflexivity.
  destruct d; reflexivity.
Qed.

Lemma BigInt_neg_uint (d : Decimal.uint) :
  d <> Decimal.Nil ->
  BigInt (String "-" (NilEmpty.string_of_uint d)) = Some (- Z.of_uint d).
Proof.
  intros Hd. unfold BigInt, trim.
  change (trim_start (String "-" ?s)) with (String "-" s).
  change (trim_end (String "-" ?s)) with
    (match trim_end s with
     | EmptyString => String "-" EmptyString
     | r' => String "-" r'
     end).
  rewrite trim_end_uint.
  destruct (NilEmpty.string_of_uint d) eqn:E.
  - destruct d; [congruence|discriminate E..].
  - rewrite <- E. cbv beta iota. rewrite (decimal_uint d Hd). reflexivity.
Qed.

(** Printing a bigint and reading it back gives the same bigint. *)
Lemma BigInt_toString (z : Z) : BigInt (toString z) = Some z.
Proof.
  unfold toString. destruct z as [|p|p]; [reflexivity|..].
  - change (NilZero.string_of_int (Z.to_int (Z.pos p)))
      with (NilZero.string_of_uint (Pos.to_uint p)).
    pose proof (Unsigned.to_uint_nonnil p) as Hn.
    replace (NilZero.string_of_uint (Pos.to_uint p))
      with (NilEmpty.string_of_uint (Pos.to_uint p))
      by (destruct (Pos.to_uint p); [congruence|reflexivity..]).
    rewrite (BigInt_uint _ Hn). unfold Z.of_uint.
    rewrite Unsigned.of_to. reflexivity.
  - change (NilZero.string_of_int (Z.to_int (Z.neg p)))
      with (String "-" (NilZero.string_of_uint (Pos.to_uint p))).
    pose proof (Unsigned.to_uint_nonnil p) as Hn.
    replace (NilZero.string_of_uint (Pos.to_uint p))
      with (NilEmpty.string_of_uint (Pos.to_uint p))
      by (destruct (Pos.to_uint p); [congruence|reflexivity..]).
    rewrite (BigInt_neg_uint _ Hn). unfold Z.of_uint.
    rewrite Unsigned.of_to. reflexivity.
Qed.

(** On non-negative operands truncating and floor division agree. *)
Lemma bigint_div_floor (a b : Z) :
  0 <= a -> 0 < b -> bigint_div a b = inr (a / b).
Proof.
  intros Ha Hb. unfold bigint_div.
  destruct (Z.eqb_spec b 0) as [->|_]; [lia|].
  rewrite Z.quot_div_nonneg by lia. reflexivity.
Qed.

End JsFacts.

(* ===================================================================== *)
(** ** The exposure calculator and the eligibility test *)
(* ===================================================================== *)

Module ChogFacts.
Import Db Rt Chog Ref.

(** Unfolds the monad's operations in the goal. *)
Ltac run := unfold bind, ret, lift, emit, throw, try_catch, query, exec, step; simpl.

(** C3. [isEligible] holds exactly when the total is at least the
    threshold, compared as integers, whether the total arrives as a bigint
    or as its decimal string; with the threshold of a million tokens at 18
    decimals, one unit below it is not eligible and the threshold itself
    is. *)
Theorem isEligible_iff_ge :
  (forall total threshold : Z,
      isEligible (OfBigint total) (Js.toString threshold)
        = inr (total >=? threshold) /\
      isEligible (OfString (Js.toString total)) (Js.toString threshold)
        = inr (total >=? threshold) /\
      ((total >=? threshold) = true <-> total >= threshold)) /\
  isEligible (OfBigint 999999999999999999999999) "1000000000000000000000000"
    = inr false /\
  isEligible (OfBigint 1000000000000000000000000) "1000000000000000000000000"
    = inr true.
Proof.
  split; [|split; reflexivity].
  intros total threshold. unfold isEligible, toBigInt.
  rewrite !JsFacts.BigInt_toString. repeat split; try reflexivity.
  - intros H. apply Z.geb_le in H. lia.
  - intros H. apply Z.geb_le. lia.
Qed.

(** C1. When the three reads of a pool succeed, [getLpChogExposure]
    returns; the contribution is 0 when the wallet holds no share or the
    pool has no supply (nothing is divided, nothing is thrown), and
    otherwise it is the floor of reserve * share / supply, with the
    reserve of side 0 or side 1 as the pool is configured. *)
Theorem getLpChogExposure_floor (host : Host) (rpcUrl chogContract : string)
    (lpPair : LpPair) (user : string) (w : World)
    (share supply : N) (rs : Reserves) :
  balanceOf host rpcUrl (pair_address lpPair) user = inr share ->
  totalSupply host rpcUrl (pair_address lpPair) = inr supply ->
  getReserves host rpcUrl (pair_address lpPair) = inr rs ->
  exists r,
    fst (getLpChogExposure host rpcUrl chogContract lpPair user w) = inr r /\
    (share = 0%N \/ supply = 0%N -> r = mkLpPosition 0 0) /\
    (share <> 0%N -> supply <> 0%N ->
     (chog_side lpPair = 0 ->
      chogUnderlying r = Z.of_N (reserve0 rs) * Z.of_N share / Z.of_N supply) /\
     (chog_side lpPair = 1 ->
      chogUnderlying r = Z.of_N (reserve1 rs) * Z.of_N share / Z.of_N supply)).
Proof.
  intros Hb Hs Hr. unfold getLpChogExposure. run. rewrite Hb, Hs, Hr. simpl.
  destruct (Z.eqb_spec (Z.of_N share) 0) as [E1|E1]; simpl.
  - eexists; split; [reflexivity|]. split; [reflexivity|]. lia.
  - destruct (Z.eqb_spec (Z.of_N supply) 0) as [E2|E2]; simpl.
    + eexists; split; [reflexivity|]. split; [reflexivity|]. lia.
    + assert (Hdiv : forall reserve : N,
                 Js.bigint_div (Z.of_N share * Z.of_N reserve) (Z.of_N supply)
                 = inr (Z.of_N reserve * Z.of_N share / Z.of_N supply)).
      { intros reserve. rewrite (Z.mul_comm (Z.of_N share)).
        apply JsFacts.bigint_div_floor; lia. }
      destruct (Z.eqb_spec (chog_side lpPair) 0) as [E3|E3];
        rewrite Hdiv; simpl; (eexists; split; [reflexivity|]);
        (split; [lia|]); intros _ _; split; intros E; simpl;
        try reflexivity; congruence.
Qed.

(** The pool of the scenario: share 10 of 100, reserve 5000, gives 500. *)
Lemma getLpChogExposure_floor_witness :
  exists r,
    fst (getLpChogExposure Demo.host "https://rpc.monad.xyz" Demo.chog
           Demo.pairP "0xw" Demo.world) = inr r /\
    chogUnderlying r = 500.
Proof.
  destruct (getLpChogExposure_floor Demo.host "https://rpc.monad.xyz" Demo.chog
              Demo.pairP "0xw" Demo.world 10 100 (mkReserves 5000 77 0)
              eq_refl eq_refl eq_refl) as (r & Hr & _ & Hpos).
  exists r. split; [exact Hr|].
  destruct (Hpos ltac:(discriminate) ltac:(discriminate)) as [H0 _].
  rewrite (H0 eq_refl). reflexivity.
Defined.

(** *** Computations that only talk to the chain *)

Lemma world_eta (w : World) : mkWorld (db w) (steps w) (trace w ++ []) = w.
Proof. destruct w; simpl. rewrite app_nil_r. reflexivity. Qed.

Lemma reads_only_ret {A : Type} (a : A) : reads_only (ret a).
Proof. intros w. unfold result_of, events_of, ret. simpl. rewrite world_eta. reflexivity. Qed.

Lemma reads_only_lift {A : Type} (r : Js.exn + A) : reads_only (lift r).
Proof. intros w. unfold result_of, events_of, lift. simpl. rewrite world_eta. reflexivity. Qed.

Lemma reads_only_emit (e : Event) : reads_only (emit e).
Proof. intros w. reflexivity. Qed.

Lemma reads_only_bind {A B : Type} (m : M A) (k : A -> M B) :
  reads_only m -> (forall a, reads_only (k a)) -> reads_only (bind m k).
Proof.
  intros Hm Hk w. unfold result_of, events_of, bind.
  rewrite (Hm w), (Hm blank). destruct (result_of m) as [e|a]; simpl.
  - reflexivity.
  - rewrite !Hk. simpl. rewrite app_assoc. reflexivity.
Qed.

Lemma reads_only_try_catch {A : Type} (m : M A) (h : Js.exn -> M A) :
  reads_only m -> (forall e, reads_only (h e)) -> reads_only (try_catch m h).
Proof.
  intros Hm Hh w. unfold result_of, events_of, try_catch.
  rewrite (Hm w), (Hm blank). destruct (result_of m) as [e|a]; simpl.
  - rewrite !Hh. simpl. rewrite app_assoc. reflexivity.
  - reflexivity.
Qed.

Ltac reads :=
  repeat first
    [ apply reads_only_ret | apply reads_only_lift | apply reads_only_emit
    | apply reads_only_bind; [|intros ?]
    | apply reads_only_try_catch; [|intros ?]
    | match goal with |- reads_only (if ?c then _ else _) => destruct c end
    | match goal with |- reads_only (match ?c with _ => _ end) => destruct c end ].

Section Exposure.
Context (host : Host) (rpcUrl chogContract user : string).

Lemma reads_readBalanceOf (address account : string) :
  reads_only (readBalanceOf host rpcUrl address account).
Proof. unfold readBalanceOf. reads. Qed.

Lemma reads_getLpChogExposure (lpPair : LpPair) :
  reads_only (getLpChogExposure host rpcUrl chogContract lpPair user).
Proof. unfold getLpChogExposure. reads. Qed.

(** A position's underlying amount is never negative. *)
Lemma poolOf_nonneg (lpPair : LpPair) (r : LpPosition) :
  poolOf host rpcUrl chogContract user lpPair = inr r -> 0 <= chogUnderlying r.
Proof.
  unfold poolOf, result_of, getLpChogExposure. run.
  destruct (balanceOf host rpcUrl (pair_address lpPair) user) as [e|b]; simpl;
    [discriminate|].
  destruct (totalSupply host rpcUrl (pair_address lpPair)) as [e|s]; simpl;
    [discriminate|].
  destruct (getReserves host rpcUrl (pair_address lpPair)) as [e|rs]; simpl;
    [discriminate|].
  destruct ((Z.of_N b =? 0) || (Z.of_N s =? 0)) eqn:Ez; simpl.
  - intros [= <-]. simpl. lia.
  - unfold Js.bigint_div.
    destruct (Z.eqb_spec (Z.of_N s) 0); simpl; [discriminate|].
    intros [= <-]. simpl. apply Z.quot_pos; [|lia].
    destruct (chog_side lpPair =? 0); lia.
Qed.

Lemma lpStep_run (lpPair : LpPair) (acc : list LpShare * Z) (w : World) :
  lpStep host rpcUrl chogContract user lpPair acc w =
    (inr (fst acc ++ shareRows host rpcUrl chogContract user lpPair,
          snd acc + contribution host rpcUrl chogContract user lpPair),
     mkWorld (db w) (steps w)
       (trace w ++ poolReads host rpcUrl chogContract user lpPair)).
Proof.
  unfold lpStep, try_catch, bind. rewrite (reads_getLpChogExposure lpPair w).
  pose proof (poolOf_nonneg lpPair) as Hnn.
  unfold shareRows, contribution, poolReads. unfold poolOf in *.
  destruct (result_of _) as [e|r]; simpl.
  - unfold ret. rewrite app_nil_r, Z.add_0_r. destruct acc; reflexivity.
  - specialize (Hnn r eq_refl).
    destruct (Z.gtb_spec (chogUnderlying r) 0) as [Hp|Hz]; unfold ret.
    + reflexivity.
    + replace (chogUnderlying r) with 0 by lia.
      rewrite app_nil_r, Z.add_0_r. destruct acc; reflexivity.
Qed.

Lemma lpLoop_run (lpPairs : list LpPair) (acc : list LpShare * Z) (w : World) :
  lpLoop host rpcUrl chogContract user lpPairs acc w =
    (inr (fst acc ++ flat_map (shareRows host rpcUrl chogContract user) lpPairs,
          snd acc + sumZ (List.map (contribution host rpcUrl chogContract user)
                            lpPairs)),
     mkWorld (db w) (steps w)
       (trace w ++ flat_map (poolReads host rpcUrl chogContract user) lpPairs)).
Proof.
  revert acc w. induction lpPairs as [|lp lps IH]; intros acc w; simpl.
  - unfold ret. rewrite !app_nil_r, Z.add_0_r. destruct acc, w; reflexivity.
  - unfold bind. rewrite lpStep_run, IH. simpl.
    rewrite <- !app_assoc, Z.add_assoc. reflexivity.
Qed.

Lemma reads_lpLoop (lpPairs : list LpPair) (acc : list LpShare * Z) :
  reads_only (lpLoop host rpcUrl chogContract user lpPairs acc).
Proof.
  intros w. unfold result_of, events_of. rewrite !lpLoop_run. reflexivity.
Qed.

Lemma reads_getTotalChogExposure (lpPairs : list LpPair) :
  reads_only (getTotalChogExposure host rpcUrl chogContract lpPairs user).
Proof.
  unfold getTotalChogExposure, getDirectChogBalance.
  apply reads_only_bind; [|intros ?].
  - apply reads_only_bind; [apply reads_readBalanceOf|intros; apply reads_only_ret].
  - apply reads_only_bind; [apply reads_lpLoop|intros; apply reads_only_ret].
Qed.

(** Every request of an exposure computation is a chain read. *)
Lemma exposureReads_are_reads (lpPairs : list LpPair) :
  Forall (fun e => exists a f args, e = ReadContract rpcUrl a f args)
    (exposureReads host rpcUrl chogContract lpPairs user).
Proof.
  unfold exposureReads, events_of, getTotalChogExposure, getDirectChogBalance,
    readBalanceOf. run.
  destruct (balanceOf host rpcUrl chogContract user) as [e|d]; simpl.
  - repeat constructor. eauto.
  - rewrite lpLoop_run. simpl. constructor; [eauto|].
    apply Forall_flat_map, Forall_forall. intros lp _.
    unfold poolReads, events_of, getLpChogExposure. run.
    destruct (balanceOf host rpcUrl (pair_address lp) user); simpl;
      [repeat constructor; eauto|].
    destruct (totalSupply host rpcUrl (pair_address lp)); simpl;
      [repeat constructor; eauto|].
    destruct (getReserves host rpcUrl (pair_address lp)); simpl;
      [repeat constructor; eauto|].
    destruct (_ || _); simpl; [repeat constructor; eauto|].
    destruct (Js.bigint_div _ _); simpl; repeat constructor; eauto.
Qed.

End Exposure.

Lemma sumZ_app (l1 l2 : list Z) : sumZ (l1 ++ l2) = sumZ l1 + sumZ l2.
Proof. induction l1 as [|x l1 IH]; simpl; [reflexivity|]. rewrite IH. lia. Qed.

Lemma sumZ_shareRows (host : Host) (rpcUrl chogContract user : string)
    (lpPairs : list LpPair) :
  sumZ (List.map b_chogUnderlying
          (flat_map (shareRows host rpcUrl chogContract user) lpPairs))
  = sumZ (List.map (contribution host rpcUrl chogContract user) lpPairs).
Proof.
  induction lpPairs as [|lp lps IH]; simpl; [reflexivity|].
  rewrite map_app, sumZ_app, IH. f_equal.
  pose proof (poolOf_nonneg host rpcUrl chogContract user lp) as Hnn.
  unfold shareRows, contribution.
  destruct (poolOf host rpcUrl chogContract user lp) as [e|r]; [reflexivity|].
  specialize (Hnn r eq_refl).
  destruct (Z.gtb_spec (chogUnderlying r) 0); simpl; lia.
Qed.

(** C2. Once the direct balance is read, [getTotalChogExposure] returns,
    whatever the pools do, and leaves the store alone; the total is the
    direct balance plus the contributions of the pools, where a pool whose
    reads throw contributes nothing and has no row in the breakdown, while
    the pools before and after it are summed as usual.  What a pool yields,
    [poolOf], is what [getLpChogExposure] returns for it in any world. *)
Theorem getTotalChogExposure_total (host : Host) (rpcUrl chogContract : string)
    (lpPairs : list LpPair) (user : string) (w : World) (d : N) :
  balanceOf host rpcUrl chogContract user = inr d ->
  exists e w',
    getTotalChogExposure host rpcUrl chogContract lpPairs user w = (inr e, w') /\
    db w' = db w /\
    (forall lpPair w0,
        fst (getLpChogExposure host rpcUrl chogContract lpPair user w0)
        = poolOf host rpcUrl chogContract user lpPair) /\
    directBalance e = Z.of_N d /\
    totalBalance e =
      directBalance e
      + sumZ (List.map (contribution host rpcUrl chogContract user) lpPairs) /\
    lpBreakdown e = flat_map (shareRows host rpcUrl chogContract user) lpPairs /\
    totalBalance e =
      directBalance e + sumZ (List.map b_chogUnderlying (lpBreakdown e)) /\
    (forall before bad after err,
        lpPairs = before ++ bad :: after ->
        poolOf host rpcUrl chogContract user bad = inl err ->
        totalBalance e =
          directBalance e
          + sumZ (List.map (contribution host rpcUrl chogContract user) before)
          + sumZ (List.map (contribution host rpcUrl chogContract user) after) /\
        lpBreakdown e =
          flat_map (shareRows host rpcUrl chogContract user) before
          ++ flat_map (shareRows host rpcUrl chogContract user) after).
Proof.
  intros Hd. unfold getTotalChogExposure, getDirectChogBalance, readBalanceOf.
  run. rewrite Hd. simpl. rewrite lpLoop_run. simpl.
  eexists; eexists; split; [reflexivity|]. simpl.
  split; [reflexivity|].
  split; [intros lpPair w0; rewrite reads_getLpChogExposure; reflexivity|].
  do 3 (split; [reflexivity|]).
  split; [rewrite sumZ_shareRows; reflexivity|].
  intros before bad after err -> Hbad. split.
  - rewrite map_app, sumZ_app. simpl.
    unfold contribution at 2. rewrite Hbad. lia.
  - rewrite flat_map_app. simpl.
    unfold shareRows at 2. rewrite Hbad. reflexivity.
Qed.

(** The wallet of the scenario holds 100 directly and 500 through pool P;
    pool Q cannot be read. *)
Lemma getTotalChogExposure_total_witness :
  poolOf Demo.host "https://rpc.monad.xyz" Demo.chog "0xw" Demo.pairQ
    = inl (Js.Error "HTTP request failed") /\
  exists e w',
    getTotalChogExposure Demo.host "https://rpc.monad.xyz" Demo.chog
      [Demo.pairP; Demo.pairQ] "0xw" Demo.world = (inr e, w') /\
    directBalance e = 100 /\
    totalBalance e = 600 /\
    List.map pairAddress (lpBreakdown e) = [Demo.poolP].
Proof.
  split; [reflexivity|].
  destruct (getTotalChogExposure_total Demo.host "https://rpc.monad.xyz"
              Demo.chog [Demo.pairP; Demo.pairQ] "0xw" Demo.world 100 eq_refl)
    as (e & w' & Hrun & _ & _ & Hdirect & Htotal & Hrows & _).
  exists e, w'. split; [exact Hrun|]. split; [exact Hdirect|].
  split; [rewrite Htotal, Hdirect; reflexivity|].
  rewrite Hrows. reflexivity.
Defined.

End ChogFacts.

(* ===================================================================== *)
(** ** The screening job *)
(* ===================================================================== *)

Module ScreeningFacts.
Import Db Rt Chog Telegram Screening Ref ChogFacts.

Section Loops.
Context (host : Host) (env : Env) (lpPairs : list LpPair).

Lemma processWallet_run (wallet : Wallet) (st : Inner) (w : World) :
  processWallet host env lpPairs wallet st w =
    match exposure host env lpPairs wallet with
    | inr e =>
        (inr (mkInner (i_profileTotalChog st + totalBalance e)
                (i_walletDetails st ++ detail host env lpPairs wallet)
                (i_walletsProcessed st + 1)),
         mkWorld
           (with_wallets (db w)
              (List.map (set_balances (Js.toString (directBalance e))
                           (Js.toString (lpBalance e))
                           (Js.toString (totalBalance e))
                           (date_now host (steps w)) (w_id wallet))
                 (wallets (db w))))
           (S (steps w)) (trace w ++ reads host env lpPairs wallet))
    | inl err =>
        (inr st,
         mkWorld
           (with_wallets (db w)
              (List.map (set_error (Js.errMessage err) (w_id wallet))
                 (wallets (db w))))
           (steps w) (trace w ++ reads host env lpPairs wallet))
    end.
Proof.
  unfold processWallet, try_catch, bind, updateWalletBalances.
  rewrite reads_getTotalChogExposure.
  unfold detail, exposure, reads, exposureOf, exposureReads.
  destruct (result_of _) as [err|e]; reflexivity.
Qed.

Lemma processWallets_run (ws : list Wallet) (st : Inner) (w : World) :
  processWallets host env lpPairs ws st w =
    (inr (mkInner (i_profileTotalChog st + total host env lpPairs ws)
            (i_walletDetails st ++ flat_map (detail host env lpPairs) ws)
            (i_walletsProcessed st + Z.of_nat (ticks host env lpPairs ws))),
     mkWorld
       (with_wallets (db w)
          (List.map (touch host env lpPairs ws (steps w)) (wallets (db w))))
       (steps w + ticks host env lpPairs ws)
       (trace w ++ flat_map (reads host env lpPairs) ws)).
Proof.
  revert st w. induction ws as [|wallet rest IH]; intros st w.
  - simpl. unfold ret, total, ticks. simpl.
    rewrite !app_nil_r, !Z.add_0_r, Nat.add_0_r, List.map_id.
    destruct st, w as [d ? ?]; destruct d; reflexivity.
  - cbn [processWallets]. unfold bind. rewrite processWallet_run.
    unfold total, ticks, share, detail, succeeded.
    cbn [List.map List.filter flat_map touch sumZ fold_right].
    destruct (exposure host env lpPairs wallet) as [err|e] eqn:E;
      rewrite IH;
      cbn [db steps trace i_profileTotalChog i_walletDetails i_walletsProcessed];
      unfold with_wallets;
      cbn [wallets profiles lp_pairs screening_runs profile_snapshots settings];
      rewrite List.map_map, <- !app_assoc;
      unfold total, ticks, share, detail, succeeded; cbn [List.length app].
    + rewrite Z.add_0_l. reflexivity.
    + unfold sumZ.
      f_equal; [f_equal; f_equal; try reflexivity; lia
              |f_equal; try reflexivity; lia].
Qed.

Lemma touch_app (ws1 ws2 : list Wallet) (n : nat) (row : Wallet) :
  touch host env lpPairs (ws1 ++ ws2) n row =
    touch host env lpPairs ws2 (n + ticks host env lpPairs ws1)
      (touch host env lpPairs ws1 n row).
Proof.
  revert n row. induction ws1 as [|wallet rest IH]; intros n row.
  - simpl. rewrite Nat.add_0_r. reflexivity.
  - unfold ticks, succeeded. cbn [app touch List.filter].
    destruct (exposure host env lpPairs wallet) as [err|e]; rewrite IH.
    + reflexivity.
    + unfold ticks, succeeded. cbn [List.length].
      rewrite Nat.add_succ_r. reflexivity.
Qed.

Lemma ticks_app (ws1 ws2 : list Wallet) :
  ticks host env lpPairs (ws1 ++ ws2)
  = (ticks host env lpPairs ws1 + ticks host env lpPairs ws2)%nat.
Proof. unfold ticks. rewrite List.filter_app, length_app. reflexivity. Qed.

(** *** What the wallet loop does to a row *)

Lemma set_balances_other (d l t : string) (now : Z) (walletId : string)
    (row : Wallet) :
  w_id row <> walletId -> set_balances d l t now walletId row = row.
Proof.
  intros Hne. unfold set_balances.
  destruct (String.eqb_spec (w_id row) walletId); [contradiction|reflexivity].
Qed.

Lemma set_error_other (reason walletId : string) (row : Wallet) :
  w_id row <> walletId -> set_error reason walletId row = row.
Proof.
  intros Hne. unfold set_error.
  destruct (String.eqb_spec (w_id row) walletId); [contradiction|reflexivity].
Qed.

Lemma set_error_same (reason : string) (row : Wallet) :
  set_error reason (w_id row) row =
    mkWallet (w_id row) (w_profile_id row) (w_address row) (w_wallet_rdns row)
      (w_verified_at row) (w_last_checked_at row) (w_last_direct_chog_raw row)
      (w_last_lp_chog_raw row) (w_last_total_chog_raw row) WError (Some reason)
      (w_created_at row).
Proof. unfold set_error. rewrite String.eqb_refl. reflexivity. Qed.

Lemma touch_other (ws : list Wallet) (n : nat) (row : Wallet) :
  (forall pw, In pw ws -> w_id pw <> w_id row) ->
  touch host env lpPairs ws n row = row.
Proof.
  revert n row. induction ws as [|pw rest IH]; intros n row Hne; [reflexivity|].
  cbn [touch].
  assert (Hpw : w_id row <> w_id pw)
    by (intros E; apply (Hne pw (or_introl eq_refl)); symmetry; exact E).
  destruct (exposure host env lpPairs pw) as [err|e].
  - rewrite set_error_other by exact Hpw.
    apply IH. intros pw' Hin. apply Hne. right. exact Hin.
  - rewrite set_balances_other by exact Hpw.
    apply IH. intros pw' Hin. apply Hne. right. exact Hin.
Qed.

(** When every processed wallet with this row's id fails with [err], the row
    is left as it was or has its status and error reason set, nothing else. *)
Lemma touch_failed (ws : list Wallet) (n : nat) (row : Wallet) (err : Js.exn) :
  (forall pw, In pw ws -> w_id pw = w_id row ->
              exposure host env lpPairs pw = inl err) ->
  touch host env lpPairs ws n row =
    if existsb (fun pw => String.eqb (w_id pw) (w_id row)) ws
    then set_error (Js.errMessage err) (w_id row) row
    else row.
Proof.
  revert n row. induction ws as [|pw rest IH]; intros n row Hfail; [reflexivity|].
  cbn [touch existsb].
  destruct (String.eqb_spec (w_id pw) (w_id row)) as [Eid|Nid]; cbn [orb].
  - rewrite (Hfail pw (or_introl eq_refl) Eid). rewrite Eid.
    rewrite IH.
    + rewrite set_error_same. cbn [w_id].
      destruct (existsb _ rest); [|reflexivity].
      unfold set_error. cbn [w_id]. rewrite String.eqb_refl. reflexivity.
    + rewrite set_error_same. cbn [w_id].
      intros pw' Hin E. apply Hfail; [right; exact Hin|exact E].
  - assert (Hrow : w_id row <> w_id pw) by congruence.
    destruct (exposure host env lpPairs pw) as [err'|e].
    + rewrite set_error_other by exact Hrow.
      apply IH. intros pw' Hin. apply Hfail. right. exact Hin.
    + rewrite set_balances_other by exact Hrow.
      apply IH. intros pw' Hin. apply Hfail. right. exact Hin.
Qed.

(** With distinct ids among the processed wallets, a row whose wallet fails
    ends with status [error] and the failure's message. *)
Lemma touch_error (ws : list Wallet) (n : nat) (row wallet : Wallet)
    (err : Js.exn) :
  List.NoDup (List.map w_id ws) ->
  In wallet ws ->
  exposure host env lpPairs wallet = inl err ->
  w_id row = w_id wallet ->
  touch host env lpPairs ws n row = set_error (Js.errMessage err) (w_id row) row.
Proof.
  revert n row. induction ws as [|pw rest IH]; intros n row Hnd Hin Hfail Hid;
    [destruct Hin|].
  simpl in Hnd. apply NoDup_cons_iff in Hnd. destruct Hnd as [Hfresh Hnd].
  cbn [touch]. destruct Hin as [->|Hin].
  - rewrite Hfail, <- Hid. apply touch_other.
    intros pw' Hpw' E. apply Hfresh. rewrite set_error_same in E. cbn [w_id] in E.
    rewrite <- Hid, <- E. apply in_map. exact Hpw'.
  - assert (Hne : w_id row <> w_id pw).
    { intros E. apply Hfresh. rewrite <- E, Hid. apply in_map. exact Hin. }
    destruct (exposure host env lpPairs pw) as [err'|e].
    + rewrite set_error_other by exact Hne. apply IH; assumption.
    + rewrite set_balances_other by exact Hne. apply IH; assumption.
Qed.

Lemma touch_keeps_error (ws : list Wallet) (n : nat) (row : Wallet) :
  w_status row = WError -> w_status (touch host env lpPairs ws n row) = WError.
Proof.
  revert n row. induction ws as [|pw rest IH]; intros n row Hst; [exact Hst|].
  cbn [touch]. destruct (exposure host env lpPairs pw) as [err|e]; apply IH.
  - unfold set_error. destruct (String.eqb _ _); [reflexivity|exact Hst].
  - unfold set_balances. destruct (String.eqb _ _); [exact Hst|exact Hst].
Qed.

Lemma touch_id (ws : list Wallet) (n : nat) (row : Wallet) :
  w_id (touch host env lpPairs ws n row) = w_id row.
Proof.
  revert n row. induction ws as [|pw rest IH]; intros n row; [reflexivity|].
  cbn [touch]. destruct (exposure host env lpPairs pw) as [err|e]; rewrite IH.
  - unfold set_error. destruct (String.eqb _ _); reflexivity.
  - unfold set_balances. destruct (String.eqb _ _); reflexivity.
Qed.

(** A row whose wallet fails ends with status [error]. *)
Lemma touch_records_failure (ws : list Wallet) (n : nat) (row wallet : Wallet) :
  In wallet ws ->
  succeeded host env lpPairs wallet = false ->
  w_id row = w_id wallet ->
  w_status (touch host env lpPairs ws n row) = WError.
Proof.
  revert n row. induction ws as [|pw rest IH]; intros n row Hin Hfail Hid;
    [destruct Hin|].
  cbn [touch]. destruct Hin as [->|Hin].
  - unfold succeeded in Hfail.
    destruct (exposure host env lpPairs wallet) as [err|e]; [|discriminate].
    apply touch_keeps_error. rewrite <- Hid, set_error_same. reflexivity.
  - destruct (exposure host env lpPairs pw) as [err|e]; apply IH; try assumption.
    + unfold set_error. destruct (String.eqb _ _); exact Hid.
    + unfold set_balances. destruct (String.eqb _ _); exact Hid.
Qed.

Section Threshold.
Context (previousEligible : gmap string ProfileSnapshot)
  (thresholdRaw runId : string) (threshold : Z).
Hypothesis Hthreshold : Js.BigInt thresholdRaw = Some threshold.

Abbreviation eligibleNow := (eligibleNow host env lpPairs threshold).
Abbreviation newly := (newly host env lpPairs previousEligible threshold).
Abbreviation dropped := (dropped host env lpPairs previousEligible threshold).
Abbreviation ranked := (ranked host env lpPairs threshold).
Abbreviation snapshotOf := (snapshotOf host env lpPairs threshold runId).

Lemma processProfile_run (profile : Profile * list Wallet) (t : Tally)
    (w : World) :
  processProfile host env lpPairs previousEligible thresholdRaw runId
    profile t w =
    (inr (mkTally
            (t_walletsProcessed t
             + Z.of_nat (ticks host env lpPairs (snd profile)))
            (t_eligibleCount t + (if eligibleNow profile then 1 else 0))
            (t_newlyEligible t ++ newly [profile])
            (t_droppedEligible t ++ dropped [profile])
            (t_allEligible t ++ ranked [profile])),
     mkWorld
       (with_snapshots
          (with_wallets (db w)
             (List.map (touch host env lpPairs (snd profile) (steps w))
                (wallets (db w))))
          (profile_snapshots (db w) ++ [snapshotOf profile]))
       (steps w + ticks host env lpPairs (snd profile))
       (trace w ++ flat_map (reads host env lpPairs) (snd profile))).
Proof using Hthreshold.
  unfold processProfile, bind. rewrite processWallets_run.
  cbn [i_profileTotalChog i_walletDetails i_walletsProcessed app].
  unfold isEligible, toBigInt. rewrite Hthreshold. unfold lift, exec, ret.
  cbn [db steps trace]. rewrite Z.add_0_l.
  unfold Ref.newly, Ref.dropped, Ref.ranked, Ref.snapshotOf.
  cbn [List.filter]. unfold Ref.eligibleNow, Ref.wasEligible.
  cbn [fst snd].
  destruct (total host env lpPairs (snd profile) >=? threshold);
    destruct (bool_decide _); cbn [negb andb List.map];
    rewrite ?app_nil_r, ?Z.add_0_r; reflexivity.
Qed.

Lemma processProfiles_run (profiles : list (Profile * list Wallet))
    (t : Tally) (w : World) :
  processProfiles host env lpPairs previousEligible thresholdRaw runId
    profiles t w =
    (inr (mkTally
            (t_walletsProcessed t
             + Z.of_nat (ticks host env lpPairs (flat_map snd profiles)))
            (t_eligibleCount t
             + Z.of_nat (List.length (List.filter eligibleNow profiles)))
            (t_newlyEligible t ++ newly profiles)
            (t_droppedEligible t ++ dropped profiles)
            (t_allEligible t ++ ranked profiles)),
     mkWorld
       (with_snapshots
          (with_wallets (db w)
             (List.map
                (touch host env lpPairs (flat_map snd profiles) (steps w))
                (wallets (db w))))
          (profile_snapshots (db w) ++ List.map snapshotOf profiles))
       (steps w + ticks host env lpPairs (flat_map snd profiles))
       (trace w
        ++ flat_map (reads host env lpPairs) (flat_map snd profiles))).
Proof using Hthreshold.
  revert t w. induction profiles as [|profile rest IH]; intros t w.
  - simpl. unfold ret, ticks. simpl.
    rewrite !app_nil_r, !Z.add_0_r, Nat.add_0_r, List.map_id.
    destruct t, w as [d ? ?]; destruct d; reflexivity.
  - cbn [processProfiles]. unfold bind. rewrite processProfile_run, IH.
    cbn [db steps trace t_walletsProcessed t_eligibleCount t_newlyEligible
           t_droppedEligible t_allEligible flat_map List.map].
    unfold with_snapshots, with_wallets.
    cbn [wallets profiles lp_pairs screening_runs profile_snapshots settings].
    rewrite List.map_map, flat_map_app, ticks_app, <- !app_assoc.
    unfold Ref.newly, Ref.dropped, Ref.ranked.
    cbn [List.filter].
    f_equal; [f_equal; f_equal|f_equal].
    + lia.
    + destruct (eligibleNow profile); cbn [List.length]; lia.
    + destruct (eligibleNow profile && negb _); reflexivity.
    + destruct (negb (eligibleNow profile) && _); reflexivity.
    + destruct (eligibleNow profile); reflexivity.
    + f_equal. apply List.map_ext. intros row. symmetry. apply touch_app.
    + lia.
Qed.

End Threshold.

(** With a threshold that [BigInt] rejects, the first profile's wallets are
    still processed, then [isEligible] throws. *)
Lemma processProfiles_bad (previousEligible : gmap string ProfileSnapshot)
    (thresholdRaw runId : string) (profile : Profile * list Wallet)
    (rest : list (Profile * list Wallet)) (t : Tally) (w : World) :
  Js.BigInt thresholdRaw = None ->
  processProfiles host env lpPairs previousEligible thresholdRaw runId
    (profile :: rest) t w =
    (inl (Js.Error ("Cannot convert " +:+ thresholdRaw +:+ " to a BigInt")),
     mkWorld
       (with_wallets (db w)
          (List.map (touch host env lpPairs (snd profile) (steps w))
             (wallets (db w))))
       (steps w + ticks host env lpPairs (snd profile))
       (trace w ++ flat_map (reads host env lpPairs) (snd profile))).
Proof.
  intros Hbad. cbn [processProfiles]. unfold bind at 1.
  unfold processProfile, bind. rewrite processWallets_run.
  unfold isEligible, toBigInt. rewrite Hbad. reflexivity.
Qed.

End Loops.
(** *** Delivery of the summary *)

Lemma sendTelegramMessage_run (host : Host) (botToken chatId text : string)
    (w : World) :
  exists result,
    sendTelegramMessage host botToken chatId text w =
      (inr result,
       mkWorld (db w) (steps w) (trace w ++ [TelegramPost botToken chatId text])) /\
    (success result = true <->
     exists reply, postSendMessage host botToken chatId text = inr reply
                   /\ ok reply = true).
Proof.
  unfold sendTelegramMessage. run.
  destruct (postSendMessage host botToken chatId text) as [err|reply]; simpl.
  - eexists; split; [reflexivity|]. simpl. split; [discriminate|].
    intros (reply & Hr & _). discriminate Hr.
  - destruct (ok reply) eqn:Hok; simpl.
    + eexists; split; [reflexivity|]. simpl. split; [|reflexivity].
      intros _. exists reply. split; [reflexivity|exact Hok].
    + eexists; split; [reflexivity|]. simpl. split; [discriminate|].
      intros (reply' & [= <-] & Hok'). congruence.
Qed.

(** [notify] changes nothing in the store and sends at most one request,
    which is neither a chain read nor a status write. *)
Lemma notify_run (host : Host) (env : Env) (message : string) (w : World) :
  exists sent tg,
    notify host env message w =
      (inr sent, mkWorld (db w) (steps w) (trace w ++ tg)) /\
    (tg = [] \/ exists chatId, tg = [TelegramPost (TELEGRAM_BOT_TOKEN env) chatId message]) /\
    (sent = true ->
     exists chatId reply,
       postSendMessage host (TELEGRAM_BOT_TOKEN env) chatId message = inr reply
       /\ ok reply = true).
Proof.
  unfold notify, getGroupChatId. run.
  destruct (TELEGRAM_BOT_TOKEN env) as [|c0 s0] eqn:Etok.
  - exists false, []. rewrite world_eta. repeat split; [left; reflexivity|discriminate].
  - destruct (Js.or_else _ _) as [|c1 s1] eqn:Echat.
    + exists false, []. rewrite world_eta.
      repeat split; [left; reflexivity|discriminate].
    + destruct (match select_setting (db w) "bot_notifications_enabled" with
                | Some v => negb (String.eqb v "false")
                | None => true
                end).
      * destruct (sendTelegramMessage_run host (String c0 s0) (String c1 s1)
                    message w) as (result & Hsend & Hok).
        rewrite Hsend. simpl. eexists; eexists; split; [reflexivity|].
        split; [right; eexists; reflexivity|].
        intros Hs. apply Hok in Hs. destruct Hs as (reply & Hr & Hk).
        exists (String c1 s1), reply. split; assumption.
      * exists false, []. rewrite world_eta.
        repeat split; [left; reflexivity|discriminate].
Qed.

Lemma notify_quiet (tg : list Event) (token message : string) :
  tg = [] \/ (exists chatId, tg = [TelegramPost token chatId message]) ->
  statusWrites tg = [] /\ chainReads tg = [].
Proof. intros [->|[chatId ->]]; split; reflexivity. Qed.

(** The delivery posts the summary exactly when there is a token and a
    chat and notifications are not switched off. *)
Lemma notify_posts (host : Host) (env : Env) (summary : Summary) (w : World) :
  exists sent,
    notify host env (formatEligibilityMessage host summary) w =
      (inr sent,
       mkWorld (db w) (steps w) (trace w ++ posts host env (db w) summary)).
Proof.
  unfold notify, getGroupChatId, posts, notifying, chatIdOf. run.
  destruct (TELEGRAM_BOT_TOKEN env) as [|c0 s0] eqn:Etok.
  - exists false. rewrite world_eta. reflexivity.
  - destruct (Js.or_else _ _) as [|c1 s1] eqn:Echat.
    + exists false. rewrite world_eta. reflexivity.
    + simpl.
      destruct (match select_setting (db w) "bot_notifications_enabled" with
                | Some v => negb (String.eqb v "false")
                | None => true
                end).
      * destruct (sendTelegramMessage_run host (String c0 s0) (String c1 s1)
                    (formatEligibilityMessage host summary) w)
          as (result & Hsend & _).
        rewrite Hsend. simpl. eexists; reflexivity.
      * exists false. rewrite world_eta. reflexivity.
Qed.

Lemma posts_quiet (host : Host) (env : Env) (d : DB) (summary : Summary) :
  statusWrites (posts host env d summary) = [] /\
  chainReads (posts host env d summary) = [].
Proof. unfold posts. destruct (notifying env d); split; reflexivity. Qed.

(** *** Queries *)

Lemma In_insert_desc {A : Type} (key : A -> Z) (x y : A) (l : list A) :
  In y (insert_desc key x l) <-> y = x \/ In y l.
Proof.
  induction l as [|z l IH]; simpl.
  - intuition.
  - destruct (key z <=? key x); simpl; [intuition|].
    rewrite IH. intuition.
Qed.

Lemma In_order_by_desc {A : Type} (key : A -> Z) (y : A) (l : list A) :
  In y (order_by_desc key l) <-> In y l.
Proof.
  induction l as [|x l IH]; simpl; [reflexivity|].
  rewrite In_insert_desc, IH. intuition.
Qed.

(** The first row of [ORDER BY key DESC] has the greatest key. *)
Lemma head_order_by_desc {A : Type} (key : A -> Z) (x : A) (l : list A) :
  List.head (order_by_desc key l) = Some x ->
  In x l /\ forall y, In y l -> key y <= key x.
Proof.
  revert x. induction l as [|a l IH]; intros x; simpl; [discriminate|].
  destruct (order_by_desc key l) as [|z sorted] eqn:E; simpl.
  - intros [= <-]. split; [left; reflexivity|].
    intros y [->|Hy]; [lia|].
    apply (In_order_by_desc key) in Hy. rewrite E in Hy. destruct Hy.
  - specialize (IH z eq_refl). destruct IH as [Hz Hmax].
    destruct (Z.leb_spec (key z) (key a)); simpl; intros [= <-].
    + split; [left; reflexivity|].
      intros y [->|Hy]; [lia|]. specialize (Hmax y Hy). lia.
    + split; [right; exact Hz|].
      intros y [->|Hy]; [lia|]. exact (Hmax y Hy).
Qed.

Lemma RunStatus_eqb_eq (a b : RunStatus) : RunStatus_eqb a b = true <-> a = b.
Proof. destruct a, b; simpl; split; congruence. Qed.

(** [getLastScreeningRun] returns a successful run that started no earlier
    than any other successful run, and nothing when there is none. *)
Lemma getLastScreeningRun_spec (d : DB) :
  match getLastScreeningRun d with
  | Some lastRun =>
      In lastRun (screening_runs d) /\ r_status lastRun = RunSuccess /\
      forall r, In r (screening_runs d) -> r_status r = RunSuccess ->
                r_started_at r <= r_started_at lastRun
  | None =>
      forall r, In r (screening_runs d) -> r_status r <> RunSuccess
  end.
Proof.
  unfold getLastScreeningRun.
  destruct (List.head _) as [lastRun|] eqn:E.
  - apply head_order_by_desc in E. destruct E as [Hin Hmax].
    apply List.filter_In in Hin. destruct Hin as [Hin Hs].
    apply RunStatus_eqb_eq in Hs. repeat split; try assumption.
    intros r Hr Hrs. apply Hmax. apply List.filter_In. split; [exact Hr|].
    apply RunStatus_eqb_eq. exact Hrs.
  - intros r Hr Hrs.
    assert (Hf : In r (order_by_desc r_started_at
                         (List.filter (fun r => RunStatus_eqb (r_status r) RunSuccess)
                            (screening_runs d)))).
    { apply In_order_by_desc, List.filter_In. split; [exact Hr|].
      apply RunStatus_eqb_eq. exact Hrs. }
    destruct (order_by_desc _ _); [destruct Hf|discriminate E].
Qed.

(** A run that is still [running] does not change what the queries of the
    job see. *)
Lemma getLastScreeningRun_running (d : DB) (r : ScreeningRun) :
  r_status r = RunRunning ->
  getLastScreeningRun (with_runs d (screening_runs d ++ [r])) = getLastScreeningRun d.
Proof.
  intros Hr. unfold getLastScreeningRun, with_runs. simpl.
  rewrite List.filter_app. simpl. rewrite Hr. simpl. rewrite app_nil_r. reflexivity.
Qed.

Lemma profilesWithWallets_wallets (d d' : DB) (ps : list Profile) :
  wallets d' = wallets d -> profilesWithWallets d' ps = profilesWithWallets d ps.
Proof.
  intros Hw. induction ps as [|p ps IH]; simpl; [reflexivity|].
  unfold getWalletsByProfile. rewrite Hw, IH. reflexivity.
Qed.

Lemma getAllProfilesWithWallets_runs (d : DB) (rs : list ScreeningRun) :
  getAllProfilesWithWallets (with_runs d rs) = getAllProfilesWithWallets d.
Proof. apply profilesWithWallets_wallets. reflexivity. Qed.

Lemma getAllProfilesWithWallets_inserted (host : Host) (w : World) :
  getAllProfilesWithWallets (db (inserted host w))
  = getAllProfilesWithWallets (db w).
Proof. apply getAllProfilesWithWallets_runs. Qed.

Lemma baseline_running (d : DB) (r : ScreeningRun) :
  r_status r = RunRunning ->
  baseline (with_runs d (screening_runs d ++ [r])) = baseline d.
Proof.
  intros Hr. unfold baseline. rewrite (getLastScreeningRun_running d r Hr).
  reflexivity.
Qed.

(** Every wallet the job processes is a row of the wallets table. *)
Lemma processed_wallets_rows (d : DB) (wallet : Wallet) :
  In wallet (flat_map snd (getAllProfilesWithWallets d)) -> In wallet (wallets d).
Proof.
  unfold getAllProfilesWithWallets. generalize (profiles d) as ps.
  induction ps as [|p ps IH]; simpl; [tauto|].
  destruct (0 <? _); simpl; [|exact IH].
  rewrite in_app_iff. intros [Hw|Hw]; [|exact (IH Hw)].
  unfold getWalletsByProfile in Hw. apply In_order_by_desc in Hw.
  apply List.filter_In in Hw. tauto.
Qed.

Section Run.
Context (host : Host) (env : Env).

(** The profile loop when it completes: no profile at all, or a threshold
    that [BigInt] accepts. *)
Lemma processProfiles_ok (lpPairs : list LpPair)
    (previousEligible : gmap string ProfileSnapshot)
    (thresholdRaw runId : string) (threshold : Z)
    (profiles : list (Profile * list Wallet)) (w : World) :
  profiles = [] \/ Js.BigInt thresholdRaw = Some threshold ->
  processProfiles host env lpPairs previousEligible thresholdRaw runId
    profiles (mkTally 0 0 [] [] []) w =
    (inr (mkTally
            (Z.of_nat (ticks host env lpPairs (flat_map snd profiles)))
            (Z.of_nat (List.length
                         (List.filter (eligibleNow host env lpPairs threshold)
                            profiles)))
            (newly host env lpPairs previousEligible threshold profiles)
            (dropped host env lpPairs previousEligible threshold profiles)
            (ranked host env lpPairs threshold profiles)),
     mkWorld
       (with_snapshots
          (with_wallets (db w)
             (List.map
                (touch host env lpPairs (flat_map snd profiles) (steps w))
                (wallets (db w))))
          (profile_snapshots (db w)
           ++ List.map (snapshotOf host env lpPairs threshold runId) profiles))
       (steps w + ticks host env lpPairs (flat_map snd profiles))
       (trace w ++ flat_map (reads host env lpPairs) (flat_map snd profiles))).
Proof.
  intros [->|Hthreshold].
  - simpl. unfold ret, ticks. simpl.
    rewrite !app_nil_r, Nat.add_0_r, List.map_id.
    destruct w as [d ? ?]; destruct d; reflexivity.
  - rewrite (processProfiles_run host env lpPairs previousEligible thresholdRaw
               runId threshold Hthreshold). reflexivity.
Qed.

Lemma baseline_run (w : World) :
  match getLastScreeningRun (db w) with
  | Some lastRun => query (fun d => getSnapshotsForRun d (r_id lastRun))
  | None => ret []
  end w = (inr (baseline (db w)), w).
Proof. unfold baseline. destruct (getLastScreeningRun (db w)); reflexivity. Qed.

(** The job after the run record is created, when the profile loop
    completes. *)
Lemma screen_ok (runId : string) (threshold : Z) (w : World) :
  let d := db w in
  let profiles := getAllProfilesWithWallets d in
  let lpPairs := getEnabledLpPairs d in
  let ws := flat_map snd profiles in
  profiles = [] \/ Js.BigInt (thresholdOf d) = Some threshold ->
  exists sent tg,
    try_catch (screen host env runId) (screenFailed host runId) w =
      (inr (mkScreeningResult runId RunSuccess
              (Z.of_nat (List.length profiles))
              (Z.of_nat (ticks host env lpPairs ws))
              (Z.of_nat (List.length
                           (List.filter (eligibleNow host env lpPairs threshold)
                              profiles)))
              sent None),
       mkWorld
         (with_runs
            (with_snapshots
               (with_wallets d
                  (List.map (touch host env lpPairs ws (steps w)) (wallets d)))
               (profile_snapshots d
                ++ List.map (snapshotOf host env lpPairs threshold runId) profiles))
            (List.map
               (set_success
                  (date_now host (S (steps w + ticks host env lpPairs ws)))
                  (Z.of_nat (List.length profiles))
                  (Z.of_nat (ticks host env lpPairs ws))
                  (Z.of_nat (List.length
                               (List.filter
                                  (eligibleNow host env lpPairs threshold)
                                  profiles)))
                  (if sent then 1 else 0) runId)
               (screening_runs d)))
         (S (S (steps w + ticks host env lpPairs ws)))
         (trace w ++ flat_map (reads host env lpPairs) ws ++ tg
          ++ [RunStatusWrite runId RunSuccess])) /\
    (tg = [] \/
     exists chatId,
       tg = [TelegramPost (TELEGRAM_BOT_TOKEN env) chatId
               (formatEligibilityMessage host
                  (mkSummary
                     (isoDate host
                        (date_now host (steps w + ticks host env lpPairs ws)))
                     (Z.of_nat (List.length
                                  (List.filter
                                     (eligibleNow host env lpPairs threshold)
                                     profiles)))
                     (newly host env lpPairs (previousEligibleOf (baseline d))
                        threshold profiles)
                     (dropped host env lpPairs (previousEligibleOf (baseline d))
                        threshold profiles)
                     (topEligibleOf host
                        (ranked host env lpPairs threshold profiles))))]) /\
    (sent = true -> exists chatId message reply,
        postSendMessage host (TELEGRAM_BOT_TOKEN env) chatId message = inr reply
        /\ ok reply = true).
Proof.
  intros d profiles lpPairs ws Hok.
  unfold screen, try_catch. unfold bind at 1 2 3. unfold query at 1 2 3.
  unfold bind at 1. rewrite baseline_run.
  unfold bind at 1. unfold query at 1.
  unfold bind at 1.
  fold d. fold (thresholdOf d). fold profiles lpPairs.
  rewrite (processProfiles_ok lpPairs _ _ runId threshold profiles w Hok).
  fold ws.
  unfold bind at 1. unfold step at 1.
  cbn [db steps trace t_walletsProcessed t_eligibleCount t_newlyEligible
         t_droppedEligible t_allEligible].
  unfold bind at 1.
  match goal with
  | |- context [notify host env ?m ?w'] =>
      destruct (notify_run host env m w') as (sent & tg & Hn & Htg & Hsent);
      rewrite Hn
  end.
  exists sent, tg. split; [|split].
  - run. rewrite <- !app_assoc. reflexivity.
  - exact Htg.
  - intros Hs. destruct (Hsent Hs) as (chatId & reply & Hr). eauto.
Qed.

(** The job after the run record is created, with a threshold that reads
    as an integer: the whole of what it answers and leaves behind. *)
Lemma screen_posts (runId : string) (threshold : Z) (w : World) :
  let d := db w in
  let profiles := getAllProfilesWithWallets d in
  let lpPairs := getEnabledLpPairs d in
  let ws := flat_map snd profiles in
  let n := (steps w + ticks host env lpPairs ws)%nat in
  let eligible :=
    Z.of_nat (List.length
                (List.filter (eligibleNow host env lpPairs threshold) profiles)) in
  Js.BigInt (thresholdOf d) = Some threshold ->
  exists sent,
    try_catch (screen host env runId) (screenFailed host runId) w =
      (inr (mkScreeningResult runId RunSuccess
              (Z.of_nat (List.length profiles))
              (Z.of_nat (ticks host env lpPairs ws)) eligible sent None),
       mkWorld
         (with_runs
            (with_snapshots
               (with_wallets d
                  (List.map (touch host env lpPairs ws (steps w)) (wallets d)))
               (profile_snapshots d
                ++ List.map (snapshotOf host env lpPairs threshold runId) profiles))
            (List.map
               (set_success (date_now host (S n))
                  (Z.of_nat (List.length profiles))
                  (Z.of_nat (ticks host env lpPairs ws)) eligible
                  (if sent then 1 else 0) runId)
               (screening_runs d)))
         (S (S n))
         (trace w ++ flat_map (reads host env lpPairs) ws
          ++ posts host env d (summaryOf host env d threshold n)
          ++ [RunStatusWrite runId RunSuccess])).
Proof.
  intros d profiles lpPairs ws n eligible Hthr.
  unfold screen, try_catch. unfold bind at 1 2 3. unfold query at 1 2 3.
  unfold bind at 1. rewrite baseline_run.
  unfold bind at 1. unfold query at 1.
  unfold bind at 1.
  fold d. fold (thresholdOf d). fold profiles lpPairs.
  rewrite (processProfiles_ok lpPairs _ _ runId threshold profiles w
             (or_intror Hthr)).
  fold ws.
  unfold bind at 1. unfold step at 1.
  cbn [db steps trace t_walletsProcessed t_eligibleCount t_newlyEligible
         t_droppedEligible t_allEligible].
  unfold bind at 1.
  match goal with
  | |- context [notify host env (formatEligibilityMessage host ?m) ?w'] =>
      destruct (notify_posts host env m w') as (sent & Hn); rewrite Hn
  end.
  exists sent. unfold bind, step, exec, emit, ret. cbn [db steps trace].
  rewrite <- !app_assoc. reflexivity.
Qed.

(** The job after the run record is created, when the threshold cannot be
    read as an integer and there is a profile to evaluate. *)
Lemma screen_bad (runId : string) (w : World)
    (profile : Profile * list Wallet) (rest : list (Profile * list Wallet)) :
  let d := db w in
  let lpPairs := getEnabledLpPairs d in
  let message := "Cannot convert " +:+ thresholdOf d +:+ " to a BigInt" in
  getAllProfilesWithWallets d = profile :: rest ->
  Js.BigInt (thresholdOf d) = None ->
  try_catch (screen host env runId) (screenFailed host runId) w =
    (inr (mkScreeningResult runId RunError 0 0 0 false (Some message)),
     mkWorld
       (with_runs
          (with_wallets d
             (List.map (touch host env lpPairs (snd profile) (steps w))
                (wallets d)))
          (List.map
             (set_failed
                (date_now host (steps w + ticks host env lpPairs (snd profile)))
                message runId)
             (screening_runs d)))
       (S (steps w + ticks host env lpPairs (snd profile)))
       (trace w ++ flat_map (reads host env lpPairs) (snd profile)
        ++ [RunStatusWrite runId RunError])).
Proof.
  intros d lpPairs message Hps Hbad.
  unfold screen, try_catch. unfold bind at 1 2 3. unfold query at 1 2 3.
  unfold bind at 1. rewrite baseline_run.
  unfold bind at 1. unfold query at 1.
  unfold bind at 1.
  fold d. fold (thresholdOf d). fold lpPairs. rewrite Hps.
  rewrite (processProfiles_bad host env lpPairs _ _ runId profile rest _ w Hbad).
  unfold screenFailed. run. rewrite <- !app_assoc. reflexivity.
Qed.

(** The interval gate reads the store and changes nothing.  It holds an
    invocation back exactly when the invocation is not forced, a successful
    run exists, the interval is a number and less than the interval has
    elapsed since that run started. *)
Lemma intervalGate_run (force : bool) (startedAt : Z) (w : World) :
  exists gate,
    intervalGate force startedAt w = (inr gate, w) /\
    (force = true -> gate = None) /\
    (getLastScreeningRun (db w) = None -> gate = None) /\
    (intervalHoursOf (db w) = None -> gate = None) /\
    (forall lastRun hours,
        force = false ->
        getLastScreeningRun (db w) = Some lastRun ->
        intervalHoursOf (db w) = Some hours ->
        (startedAt - r_started_at lastRun < hours * 60 * 60 * 1000 ->
         gate = Some (skipped
                        (Js.ceil_div
                           (hours * 60 * 60 * 1000
                            - (startedAt - r_started_at lastRun))
                           (60 * 60 * 1000)))) /\
        (hours * 60 * 60 * 1000 <= startedAt - r_started_at lastRun ->
         gate = None)).
Proof.
  unfold intervalGate, intervalHoursOf. destruct force; simpl.
  - exists None. repeat split; try reflexivity; intros; discriminate.
  - run. pose proof (getLastScreeningRun_spec (db w)) as Hlast.
    destruct (getLastScreeningRun (db w)) as [lastRun|].
    + destruct Hlast as (_ & Hs & _). rewrite Hs. simpl.
      destruct (Js.parseInt _) as [hours|]; simpl.
      * destruct (Z.ltb_spec (startedAt - r_started_at lastRun)
                    (hours * 60 * 60 * 1000)) as [Hlt|Hge].
        -- eexists; split; [reflexivity|].
           split; [discriminate|]. split; [discriminate|]. split; [discriminate|].
           intros lastRun' hours' _ [= <-] [= <-]. split; [reflexivity|lia].
        -- exists None. split; [reflexivity|].
           split; [reflexivity|]. split; [reflexivity|]. split; [reflexivity|].
           intros lastRun' hours' _ [= <-] [= <-]. split; [lia|reflexivity].
      * exists None. split; [reflexivity|].
        repeat split; try reflexivity; intros; discriminate.
    + exists None. split; [reflexivity|].
      repeat split; try reflexivity; intros; discriminate.
Qed.

(** An invocation either returns at the gate, leaving the store and the
    trace as they were, or creates its run record and goes through the job. *)
Lemma runScreening_run (force : bool) (w : World) :
  let runId := randomUUID host (steps w) in
  let startedAt := date_now host (S (steps w)) in
  let w2 := mkWorld (db w) (S (S (steps w))) (trace w) in
  exists gate,
    intervalGate force startedAt w2 = (inr gate, w2) /\
    runScreening host env force w =
      match gate with
      | Some result => (inr result, w2)
      | None =>
          try_catch (screen host env runId) (screenFailed host runId)
            (mkWorld
               (with_runs (db w)
                  (screening_runs (db w)
                   ++ [mkScreeningRun runId startedAt None RunRunning None 0 0 0 0]))
               (S (S (steps w)))
               (trace w ++ [RunStatusWrite runId RunRunning]))
      end.
Proof.
  intros runId startedAt w2.
  destruct (intervalGate_run force startedAt w2) as (gate & Hg & _).
  exists gate. split; [exact Hg|].
  unfold runScreening. unfold bind at 1 2 3. unfold step at 1 2.
  cbn [db steps trace]. fold runId startedAt w2. rewrite Hg.
  destruct gate; reflexivity.
Qed.

(** An invocation that is held back says so in its answer. *)
Lemma held_back_error (force : bool) (startedAt : Z) (w w' : World)
    (result : ScreeningResult) :
  intervalGate force startedAt w = (inr (Some result), w') ->
  error result <> None.
Proof.
  unfold intervalGate. destruct force; simpl; [discriminate|].
  unfold bind, query, ret. cbv beta iota.
  destruct (getLastScreeningRun (db w)) as [lastRun|]; [|discriminate].
  destruct (RunStatus_eqb _ _); [|discriminate]. cbv beta iota.
  destruct (Js.parseInt _) as [hours|]; simpl; [|discriminate].
  destruct (_ <? _); [|discriminate].
  intros [= <- _]. discriminate.
Qed.

Lemma summaryOf_inserted (threshold : Z) (n : nat) (w : World) :
  summaryOf host env (db (inserted host w)) threshold n
  = summaryOf host env (db w) threshold n.
Proof.
  unfold summaryOf. rewrite (getAllProfilesWithWallets_inserted host w).
  unfold inserted. cbn [db]. rewrite baseline_running by reflexivity.
  reflexivity.
Qed.

(** The closed form of an invocation that answers without an error text,
    with a threshold that reads as an integer: the job ran to its end, and
    this is its answer, its snapshots and its trace. *)
Lemma run_posts (force : bool) (w w' : World) (res : ScreeningResult)
    (threshold : Z) :
  let d := db w in
  let profiles := getAllProfilesWithWallets d in
  let lpPairs := getEnabledLpPairs d in
  let ws := flat_map snd profiles in
  let runId := randomUUID host (steps w) in
  let n := (S (S (steps w)) + ticks host env lpPairs ws)%nat in
  runScreening host env force w = (inr res, w') ->
  error res = None ->
  Js.BigInt (thresholdOf d) = Some threshold ->
  (exists sent,
      res = mkScreeningResult runId RunSuccess
              (Z.of_nat (List.length profiles))
              (Z.of_nat (ticks host env lpPairs ws))
              (Z.of_nat (List.length
                           (List.filter (eligibleNow host env lpPairs threshold)
                              profiles)))
              sent None) /\
  profile_snapshots (db w')
  = profile_snapshots d
    ++ List.map (snapshotOf host env lpPairs threshold runId) profiles /\
  trace w'
  = trace w ++ RunStatusWrite runId RunRunning
      :: flat_map (reads host env lpPairs) ws
      ++ posts host env d (summaryOf host env d threshold n)
      ++ [RunStatusWrite runId RunSuccess].
Proof.
  intros d profiles lpPairs ws runId n Hrun Herr Hthr.
  destruct (runScreening_run force w) as (gate & Hg & Hrun').
  rewrite Hrun in Hrun'. destruct gate as [result|].
  - injection Hrun' as -> _.
    destruct (held_back_error _ _ _ _ _ Hg Herr).
  - change (mkWorld _ _ _) with (inserted host w) in Hrun'.
    subst d profiles lpPairs ws runId n.
    destruct (screen_posts (randomUUID host (steps w)) threshold
                (inserted host w) Hthr)
      as (sent & Hs).
    rewrite summaryOf_inserted in Hs.
    rewrite (getAllProfilesWithWallets_inserted host w) in Hs.
    rewrite Hs in Hrun'. injection Hrun' as -> ->.
    split; [exists sent; reflexivity|].
    split; [reflexivity|].
    cbn [trace inserted]. rewrite <- app_assoc. reflexivity.
Qed.

Lemma reads_are_reads (lpPairs : list LpPair) (ws : list Wallet) :
  Forall (fun e => exists u a f args, e = ReadContract u a f args)
    (flat_map (reads host env lpPairs) ws).
Proof.
  apply Forall_flat_map, Forall_forall. intros wallet _.
  eapply List.Forall_impl; [|apply exposureReads_are_reads].
  simpl. intros e (a & f & args & ->). eauto.
Qed.

Lemma reads_quiet (lpPairs : list LpPair) (ws : list Wallet) :
  statusWrites (flat_map (reads host env lpPairs) ws) = [] /\
  chainReads (flat_map (reads host env lpPairs) ws)
  = flat_map (reads host env lpPairs) ws.
Proof.
  pose proof (reads_are_reads lpPairs ws) as H.
  induction H as [|e evs (u & a & f & args & ->) _ [IH1 IH2]]; [split; reflexivity|].
  split; [exact IH1|]. unfold chainReads in *. simpl. rewrite IH2. reflexivity.
Qed.

Lemma statusWrites_app (l1 l2 : list Event) :
  statusWrites (l1 ++ l2) = statusWrites l1 ++ statusWrites l2.
Proof. unfold statusWrites. apply flat_map_app. Qed.

Lemma chainReads_app (l1 l2 : list Event) :
  chainReads (l1 ++ l2) = chainReads l1 ++ chainReads l2.
Proof. unfold chainReads. apply List.filter_app. Qed.

Lemma set_success_spec (finished pn wn en sent : Z) (runId : string)
    (r : ScreeningRun) :
  r_id (set_success finished pn wn en sent runId r) = r_id r /\
  r_started_at (set_success finished pn wn en sent runId r) = r_started_at r /\
  (r_id r = runId ->
   r_status (set_success finished pn wn en sent runId r) = RunSuccess) /\
  (r_id r <> runId -> set_success finished pn wn en sent runId r = r).
Proof.
  unfold set_success. destruct (String.eqb_spec (r_id r) runId); simpl;
    repeat split; congruence.
Qed.

Lemma set_failed_spec (finished : Z) (error runId : string) (r : ScreeningRun) :
  r_id (set_failed finished error runId r) = r_id r /\
  r_started_at (set_failed finished error runId r) = r_started_at r /\
  (r_id r = runId -> r_status (set_failed finished error runId r) = RunError) /\
  (r_id r <> runId -> set_failed finished error runId r = r).
Proof.
  unfold set_failed. destruct (String.eqb_spec (r_id r) runId); simpl;
    repeat split; congruence.
Qed.

(** The job always returns, and what it leaves behind is a [Job]. *)
Lemma job_outcome (runId : string) (w : World) :
  exists res w' terminal ws,
    try_catch (screen host env runId) (screenFailed host runId) w = (inr res, w')
    /\ Job host env runId w w' res terminal ws.
Proof.
  destruct (getAllProfilesWithWallets (db w)) as [|profile rest] eqn:Eps.
  - destruct (screen_ok runId 0 w) as (sent & tg & Hrun & Htg & Hsent);
      [left; exact Eps|].
    rewrite Eps in Hrun. simpl in Hrun.
    eexists; eexists; exists RunSuccess, []. split; [exact Hrun|].
    destruct (notify_quiet _ _ _ Htg) as [Hq1 Hq2].
    constructor; simpl; try reflexivity.
    + left; reflexivity.
    + rewrite Eps. split; [left; reflexivity|reflexivity].
    + exists tg. repeat split; assumption.
    + exists []. rewrite Eps. reflexivity.
    + rewrite Eps. repeat split; reflexivity.
    + intros Hs. split; [reflexivity|exact (Hsent Hs)].
    + repeat split; reflexivity.
    + eexists; split; [reflexivity|]. intros r. apply set_success_spec.
  - destruct (Js.BigInt (thresholdOf (db w))) as [threshold|] eqn:Ethr.
    + destruct (screen_ok runId threshold w) as (sent & tg & Hrun & Htg & Hsent);
        [right; exact Ethr|].
      eexists; eexists; exists RunSuccess; eexists. split; [exact Hrun|].
      destruct (notify_quiet _ _ _ Htg) as [Hq1 Hq2].
      destruct (reads_quiet (getEnabledLpPairs (db w))
                  (flat_map snd (getAllProfilesWithWallets (db w)))) as [Hr1 Hr2].
      constructor; simpl; try reflexivity.
      * left; reflexivity.
      * rewrite Ethr. split; [right; eexists; reflexivity|reflexivity].
      * exists (flat_map (reads host env (getEnabledLpPairs (db w)))
                  (flat_map snd (getAllProfilesWithWallets (db w))) ++ tg).
        split; [rewrite <- app_assoc; reflexivity|].
        rewrite statusWrites_app, chainReads_app, Hr1, Hr2, Hq1, Hq2, !app_nil_r.
        split; reflexivity.
      * exists []. rewrite app_nil_r. reflexivity.
      * repeat split; reflexivity.
      * intros Hs. split; [reflexivity|exact (Hsent Hs)].
      * repeat split; reflexivity.
      * eexists; split; [reflexivity|]. intros r. apply set_success_spec.
    + pose proof (screen_bad runId w profile rest Eps Ethr) as Hrun.
      eexists; eexists; exists RunError, (snd profile). split; [exact Hrun|].
      destruct (reads_quiet (getEnabledLpPairs (db w)) (snd profile)) as [Hr1 Hr2].
      constructor; simpl; try reflexivity.
      * right; reflexivity.
      * rewrite Eps, Ethr. split; [discriminate|].
        intros [H|[x H]]; discriminate H.
      * eexists. split; [reflexivity|]. split; assumption.
      * exists (flat_map snd rest). rewrite Eps. reflexivity.
      * discriminate.
      * discriminate.
      * repeat split; reflexivity.
      * eexists; split; [reflexivity|]. intros r. apply set_failed_spec.
Qed.

(** An invocation is either held back, or it creates its record and runs
    the job to its end. *)
Lemma runScreening_cases (force : bool) (w : World) :
  let runId := randomUUID host (steps w) in
  let startedAt := date_now host (S (steps w)) in
  let w2 := mkWorld (db w) (S (S (steps w))) (trace w) in
  exists gate,
    intervalGate force startedAt w2 = (inr gate, w2) /\
    match gate with
    | Some result => runScreening host env force w = (inr result, w2)
    | None =>
        exists res w' terminal ws,
          runScreening host env force w = (inr res, w') /\
          Job host env runId (inserted host w) w' res terminal ws
    end.
Proof.
  intros runId startedAt w2.
  destruct (runScreening_run force w) as (gate & Hg & Hrun).
  exists gate. split; [exact Hg|]. destruct gate as [result|]; [exact Hrun|].
  destruct (job_outcome runId (inserted host w)) as (res & w' & terminal & ws & Hjob & J).
  exists res, w', terminal, ws. split; [|exact J].
  rewrite Hrun. exact Hjob.
Qed.

(** An invocation that the gate lets through goes through the job. *)
Lemma gate_open_executed (force : bool) (w : World) :
  let w2 := mkWorld (db w) (S (S (steps w))) (trace w) in
  intervalGate force (date_now host (S (steps w))) w2 = (inr None, w2) ->
  exists res w',
    runScreening host env force w = (inr res, w') /\
    created (randomUUID host (steps w)) (date_now host (S (steps w))) w w' /\
    executed host env w w' res.
Proof.
  intros w2 Hopen.
  destruct (runScreening_run force w) as (gate & Hg & Hrun).
  fold w2 in Hg. rewrite Hopen in Hg. injection Hg as <-.
  change (mkWorld _ _ _) with (inserted host w) in Hrun.
  destruct (job_outcome (randomUUID host (steps w)) (inserted host w))
    as (res & w' & terminal & ws & Hjob & J).
  exists res, w'. split; [rewrite Hrun; exact Hjob|].
  split.
  { destruct (job_trace _ _ _ _ _ _ _ _ J) as (evs & Htr & _).
    destruct (job_runs _ _ _ _ _ _ _ _ J) as (f & Hruns & Hf).
    unfold created. split; [|split].
    - exists (evs ++ [RunStatusWrite (randomUUID host (steps w)) terminal]).
      rewrite Htr. simpl. rewrite <- app_assoc. reflexivity.
    - rewrite Hruns. simpl. rewrite length_map, length_app. simpl. lia.
    - exists (f (mkScreeningRun (randomUUID host (steps w))
                  (date_now host (S (steps w))) None RunRunning None 0 0 0 0)).
      rewrite Hruns. simpl. split; [|split].
      + apply in_map, in_or_app. right. left. reflexivity.
      + apply Hf.
      + apply Hf. }
  split; [exists terminal, ws; exact J|].
  intros threshold Ethr.
  destruct (screen_ok (randomUUID host (steps w)) threshold (inserted host w))
    as (sent & tg & Hs & Htg & _).
  { right. exact Ethr. }
  rewrite (getAllProfilesWithWallets_inserted host w) in Hs.
  change (getEnabledLpPairs (db (inserted host w)))
    with (getEnabledLpPairs (db w)) in Hs.
  rewrite Hs in Hjob. injection Hjob as <- <-.
  destruct (notify_quiet _ _ _ Htg) as [_ Hq].
  destruct (reads_quiet (getEnabledLpPairs (db w))
              (flat_map snd (getAllProfilesWithWallets (db w)))) as [_ Hr].
  split; [exists sent; reflexivity|].
  split; [reflexivity|]. split; [reflexivity|].
  cbn [trace inserted]. rewrite !chainReads_app.
  rewrite Hr, Hq. simpl. rewrite !app_nil_r. reflexivity.
Qed.


Lemma created_not_untouched (runId : string) (startedAt : Z) (w w' : World) :
  created runId startedAt w w' -> ~ untouched w w'.
Proof.
  intros [(evs & Htr) _] [_ Hsame]. rewrite Hsame in Htr.
  apply (f_equal (@List.length Event)) in Htr.
  rewrite length_app in Htr. simpl in Htr. lia.
Qed.

End Run.

(** C4. A forced invocation always executes: it creates its run record and
    goes through the job, which leaves a terminal status behind and, when
    the threshold setting is an integer, one snapshot for every profile that
    has a wallet, the outcome of every wallet in the wallets table, the
    chain reads of every wallet and the counts in the answer.  A non-forced
    one, when a successful run exists and the interval setting is a number,
    is held back if less than the interval has elapsed since that run
    started: it then changes nothing in the store (no run record, no wallet
    or snapshot written) and sends nothing (no chain read), and answers with
    zero counts; with the interval elapsed it executes like a forced one. *)
Theorem interval_gate (host : Host) (env : Env) (w : World) :
  let runId := randomUUID host (steps w) in
  let startedAt := date_now host (S (steps w)) in
  (exists res w',
      runScreening host env true w = (inr res, w') /\
      created runId startedAt w w' /\
      executed host env w w' res) /\
  forall lastRun hours,
    getLastScreeningRun (db w) = Some lastRun ->
    intervalHoursOf (db w) = Some hours ->
    let elapsed := startedAt - r_started_at lastRun in
    let interval := hours * 60 * 60 * 1000 in
    (elapsed < interval ->
     exists res w',
       runScreening host env false w = (inr res, w') /\
       untouched w w' /\
       profilesProcessed res = 0 /\ walletsProcessed res = 0) /\
    (interval <= elapsed ->
     exists res w',
       runScreening host env false w = (inr res, w') /\
       created runId startedAt w w' /\
       executed host env w w' res).
Proof.
  intros runId startedAt. split.
  - destruct (intervalGate_run true startedAt
                (mkWorld (db w) (S (S (steps w))) (trace w)))
      as (gate & Hg & Hforce & _).
    rewrite (Hforce eq_refl) in Hg.
    exact (gate_open_executed host env true w Hg).
  - intros lastRun hours Hlast Hhours elapsed interval.
    destruct (intervalGate_run false startedAt
                (mkWorld (db w) (S (S (steps w))) (trace w)))
      as (gate & Hg & _ & _ & _ & Hgate).
    destruct (Hgate lastRun hours eq_refl Hlast Hhours) as [Hskip Hdue].
    split.
    + intros Hlt. rewrite (Hskip Hlt) in Hg.
      destruct (runScreening_run host env false w) as (gate' & Hg' & Hrun).
      fold startedAt in Hg'. rewrite Hg in Hg'. injection Hg' as <-.
      eexists; eexists. split; [exact Hrun|]. repeat split.
    + intros Hge. rewrite (Hdue Hge) in Hg.
      exact (gate_open_executed host env false w Hg).
Qed.

(** In the scenario a non-forced invocation is held back when the last run
    is three hours old.  When it is more than a day old the invocation goes
    ahead: it evaluates the four profiles that have a wallet, finds two of
    them eligible, reads the chain, and leaves four new snapshots. *)
Lemma interval_gate_witness :
  (exists res w',
      runScreening Demo.host Demo.env false Demo.recent = (inr res, w') /\
      untouched Demo.recent w' /\
      profilesProcessed res = 0 /\ walletsProcessed res = 0) /\
  (exists res w',
      runScreening Demo.host Demo.env false Demo.world = (inr res, w') /\
      created "run-0" 1700000001000 Demo.world w' /\
      res = mkScreeningResult "run-0" RunSuccess 4 4 2 false None /\
      List.map
        (fun s => (s_run_id s, s_profile_id s, s_total_chog_raw s, s_eligible s))
        (profile_snapshots (db w'))
      = [("run-old", "A", "3000000", 1); ("run-old", "B", "2000000", 1);
         ("run-old", "C", "5", 0);
         ("run-0", "A", "500", 0); ("run-0", "B", "2000000", 1);
         ("run-0", "C", "1000000", 1); ("run-0", "D", "42", 0)] /\
      chainReads (trace w') <> []).
Proof.
  split.
  - destruct (interval_gate Demo.host Demo.env Demo.recent) as [_ H].
    destruct (H (Demo.lastRunAt 1699990000000) 24 eq_refl eq_refl) as [Hskip _].
    apply Hskip. reflexivity.
  - destruct (interval_gate Demo.host Demo.env Demo.world) as [_ H].
    destruct (H (Demo.lastRunAt 1699900000000) 24 eq_refl eq_refl) as [_ Hdue].
    destruct (Hdue ltac:(discriminate)) as (res & w' & Hrun & Hc & _ & Hclosed).
    destruct (Hclosed 1000000 eq_refl) as ((sent & Hres) & Hsnaps & _ & Hreads).
    exists res, w'. split; [exact Hrun|]. split; [exact Hc|].
    split; [|split].
    + pose proof Hrun as Hv. vm_compute in Hv. injection Hv as Hv _.
      rewrite <- Hv. reflexivity.
    + rewrite Hsnaps. vm_compute. reflexivity.
    + rewrite Hreads. vm_compute. discriminate.
Defined.

Lemma ceil_div_pos (a b : Z) : 0 < a -> 0 < b -> 0 < Js.ceil_div a b.
Proof.
  intros Ha Hb. unfold Js.ceil_div.
  assert (- a / b < 0) by (apply Z.div_lt_upper_bound; lia). lia.
Qed.

(** C9. A non-forced invocation that the gate holds back answers with status
    [success], an empty [runId], zero counts, [messageSent] false and an
    error text that starts with [Skipped:] and names the hours left, at least
    one.  An invocation that did run and ended in [success] carries the same
    status and no error text, so the status alone does not tell the two
    apart while the error field does. *)
Theorem skipped_result (host : Host) (env : Env) (w : World)
    (lastRun : ScreeningRun) (hours : Z) :
  getLastScreeningRun (db w) = Some lastRun ->
  intervalHoursOf (db w) = Some hours ->
  let remaining :=
    hours * 60 * 60 * 1000 - (date_now host (S (steps w)) - r_started_at lastRun) in
  0 < remaining ->
  exists hoursRemaining w',
    runScreening host env false w =
      (inr (mkScreeningResult "" RunSuccess 0 0 0 false
              (Some ("Skipped: " +:+ Js.toString hoursRemaining
                     +:+ "h until next run"))), w') /\
    hoursRemaining = Js.ceil_div remaining (60 * 60 * 1000) /\
    0 < hoursRemaining /\
    String.prefix "Skipped:"
      ("Skipped: " +:+ Js.toString hoursRemaining +:+ "h until next run") = true /\
    forall force0 w0 res0 w0',
      runScreening host env force0 w0 = (inr res0, w0') ->
      created (randomUUID host (steps w0)) (date_now host (S (steps w0))) w0 w0' ->
      status res0 = RunSuccess ->
      error res0 = None.
Proof.
  intros Hlast Hhours remaining Hpos.
  destruct (runScreening_cases host env false w) as (gate & Hg & Hrun).
  destruct (intervalGate_run false (date_now host (S (steps w)))
              (mkWorld (db w) (S (S (steps w))) (trace w)))
    as (gate' & Hg' & _ & _ & _ & Hgate).
  rewrite Hg in Hg'. injection Hg' as <-.
  destruct (Hgate lastRun hours eq_refl Hlast Hhours) as [Hskip _].
  rewrite Hskip in Hrun by (subst remaining; lia).
  eexists; eexists. split; [exact Hrun|]. split; [reflexivity|].
  split; [apply ceil_div_pos; [exact Hpos|lia]|]. split; [reflexivity|].
  intros force0 w0 res0 w0' Hrun0 Hcreated Hstatus.
  destruct (runScreening_cases host env force0 w0) as (gate0 & _ & Hcases).
  destruct gate0 as [result|].
  - rewrite Hrun0 in Hcases. injection Hcases as _ ->.
    exfalso. apply (created_not_untouched _ _ _ _ Hcreated). split; reflexivity.
  - destruct Hcases as (res & w1 & terminal & ws & Hrun1 & J).
    rewrite Hrun0 in Hrun1. injection Hrun1 as <- <-.
    apply (job_counts _ _ _ _ _ _ _ _ J).
    rewrite <- (job_status _ _ _ _ _ _ _ _ J). exact Hstatus.
Qed.

(** In the scenario 22 hours are left of the 24. *)
Lemma skipped_result_witness :
  exists w',
    runScreening Demo.host Demo.env false Demo.recent =
      (inr (mkScreeningResult "" RunSuccess 0 0 0 false
              (Some "Skipped: 22h until next run")), w').
Proof.
  destruct (skipped_result Demo.host Demo.env Demo.recent
              (Demo.lastRunAt 1699990000000) 24 eq_refl eq_refl eq_refl)
    as (h & w' & Hrun & Hh & _).
  exists w'. rewrite Hrun, Hh. reflexivity.
Defined.

Lemma NoDup_key_inj {A B : Type} (f : A -> B) (l : list A) (a b : A) :
  List.NoDup (List.map f l) -> In a l -> In b l -> f a = f b -> a = b.
Proof.
  induction l as [|x l IH]; simpl; [tauto|].
  intros Hnd Ha Hb Hf. apply NoDup_cons_iff in Hnd. destruct Hnd as [Hx Hnd].
  destruct Ha as [->|Ha], Hb as [->|Hb].
  - reflexivity.
  - exfalso. apply Hx. rewrite Hf. apply in_map. exact Hb.
  - exfalso. apply Hx. rewrite <- Hf. apply in_map. exact Ha.
  - exact (IH Hnd Ha Hb Hf).
Qed.

(** C10. Take a row of the wallets table whose exposure computation fails,
    ids being unique in the table.  Over a whole invocation the table is
    rewritten row by row, and this row either stays as it is or has its
    status set to [error] and its error reason set to the failure's message:
    the cached balances and [last_checked_at] keep the values they had, as
    does every other field.  When the job ran to [success] (no error text)
    and the wallet was among those processed, status and reason were
    written. *)
Theorem failed_wallet_frame (host : Host) (env : Env) (force : bool) (w : World)
    (row : Wallet) (err : Js.exn) :
  List.NoDup (List.map w_id (wallets (db w))) ->
  In row (wallets (db w)) ->
  exposure host env (getEnabledLpPairs (db w)) row = inl err ->
  exists res w' after,
    runScreening host env force w = (inr res, w') /\
    wallets (db w') = List.map after (wallets (db w)) /\
    (after row = row \/ after row = set_error (Js.errMessage err) (w_id row) row) /\
    (w_last_direct_chog_raw (after row) = w_last_direct_chog_raw row /\
     w_last_lp_chog_raw (after row) = w_last_lp_chog_raw row /\
     w_last_total_chog_raw (after row) = w_last_total_chog_raw row /\
     w_last_checked_at (after row) = w_last_checked_at row) /\
    (w_id (after row) = w_id row /\
     w_profile_id (after row) = w_profile_id row /\
     w_address (after row) = w_address row /\
     w_wallet_rdns (after row) = w_wallet_rdns row /\
     w_verified_at (after row) = w_verified_at row /\
     w_created_at (after row) = w_created_at row) /\
    (status res = RunSuccess -> error res = None ->
     In row (flat_map snd (getAllProfilesWithWallets (db w))) ->
     w_status (after row) = WError /\
     w_error_reason (after row) = Some (Js.errMessage err)).
Proof.
  intros Hnd Hrow Hfail.
  assert (Hfields : forall r,
             r = row \/ r = set_error (Js.errMessage err) (w_id row) row ->
             (w_last_direct_chog_raw r = w_last_direct_chog_raw row /\
              w_last_lp_chog_raw r = w_last_lp_chog_raw row /\
              w_last_total_chog_raw r = w_last_total_chog_raw row /\
              w_last_checked_at r = w_last_checked_at row) /\
             (w_id r = w_id row /\ w_profile_id r = w_profile_id row /\
              w_address r = w_address row /\ w_wallet_rdns r = w_wallet_rdns row /\
              w_verified_at r = w_verified_at row /\
              w_created_at r = w_created_at row)).
  { intros r [->| ->]; [repeat split|].
    rewrite set_error_same. repeat split. }
  destruct (runScreening_cases host env force w) as (gate & Hg & Hrun).
  destruct gate as [result|].
  - exists result, (mkWorld (db w) (S (S (steps w))) (trace w)), (fun r => r).
    split; [exact Hrun|]. split; [simpl; rewrite List.map_id; reflexivity|].
    split; [left; reflexivity|].
    destruct (Hfields row (or_introl eq_refl)) as [H1 H2].
    split; [exact H1|]. split; [exact H2|].
    intros _ Herr _. exfalso.
    unfold intervalGate in Hg. destruct force; [discriminate Hg|].
    revert Hg. run.
    destruct (getLastScreeningRun (db w)) as [lastRun|]; [|discriminate].
    destruct (RunStatus_eqb _ _); [|discriminate]. simpl.
    destruct (Js.parseInt _) as [hours|]; [|discriminate]. simpl.
    destruct (_ <? _); [|discriminate].
    intros [= <-]. discriminate Herr.
  - destruct Hrun as (res & w' & terminal & ws & Hrun & J).
    pose proof (job_wallets _ _ _ _ _ _ _ _ J) as Hw.
    destruct (job_ws _ _ _ _ _ _ _ _ J) as (rest & Hws).
    change (wallets (db (inserted host w))) with (wallets (db w)) in Hw.
    change (getEnabledLpPairs (db (inserted host w)))
      with (getEnabledLpPairs (db w)) in *.
    rewrite getAllProfilesWithWallets_inserted in Hws.
    assert (Htouch : touch host env (getEnabledLpPairs (db w)) ws
                       (steps (inserted host w)) row
                     = if existsb (fun pw => String.eqb (w_id pw) (w_id row)) ws
                       then set_error (Js.errMessage err) (w_id row) row
                       else row).
    { apply touch_failed. intros pw Hpw Hid.
      assert (Hin : In pw (wallets (db w))).
      { apply processed_wallets_rows. rewrite Hws. apply in_or_app. left.
        exact Hpw. }
      rewrite (NoDup_key_inj w_id _ pw row Hnd Hin Hrow Hid). exact Hfail. }
    exists res, w', (touch host env (getEnabledLpPairs (db w)) ws
                       (steps (inserted host w))).
    split; [exact Hrun|]. split; [exact Hw|].
    rewrite Htouch.
    assert (Hcase : (if existsb (fun pw => String.eqb (w_id pw) (w_id row)) ws
                     then set_error (Js.errMessage err) (w_id row) row
                     else row) = row
                    \/ (if existsb (fun pw => String.eqb (w_id pw) (w_id row)) ws
                        then set_error (Js.errMessage err) (w_id row) row
                        else row)
                       = set_error (Js.errMessage err) (w_id row) row)
      by (destruct (existsb _ ws); [right|left]; reflexivity).
    split; [exact Hcase|].
    destruct (Hfields _ Hcase) as [H1 H2].
    split; [exact H1|]. split; [exact H2|].
    intros Hs _ Hin.
    rewrite (job_status _ _ _ _ _ _ _ _ J) in Hs.
    destruct (job_counts _ _ _ _ _ _ _ _ J Hs) as (Hall & _).
    rewrite getAllProfilesWithWallets_inserted in Hall. rewrite <- Hall in Hin.
    assert (Hex : existsb (fun pw => String.eqb (w_id pw) (w_id row)) ws = true).
    { apply existsb_exists. exists row. split; [exact Hin|].
      apply String.eqb_refl. }
    rewrite Hex, set_error_same. split; reflexivity.
Qed.

Lemma demo_wallet_ids : List.NoDup (List.map w_id (wallets Demo.store)).
Proof.
  simpl. repeat (constructor; [simpl; intuition discriminate|]). constructor.
Qed.

(** In the scenario the wallet [wx] cannot be read: after a forced run its
    row has status [error] and still carries the balances and the check time
    it had before. *)
Lemma failed_wallet_frame_witness :
  exists res w' row',
    runScreening Demo.host Demo.env true Demo.world = (inr res, w') /\
    In row' (wallets (db w')) /\
    w_id row' = "wx" /\
    w_last_total_chog_raw row' = Some "7" /\
    w_last_checked_at row' = Some 5.
Proof.
  assert (Hin : In Demo.walletBad (wallets (db Demo.world)))
    by (simpl; tauto).
  destruct (failed_wallet_frame Demo.host Demo.env true Demo.world Demo.walletBad
              (Js.Error "execution reverted") demo_wallet_ids Hin eq_refl)
    as (res & w' & after & Hrun & Hw & _ & Hcached & Hother & _).
  exists res, w', (after Demo.walletBad). split; [exact Hrun|].
  split; [rewrite Hw; apply in_map; exact Hin|].
  destruct Hcached as (_ & _ & Htotal & Hchecked). destruct Hother as (Hid & _).
  rewrite Hid, Htotal, Hchecked. repeat split.
Defined.

(** C6. The wallet loop never throws.  A wallet whose exposure computation
    throws adds nothing to the aggregate, which is the sum of the totals of
    the wallets that could be read, and its row gets status [error] and the
    failure's message as error reason; the wallets after it are processed as
    usual.  A wallet's [exposure] is what [getTotalChogExposure] returns for
    its address in any world; the wallets of the loop have distinct ids. *)
Theorem failed_wallet_isolated (host : Host) (env : Env) (lpPairs : list LpPair)
    (ws : list Wallet) (st : Inner) (w : World) :
  List.NoDup (List.map w_id ws) ->
  exists st' w',
    processWallets host env lpPairs ws st w = (inr st', w') /\
    i_profileTotalChog st'
      = i_profileTotalChog st + sumZ (List.map (share host env lpPairs) ws) /\
    (forall wallet w0,
        fst (getTotalChogExposure host (MONAD_RPC_URL env) (CHOG_CONTRACT env)
               lpPairs (w_address wallet) w0)
        = exposure host env lpPairs wallet) /\
    (forall wallet e,
        In wallet ws -> exposure host env lpPairs wallet = inr e ->
        share host env lpPairs wallet = totalBalance e) /\
    (forall wallet err,
        In wallet ws -> exposure host env lpPairs wallet = inl err ->
        share host env lpPairs wallet = 0 /\
        forall row, In row (wallets (db w)) -> w_id row = w_id wallet ->
          exists row',
            In row' (wallets (db w')) /\ w_id row' = w_id wallet /\
            w_status row' = WError /\
            w_error_reason row' = Some (Js.errMessage err)).
Proof.
  intros Hnd. rewrite processWallets_run.
  eexists; eexists. split; [reflexivity|].
  cbn [i_profileTotalChog db wallets with_wallets].
  split; [reflexivity|].
  split; [intros wallet w0; rewrite reads_getTotalChogExposure; reflexivity|].
  split.
  - intros wallet e _ He. unfold share. rewrite He. reflexivity.
  - intros wallet err Hin Herr. split; [unfold share; rewrite Herr; reflexivity|].
    intros row Hrow Hid.
    exists (touch host env lpPairs ws (steps w) row).
    split; [apply in_map; exact Hrow|].
    rewrite (touch_error host env lpPairs ws (steps w) row wallet err Hnd Hin Herr Hid).
    rewrite set_error_same. cbn [w_id w_status w_error_reason].
    repeat split. exact Hid.
Qed.

(** The profile D of the scenario has two wallets: [0xd] holds 42 and [0xbad]
    cannot be read.  Its aggregate is 42, the row of the failed wallet has
    status [error], and the snapshot of a forced run records 42. *)
Lemma failed_wallet_isolated_witness :
  exists st' w',
    processWallets Demo.host Demo.env [Demo.pairP; Demo.pairQ]
      [Demo.walletD; Demo.walletBad] (mkInner 0 [] 0) Demo.world = (inr st', w') /\
    i_profileTotalChog st' = 42 /\
    (exists row',
        In row' (wallets (db w')) /\ w_id row' = "wx" /\ w_status row' = WError /\
        w_error_reason row' = Some "execution reverted") /\
    In ("D", "42")
      (List.map (fun s => (s_profile_id s, s_total_chog_raw s))
         (profile_snapshots
            (db (snd (runScreening Demo.host Demo.env true Demo.world))))).
Proof.
  assert (Hnd : List.NoDup (List.map w_id [Demo.walletD; Demo.walletBad])).
  { simpl. repeat (constructor; [simpl; intuition discriminate|]). constructor. }
  destruct (failed_wallet_isolated Demo.host Demo.env [Demo.pairP; Demo.pairQ]
              [Demo.walletD; Demo.walletBad] (mkInner 0 [] 0) Demo.world Hnd)
    as (st' & w' & Hrun & Htotal & _ & _ & Hfail).
  exists st', w'. split; [exact Hrun|]. split; [rewrite Htotal; reflexivity|].
  split.
  - destruct (Hfail Demo.walletBad (Js.Error "execution reverted")
                ltac:(simpl; tauto) eq_refl) as [_ Hrow].
    apply (Hrow Demo.walletBad); [simpl; tauto|reflexivity].
  - vm_compute. tauto.
Defined.

(** C8, as the code has it.  An invocation that is not held back writes the
    status of its run exactly twice: [running] when the record is created,
    then one terminal status, [success] or [error], never [partial]; the
    rows with the run's id end with that status, which is also the status
    answered.  The terminal status is [success] exactly when the profile
    loop completes, that is when there is no profile to evaluate or the
    threshold setting reads as an integer, whatever the chain or Telegram
    answered; [messageSent] is true only after Telegram accepted the
    message.  On [success], [walletsProcessed] counts the wallets whose
    exposure was computed: a wallet that failed is not counted, and its row
    has status [error]. *)
Theorem run_lifecycle (host : Host) (env : Env) (force : bool) (w : World) :
  let runId := randomUUID host (steps w) in
  let lpPairs := getEnabledLpPairs (db w) in
  let attempted := flat_map snd (getAllProfilesWithWallets (db w)) in
  exists res w' evs,
    runScreening host env force w = (inr res, w') /\
    trace w' = trace w ++ evs /\
    ((statusWrites evs = [] /\ screening_runs (db w') = screening_runs (db w))
     \/
     exists terminal,
       statusWrites evs = [(runId, RunRunning); (runId, terminal)] /\
       (terminal = RunSuccess \/ terminal = RunError) /\
       status res = terminal /\
       (forall r, In r (screening_runs (db w')) -> r_id r = runId ->
                  r_status r = terminal) /\
       (terminal = RunSuccess <->
        (getAllProfilesWithWallets (db w) = []
         \/ is_Some (Js.BigInt (thresholdOf (db w))))) /\
       (messageSent res = true ->
        terminal = RunSuccess /\
        exists chatId message reply,
          postSendMessage host (TELEGRAM_BOT_TOKEN env) chatId message = inr reply
          /\ ok reply = true) /\
       (terminal = RunSuccess ->
        walletsProcessed res
          = Z.of_nat (List.length
                        (List.filter (succeeded host env lpPairs) attempted)) /\
        forall wallet row,
          In wallet attempted -> succeeded host env lpPairs wallet = false ->
          In row (wallets (db w)) -> w_id row = w_id wallet ->
          exists row',
            In row' (wallets (db w')) /\ w_id row' = w_id wallet /\
            w_status row' = WError)).
Proof.
  intros runId lpPairs attempted.
  destruct (runScreening_cases host env force w) as (gate & _ & Hrun).
  destruct gate as [result|].
  - exists result, (mkWorld (db w) (S (S (steps w))) (trace w)), [].
    split; [exact Hrun|]. split; [simpl; rewrite app_nil_r; reflexivity|].
    left. split; reflexivity.
  - destruct Hrun as (res & w' & terminal & ws & Hrun & J).
    destruct (job_trace _ _ _ _ _ _ _ _ J) as (evs & Htr & Hquiet & _).
    destruct (job_runs _ _ _ _ _ _ _ _ J) as (f & Hruns & Hf).
    exists res, w', (RunStatusWrite runId RunRunning :: evs
                     ++ [RunStatusWrite runId terminal]).
    split; [exact Hrun|].
    split; [rewrite Htr; simpl; rewrite <- app_assoc; reflexivity|].
    right. exists terminal. split; [|split; [|split; [|split; [|split; [|split]]]]].
    + change (RunStatusWrite runId RunRunning :: evs
              ++ [RunStatusWrite runId terminal])
        with ([RunStatusWrite runId RunRunning]
              ++ evs ++ [RunStatusWrite runId terminal]).
      rewrite !statusWrites_app, Hquiet. reflexivity.
    + exact (job_terminal _ _ _ _ _ _ _ _ J).
    + exact (job_status _ _ _ _ _ _ _ _ J).
    + intros r Hr Hid. rewrite Hruns in Hr. apply in_map_iff in Hr.
      destruct Hr as (r0 & <- & _). destruct (Hf r0) as (Hid0 & _ & Hst & _).
      apply Hst. rewrite <- Hid0. exact Hid.
    + pose proof (job_success _ _ _ _ _ _ _ _ J) as Hs.
      rewrite getAllProfilesWithWallets_inserted in Hs. exact Hs.
    + exact (job_sent _ _ _ _ _ _ _ _ J).
    + intros Hs. destruct (job_counts _ _ _ _ _ _ _ _ J Hs) as (Hall & Hn & _).
      rewrite getAllProfilesWithWallets_inserted in Hall.
      fold attempted in Hall. subst ws. split; [exact Hn|].
      intros wallet row Hin Hfail Hrow Hid.
      exists (touch host env lpPairs attempted (steps (inserted host w)) row).
      split; [|split].
      * rewrite (job_wallets _ _ _ _ _ _ _ _ J). apply in_map. exact Hrow.
      * rewrite touch_id. exact Hid.
      * exact (touch_records_failure host env lpPairs attempted _ row wallet
                 Hin Hfail Hid).
Qed.

(** In the scenario a forced run ends in [success] although one of the five
    wallets cannot be read, and the Telegram request fails without changing
    that; four wallets are counted. *)
Lemma run_lifecycle_witness :
  exists res w',
    runScreening Demo.host Demo.env true Demo.world = (inr res, w') /\
    statusWrites (trace w') = [("run-0", RunRunning); ("run-0", RunSuccess)] /\
    status res = RunSuccess /\ messageSent res = false /\
    walletsProcessed res = 4.
Proof.
  destruct (run_lifecycle Demo.host Demo.env true Demo.world)
    as (res & w' & evs & Hrun & Htr & _).
  exists res, w'. split; [exact Hrun|].
  assert (Hc : fst (runScreening Demo.host Demo.env true Demo.world) = inr res
               /\ snd (runScreening Demo.host Demo.env true Demo.world) = w')
    by (rewrite Hrun; split; reflexivity).
  destruct Hc as [Hres Hw]. vm_compute in Hres. injection Hres as <-. subst w'.
  vm_compute. repeat split.
Defined.

(** The specification has the failed wallets counted.  In the scenario
    five wallets are attempted, the one at [0xbad] fails, the run ends in
    [success] and [walletsProcessed] is 4. *)
Lemma failed_wallets_not_counted :
  exists res w',
    runScreening Demo.host Demo.env true Demo.world = (inr res, w') /\
    status res = RunSuccess /\
    List.length (flat_map snd (getAllProfilesWithWallets (db Demo.world))) = 5%nat /\
    In Demo.walletBad (flat_map snd (getAllProfilesWithWallets (db Demo.world))) /\
    succeeded Demo.host Demo.env (getEnabledLpPairs (db Demo.world)) Demo.walletBad
      = false /\
    walletsProcessed res
      <> Z.of_nat (List.length
                     (flat_map snd (getAllProfilesWithWallets (db Demo.world)))).
Proof.
  eexists; eexists. split; [vm_compute; reflexivity|].
  vm_compute. repeat split; try discriminate. tauto.
Qed.

(** *** The previously-eligible set and the classification *)

Lemma fold_insert_is_Some (snaps : list ProfileSnapshot)
    (m : gmap string ProfileSnapshot) (pid : string) :
  is_Some (fold_left (fun m s => <[s_profile_id s := s]> m) snaps m !! pid) <->
  is_Some (m !! pid) \/ exists s, In s snaps /\ s_profile_id s = pid.
Proof.
  revert m. induction snaps as [|s snaps IH]; intros m; simpl.
  - split; [tauto|]. intros [H|(s & [] & _)]. exact H.
  - rewrite IH, lookup_insert_is_Some. split.
    + intros [[E|[_ H]]|(s' & Hin & E)]; eauto 6.
    + intros [H|(s' & [<-|Hin] & E)].
      * destruct (decide (s_profile_id s = pid)); [left; left; assumption|].
        left; right; split; assumption.
      * left; left; exact E.
      * right; eauto.
Qed.

(** A profile is in the previously-eligible set exactly when one of the
    snapshots it is built from is this profile's and is marked eligible. *)
Lemma previousEligibleOf_spec (snaps : list ProfileSnapshot) (pid : string) :
  is_Some (previousEligibleOf snaps !! pid) <->
  exists s, In s snaps /\ s_profile_id s = pid /\ s_eligible s <> 0.
Proof.
  unfold previousEligibleOf. rewrite fold_insert_is_Some, lookup_empty. split.
  - intros [[x Hx]|(s & Hin & E)]; [discriminate Hx|].
    apply List.filter_In in Hin. destruct Hin as [Hin Hel].
    exists s. repeat split; try assumption.
    intros Hz. rewrite Hz in Hel. discriminate Hel.
  - intros (s & Hin & E & Hel). right. exists s. split; [|exact E].
    apply List.filter_In. split; [exact Hin|].
    destruct (Z.eqb_spec (s_eligible s) 0); [contradiction|reflexivity].
Qed.

(** The stored set holds a profile exactly when the profile was eligible
    at the last successful run. *)
Lemma wasEligible_previously (d : DB) (p : Profile * list Wallet) :
  wasEligible (previousEligibleOf (baseline d)) p = previously d (p_id (fst p)).
Proof.
  apply Bool.eq_iff_eq_true. unfold wasEligible, previously, baseline.
  rewrite bool_decide_eq_true, previousEligibleOf_spec.
  destruct (getLastScreeningRun d) as [lastRun|].
  - rewrite existsb_exists. unfold getSnapshotsForRun. split.
    + intros (s & Hin & Hpid & Hel). exists s.
      apply List.filter_In in Hin. destruct Hin as [Hin Hrun].
      split; [exact Hin|]. rewrite Hrun, Hpid, String.eqb_refl. simpl.
      destruct (Z.eqb_spec (s_eligible s) 0); [contradiction|reflexivity].
    + intros (s & Hin & Hs).
      apply andb_prop in Hs. destruct Hs as [Hs Hel].
      apply andb_prop in Hs. destruct Hs as [Hrun Hpid].
      exists s. split; [apply List.filter_In; split; assumption|].
      split; [apply String.eqb_eq; exact Hpid|].
      intros Hz. rewrite Hz in Hel. discriminate Hel.
  - split; [intros (s & [] & _)|discriminate].
Qed.

(** The profiles a run evaluates are those that have a wallet. *)
Lemma evaluated_spec (d : DB) (p : Profile) (ws : list Wallet) :
  In (p, ws) (getAllProfilesWithWallets d) <->
  In p (profiles d) /\ ws = getWalletsByProfile d (p_id p) /\ ws <> [].
Proof.
  unfold getAllProfilesWithWallets. generalize (profiles d) as ps.
  induction ps as [|q ps IH]; simpl; [tauto|].
  destruct (0 <? _) eqn:Hn; simpl; rewrite IH.
  - split.
    + intros [[= <- <-]|(Hin & Hws & Hne)].
      * split; [left; reflexivity|]. split; [reflexivity|].
        intros E. rewrite E in Hn. discriminate Hn.
      * split; [right; exact Hin|]. split; assumption.
    + intros ([->|Hin] & Hws & Hne).
      * left. rewrite Hws. reflexivity.
      * right. split; [exact Hin|]. split; assumption.
  - split.
    + intros (Hin & Hws & Hne). split; [right; exact Hin|]. split; assumption.
    + intros ([->|Hin] & Hws & Hne).
      * exfalso. apply Hne. rewrite Hws.
        destruct (getWalletsByProfile d (p_id p)); [reflexivity|discriminate Hn].
      * split; [exact Hin|]. split; assumption.
Qed.

(** C5, as the code has it.  Take an invocation that did the job, with a
    threshold that reads as an integer.  The previously-eligible set holds
    the profiles that a snapshot of the most recent successful run marks
    eligible, and is empty when no run has succeeded.  The run evaluates the
    profiles that have a wallet, and no other: each of them gets a snapshot,
    marked eligible exactly when its total reaches the threshold.  The
    summary of the run lists as newly eligible the evaluated profiles that
    are eligible now and were not in that set, and as dropped the evaluated
    profiles that were in it and are not eligible now, in the order of the
    profiles; it is posted when there is a token and a chat and
    notifications are not switched off.  A profile without a wallet is in
    neither list, whatever the last run found. *)
Theorem diff_classification (host : Host) (env : Env) (force : bool)
    (w w' : World) (res : ScreeningResult) (threshold : Z) :
  let d := db w in
  let evaluated := getAllProfilesWithWallets d in
  let lpPairs := getEnabledLpPairs d in
  let runId := randomUUID host (steps w) in
  let now p := total host env lpPairs (snd p) >=? threshold in
  let before p := previously d (p_id (fst p)) in
  let today :=
    isoDate host
      (date_now host
         (S (S (steps w)) + ticks host env lpPairs (flat_map snd evaluated))) in
  runScreening host env force w = (inr res, w') ->
  error res = None ->
  Js.BigInt (thresholdOf d) = Some threshold ->
  match getLastScreeningRun d with
  | Some lastRun =>
      In lastRun (screening_runs d) /\ r_status lastRun = RunSuccess /\
      (forall r, In r (screening_runs d) -> r_status r = RunSuccess ->
                 r_started_at r <= r_started_at lastRun) /\
      forall pid,
        previously d pid = true <->
        exists s, In s (profile_snapshots d) /\ s_run_id s = r_id lastRun /\
                  s_profile_id s = pid /\ s_eligible s <> 0
  | None =>
      (forall r, In r (screening_runs d) -> r_status r <> RunSuccess) /\
      forall pid, previously d pid = false
  end /\
  (forall p ws,
      In (p, ws) evaluated <->
      In p (profiles d) /\ ws = getWalletsByProfile d (p_id p) /\ ws <> []) /\
  profile_snapshots (db w')
  = profile_snapshots d
    ++ List.map
         (fun p => mkProfileSnapshot runId (p_id (fst p))
                     (Js.toString (total host env lpPairs (snd p)))
                     (if now p then 1 else 0)
                     (flat_map (detail host env lpPairs) (snd p)))
         evaluated /\
  eligibleCount res = Z.of_nat (List.length (List.filter now evaluated)) /\
  trace w'
  = trace w ++ RunStatusWrite runId RunRunning
      :: flat_map (reads host env lpPairs) (flat_map snd evaluated)
      ++ posts host env d
           (mkSummary today (eligibleCount res)
              (List.map (listedOf host env lpPairs)
                 (List.filter (fun p => now p && negb (before p)) evaluated))
              (List.map handleOf
                 (List.filter (fun p => negb (now p) && before p) evaluated))
              (topEligibleOf host
                 (List.map (rankedOf host env lpPairs)
                    (List.filter now evaluated))))
      ++ [RunStatusWrite runId RunSuccess].
Proof.
  intros d evaluated lpPairs runId now before today Hrun Herr Hthr.
  split; [|split; [|split; [|split]]].
  - pose proof (getLastScreeningRun_spec d) as Hlast.
    unfold previously. destruct (getLastScreeningRun d) as [lastRun|].
    + destruct Hlast as (Hin & Hs & Hmax). repeat split; try assumption.
      * rewrite existsb_exists. intros (s & Hsn & Hb).
        apply andb_prop in Hb. destruct Hb as [Hb Hel].
        apply andb_prop in Hb. destruct Hb as [Hr Hpid].
        apply String.eqb_eq in Hr, Hpid. exists s. repeat split; try assumption.
        intros Hz. rewrite Hz in Hel. discriminate Hel.
      * intros (s & Hsn & Hr & Hpid & Hel). apply existsb_exists. exists s.
        split; [exact Hsn|]. rewrite Hr, Hpid, !String.eqb_refl. simpl.
        destruct (Z.eqb_spec (s_eligible s) 0); [contradiction|reflexivity].
    + split; [exact Hlast|reflexivity].
  - intros p ws. apply evaluated_spec.
  - destruct (run_posts host env force w w' res threshold Hrun Herr Hthr)
      as (_ & Hsnaps & _).
    exact Hsnaps.
  - destruct (run_posts host env force w w' res threshold Hrun Herr Hthr)
      as ((sent & ->) & _).
    reflexivity.
  - destruct (run_posts host env force w w' res threshold Hrun Herr Hthr)
      as ((sent & ->) & _ & Htr).
    rewrite Htr. unfold summaryOf, newly, dropped, ranked.
    cbn [eligibleCount].
    rewrite (List.filter_ext
               (fun p => eligibleNow host env (getEnabledLpPairs (db w))
                           threshold p
                         && negb (wasEligible
                                    (previousEligibleOf (baseline (db w))) p))
               (fun p => now p && negb (before p))).
    2:{ intros p. rewrite wasEligible_previously. reflexivity. }
    rewrite (List.filter_ext
               (fun p => negb (eligibleNow host env (getEnabledLpPairs (db w))
                                 threshold p)
                         && wasEligible
                              (previousEligibleOf (baseline (db w))) p)
               (fun p => negb (now p) && before p)).
    2:{ intros p. rewrite wasEligible_previously. reflexivity. }
    reflexivity.
Qed.

(** In the scenario the last successful run found A and B eligible; now B
    and C are, all three have a wallet, and the summary the run posts lists
    C as newly eligible and A as dropped. *)
Lemma diff_classification_witness :
  List.map (previously Demo.store) ["A"; "B"; "C"; "D"]
  = [true; true; false; false] /\
  exists res w',
    runScreening Scenario.reporter Demo.env true Demo.world = (inr res, w') /\
    List.map (fun s => (s_profile_id s, s_eligible s))
      (skipn 3 (profile_snapshots (db w')))
    = [("A", 0); ("B", 1); ("C", 1); ("D", 0)] /\
    exists requests,
      trace w'
      = RunStatusWrite "run-0" RunRunning :: requests
        ++ [TelegramPost "bot-token" "-100200300"
              (Message.formatEligibilityMessage Scenario.plain
                 (mkSummary "2023-11-14" 2
                    [mkListed "carol" "1000000"] ["alice"]
                    [mkListed "bob" "2000000"; mkListed "carol" "1000000"]));
            RunStatusWrite "run-0" RunSuccess].
Proof.
  split; [reflexivity|].
  destruct (runScreening Scenario.reporter Demo.env true Demo.world)
    as [[err|res] w'] eqn:Hrun.
  { vm_compute in Hrun. discriminate Hrun. }
  assert (Herr : error res = None).
  { pose proof Hrun as Hc. vm_compute in Hc. injection Hc as <- _. reflexivity. }
  destruct (diff_classification Scenario.reporter Demo.env true Demo.world w'
              res 1000000 Hrun Herr eq_refl)
    as (_ & _ & Hsnaps & Hcount & Htr).
  exists res, w'. split; [reflexivity|].
  split; [rewrite Hsnaps; vm_compute; reflexivity|].
  exists (flat_map
            (reads Scenario.reporter Demo.env (getEnabledLpPairs Demo.store))
            (flat_map snd (getAllProfilesWithWallets Demo.store))).
  rewrite Htr, Hcount. vm_compute. reflexivity.
Defined.

(** The specification has every profile of the previous set that is not
    eligible now listed as dropped.  In the scenario the last successful run
    found A and B eligible and A has since unlinked its only wallet.  The
    run evaluates B, C and D and finds B and C eligible, and its summary
    lists C as newly eligible and nobody as dropped: A, which was eligible
    and is no longer, is not in it. *)
Lemma unlinked_profile_not_dropped :
  List.map (previously (db Scenario.unlinked)) ["A"; "B"; "C"; "D"]
  = [true; true; false; false] /\
  getWalletsByProfile (db Scenario.unlinked) "A" = [] /\
  exists res w',
    runScreening Scenario.reporter Demo.env true Scenario.unlinked
    = (inr res, w') /\
    status res = RunSuccess /\ error res = None /\
    List.map (fun s => (s_profile_id s, s_eligible s))
      (skipn 3 (profile_snapshots (db w')))
    = [("B", 1); ("C", 1); ("D", 0)] /\
    exists requests,
      trace w'
      = RunStatusWrite "run-0" RunRunning :: requests
        ++ [TelegramPost "bot-token" "-100200300"
              (Message.formatEligibilityMessage Scenario.plain
                 (mkSummary "2023-11-14" 2
                    [mkListed "carol" "1000000"] []
                    [mkListed "bob" "2000000"; mkListed "carol" "1000000"]));
            RunStatusWrite "run-0" RunSuccess].
Proof.
  split; [reflexivity|]. split; [reflexivity|].
  eexists; eexists. split; [vm_compute; reflexivity|].
  split; [reflexivity|]. split; [reflexivity|]. split; [reflexivity|].
  exists (flat_map
            (reads Scenario.reporter Demo.env
               (getEnabledLpPairs (db Scenario.unlinked)))
            (flat_map snd (getAllProfilesWithWallets (db Scenario.unlinked)))).
  vm_compute. reflexivity.
Qed.

End ScreeningFacts.

(* ===================================================================== *)
(** ** The leaderboard *)
(* ===================================================================== *)

Module Leaderboard.
Import Db Rt Chog Screening Ref.

Section Insertion.
Context {A : Type}.

Lemma place_perm (cmp : A -> A -> Z) (x : A) (placed : list A) :
  Permutation (x :: placed) (place cmp x placed).
Proof.
  induction placed as [|y rest IH]; simpl; [reflexivity|].
  destruct (cmp x y <? 0); [reflexivity|].
  rewrite perm_swap. apply perm_skip. exact IH.
Qed.

Lemma fold_place_perm (cmp : A -> A -> Z) (l placed : list A) :
  Permutation (placed ++ l) (fold_left (fun acc x => place cmp x acc) l placed).
Proof.
  revert placed. induction l as [|x l IH]; intros placed; simpl.
  - rewrite app_nil_r. reflexivity.
  - rewrite <- IH. rewrite <- Permutation_middle.
    exact (Permutation_app_tail l (place_perm cmp x placed)).
Qed.

Lemma insertion_sort_perm (cmp : A -> A -> Z) (l : list A) :
  Permutation l (insertion_sort cmp l).
Proof. apply (fold_place_perm cmp l []). Qed.

(** Placing an element consults the comparison function only on that
    element against the elements already placed. *)
Lemma place_ext (cmp cmp' : A -> A -> Z) (x : A) (placed : list A) :
  (forall y, In y placed -> cmp x y = cmp' x y) ->
  place cmp x placed = place cmp' x placed.
Proof.
  induction placed as [|y rest IH]; intros Hagree; simpl; [reflexivity|].
  rewrite (Hagree y (or_introl eq_refl)).
  destruct (cmp' x y <? 0); [reflexivity|].
  rewrite IH; [reflexivity|]. intros z Hz. apply Hagree. right. exact Hz.
Qed.

Lemma fold_place_ext (cmp cmp' : A -> A -> Z) (l placed : list A) :
  List.NoDup (placed ++ l) ->
  (forall a b, In a (placed ++ l) -> In b (placed ++ l) -> a <> b ->
               cmp a b = cmp' a b) ->
  fold_left (fun acc x => place cmp x acc) l placed
  = fold_left (fun acc x => place cmp' x acc) l placed.
Proof.
  revert placed. induction l as [|x l IH]; intros placed Hnd Hagree; simpl;
    [reflexivity|].
  assert (Hx : ~ In x placed).
  { apply NoDup_remove_2 in Hnd. intros Hin. apply Hnd. apply in_or_app.
    left. exact Hin. }
  rewrite (place_ext cmp cmp' x placed).
  2:{ intros y Hy. apply Hagree.
      - apply in_or_app. right. left. reflexivity.
      - apply in_or_app. left. exact Hy.
      - intros ->. contradiction. }
  assert (Hperm : Permutation (placed ++ x :: l) (place cmp' x placed ++ l)).
  { rewrite <- Permutation_middle.
    exact (Permutation_app_tail l (place_perm cmp' x placed)). }
  apply IH.
  - exact (Permutation_NoDup Hperm Hnd).
  - intros a b Ha Hb Hne. apply Hagree; try assumption.
    + exact (Permutation_in a (Permutation_sym Hperm) Ha).
    + exact (Permutation_in b (Permutation_sym Hperm) Hb).
Qed.

(** Insertion sort is one of the sorts an engine may run. *)
Lemma insertion_sort_conforms : sort_conforms (@insertion_sort A).
Proof.
  constructor.
  - intros cmp l. apply insertion_sort_perm.
  - intros cmp l _. reflexivity.
  - intros cmp cmp' l Hnd Hagree. apply (fold_place_ext cmp cmp' l []); assumption.
Qed.

Lemma place_sorted (cmp : A -> A -> Z) (le : A -> A -> Prop) (l : list A)
    (x : A) (placed : list A) :
  (forall a b c, In a l -> In b l -> In c l -> le a b -> le b c -> le a c) ->
  (forall a b, In a l -> In b l ->
               (cmp a b < 0 -> le a b) /\ (0 < cmp a b -> le b a)
               /\ (cmp a b = 0 -> le a b /\ le b a)) ->
  In x l -> (forall y, In y placed -> In y l) ->
  StronglySorted le placed -> StronglySorted le (place cmp x placed).
Proof.
  intros Htrans Hans Hx Hin Hs.
  induction Hs as [|y rest Hrest IH Hy]; simpl.
  - constructor; constructor.
  - assert (Hyl : In y l) by (apply Hin; left; reflexivity).
    assert (Hrl : forall z, In z rest -> In z l)
      by (intros z Hz; apply Hin; right; exact Hz).
    destruct (Hans x y Hx Hyl) as (Hlt & Hgt & Heq).
    rewrite List.Forall_forall in Hy.
    destruct (Z.ltb_spec (cmp x y) 0) as [Hneg|Hpos].
    + constructor; [constructor; [exact Hrest|]|].
      * apply List.Forall_forall. exact Hy.
      * apply List.Forall_forall. intros z [<-|Hz]; [exact (Hlt Hneg)|].
        apply (Htrans x y z Hx Hyl (Hrl z Hz) (Hlt Hneg)). exact (Hy z Hz).
    + constructor; [exact (IH Hrl)|].
      apply List.Forall_forall. intros z Hz.
      apply (Permutation_in z (Permutation_sym (place_perm cmp x rest))) in Hz.
      destruct Hz as [<-|Hz]; [|exact (Hy z Hz)].
      destruct (Z.eq_dec (cmp x y) 0) as [Hzero|Hnz];
        [exact (proj2 (Heq Hzero))|apply Hgt; lia].
Qed.

(** Insertion sort orders the elements on the answers of the comparison
    function. *)
Lemma insertion_sort_sound : sort_sound (@insertion_sort A).
Proof.
  intros cmp le l Htrans Hans. unfold insertion_sort.
  assert (H : forall rest placed,
             (forall y, In y rest -> In y l) ->
             (forall y, In y placed -> In y l) ->
             StronglySorted le placed ->
             StronglySorted le
               (fold_left (fun acc x => place cmp x acc) rest placed)).
  { induction rest as [|x rest IH]; intros placed Hrest Hplaced Hs; simpl;
      [exact Hs|].
    apply IH.
    - intros y Hy. apply Hrest. right. exact Hy.
    - intros y Hy.
      apply (Permutation_in y (Permutation_sym (place_perm cmp x placed))) in Hy.
      destruct Hy as [<-|Hy]; [apply Hrest; left; reflexivity|exact (Hplaced y Hy)].
    - apply (place_sorted cmp le l); try assumption.
      apply Hrest. left. reflexivity. }
  apply H; [tauto| intros y []|constructor].
Qed.

End Insertion.

(** The three-way comparison of totals is consistent on every array. *)
Lemma byTotalDesc3_consistent (l : list Ranked) : consistent byTotalDesc3 l.
Proof.
  constructor; unfold byTotalDesc3; intros;
    repeat match goal with
           | H : context [?a >? ?b] |- _ => destruct (Z.gtb_spec a b)
           | |- context [?a >? ?b] => destruct (Z.gtb_spec a b)
           end; lia.
Qed.

(** On profiles with different totals the job's comparison function answers
    as the three-way comparison does. *)
Lemma byTotalDesc_agrees (a b : Ranked) :
  k_totalRaw a <> k_totalRaw b -> byTotalDesc a b = byTotalDesc3 a b.
Proof.
  intros Hne. unfold byTotalDesc, byTotalDesc3.
  destruct (Z.gtb_spec (k_totalRaw b) (k_totalRaw a)); [reflexivity|].
  destruct (Z.gtb_spec (k_totalRaw a) (k_totalRaw b)); [reflexivity|lia].
Qed.

Lemma place_descending (x : Ranked) (placed : list Ranked) :
  StronglySorted descending placed ->
  StronglySorted descending (place byTotalDesc3 x placed).
Proof.
  induction placed as [|y rest IH]; intros Hs; simpl.
  - constructor; constructor.
  - apply StronglySorted_inv in Hs. destruct Hs as [Hrest Hy].
    unfold byTotalDesc3 at 1.
    destruct (Z.gtb_spec (k_totalRaw y) (k_totalRaw x)) as [Hgt|Hle].
    + simpl. constructor; [apply IH; exact Hrest|].
      apply Forall_forall. intros z Hz. apply list_elem_of_In in Hz.
      apply (Permutation_in z (Permutation_sym (place_perm byTotalDesc3 x rest))) in Hz.
      destruct Hz as [<-|Hz]; [unfold descending; lia|].
      rewrite Forall_forall in Hy. apply Hy. apply list_elem_of_In. exact Hz.
    + destruct (Z.gtb_spec (k_totalRaw x) (k_totalRaw y)) as [Hgt|Heq]; simpl.
      * constructor; [constructor; assumption|].
        constructor; [unfold descending; lia|].
        eapply List.Forall_impl; [|exact Hy].
        unfold descending. intros z Hz. lia.
      * constructor; [apply IH; exact Hrest|].
        apply Forall_forall. intros z Hz. apply list_elem_of_In in Hz.
        apply (Permutation_in z (Permutation_sym (place_perm byTotalDesc3 x rest))) in Hz.
        destruct Hz as [<-|Hz]; [unfold descending; lia|].
        rewrite Forall_forall in Hy. apply Hy. apply list_elem_of_In. exact Hz.
Qed.

(** A stable descending sort puts the totals in non-increasing order. *)
Lemma insertion_sort_descending (l : list Ranked) :
  StronglySorted descending (insertion_sort byTotalDesc3 l).
Proof.
  unfold insertion_sort.
  assert (H : forall placed, StronglySorted descending placed ->
                StronglySorted descending
                  (fold_left (fun acc x => place byTotalDesc3 x acc) l placed)).
  { induction l as [|x l IH]; intros placed Hs; simpl; [exact Hs|].
    apply IH. apply place_descending. exact Hs. }
  apply H. constructor.
Qed.

Lemma descending_strict (l : list Ranked) :
  StronglySorted descending l -> List.NoDup (List.map k_totalRaw l) ->
  StronglySorted strictly_descending l.
Proof.
  induction 1 as [|x l Hs IH Hx]; intros Hnd; [constructor|].
  simpl in Hnd. apply NoDup_cons_iff in Hnd. destruct Hnd as [Hfresh Hnd].
  constructor; [apply IH; exact Hnd|].
  apply Forall_forall. intros y Hy. rewrite Forall_forall in Hx.
  specialize (Hx y Hy). apply list_elem_of_In in Hy.
  unfold descending in Hx. unfold strictly_descending.
  assert (k_totalRaw x <> k_totalRaw y).
  { intros E. apply Hfresh. rewrite E. apply in_map. exact Hy. }
  lia.
Qed.

Lemma filter_none {A : Type} (f : A -> bool) (l : list A) :
  (forall x, In x l -> f x = false) -> List.filter f l = [].
Proof.
  induction l as [|x l IH]; intros Hf; simpl; [reflexivity|].
  rewrite (Hf x (or_introl eq_refl)). apply IH.
  intros y Hy. apply Hf. right. exact Hy.
Qed.

(** Placing an element in a descending list keeps equal totals in the order
    in which they came. *)
Lemma place_keeps_order (x : Ranked) (placed : list Ranked) (v : Z) :
  StronglySorted descending placed ->
  List.filter (fun r => k_totalRaw r =? v) (place byTotalDesc3 x placed)
  = List.filter (fun r => k_totalRaw r =? v) placed
    ++ (if k_totalRaw x =? v then [x] else []).
Proof.
  induction placed as [|y rest IH]; intros Hs; simpl.
  - destruct (k_totalRaw x =? v); reflexivity.
  - apply StronglySorted_inv in Hs. destruct Hs as [Hrest Hy].
    unfold byTotalDesc3 at 1.
    destruct (Z.gtb_spec (k_totalRaw y) (k_totalRaw x)) as [Hgt|Hle].
    + simpl. rewrite (IH Hrest). destruct (k_totalRaw y =? v); reflexivity.
    + destruct (Z.gtb_spec (k_totalRaw x) (k_totalRaw y)) as [Hgt|Heq]; simpl.
      * destruct (Z.eqb_spec (k_totalRaw x) v) as [Ex|Nx];
          [|rewrite app_nil_r; reflexivity].
        destruct (Z.eqb_spec (k_totalRaw y) v) as [Ey|Ny]; [lia|].
        rewrite filter_none; [reflexivity|].
        intros z Hz. rewrite Forall_forall in Hy.
        apply list_elem_of_In in Hz. specialize (Hy z Hz).
        unfold descending in Hy. apply Z.eqb_neq. lia.
      * rewrite (IH Hrest). destruct (k_totalRaw y =? v); reflexivity.
Qed.

(** The reference sort is stable: profiles with the same total come out in
    the order in which they went in. *)
Lemma insertion_sort_stable (l : list Ranked) (v : Z) :
  List.filter (fun r => k_totalRaw r =? v) (insertion_sort byTotalDesc3 l)
  = List.filter (fun r => k_totalRaw r =? v) l.
Proof.
  unfold insertion_sort.
  assert (H : forall placed, StronglySorted descending placed ->
                List.filter (fun r => k_totalRaw r =? v)
                  (fold_left (fun acc x => place byTotalDesc3 x acc) l placed)
                = List.filter (fun r => k_totalRaw r =? v) placed
                  ++ List.filter (fun r => k_totalRaw r =? v) l).
  { induction l as [|x l IH]; intros placed Hs; simpl.
    - rewrite app_nil_r. reflexivity.
    - rewrite IH by (apply place_descending; exact Hs).
      rewrite (place_keeps_order x placed v Hs), <- app_assoc.
      destruct (k_totalRaw x =? v); reflexivity. }
  apply (H [] ltac:(constructor)).
Qed.

Lemma totals_distinct (l : list Ranked) (a b : Ranked) :
  List.NoDup (List.map k_totalRaw l) -> In a l -> In b l -> a <> b ->
  k_totalRaw a <> k_totalRaw b.
Proof.
  intros Hnd Ha Hb Hne E. apply Hne.
  exact (ScreeningFacts.NoDup_key_inj k_totalRaw l a b Hnd Ha Hb E).
Qed.

(** The job's comparison function never contradicts the order of the
    totals. *)
Lemma byTotalDesc_sound (a b : Ranked) :
  (byTotalDesc a b < 0 -> descending a b) /\
  (0 < byTotalDesc a b -> descending b a) /\
  (byTotalDesc a b = 0 -> descending a b /\ descending b a).
Proof.
  unfold byTotalDesc, descending.
  destruct (Z.gtb_spec (k_totalRaw b) (k_totalRaw a)); repeat split; lia.
Qed.

(** C7, as the code has it.  Take an invocation that did the job, with a
    threshold that reads as an integer.  The eligible profiles are the
    evaluated profiles whose total reaches the threshold, in the order of
    the profile loop, and the leaderboard of the run's summary is the first
    ten of them as the engine's sort leaves them under the job's comparison
    function.  A conforming sort permutes them, so the leaderboard has ten
    entries or as many as there are eligible profiles.  On an engine that
    orders the elements on the answers of the comparison function the totals
    of the sorted profiles never increase, whether or not some are equal.
    When no two eligible profiles hold the same total every conforming
    engine returns them in strictly descending order, as a stable descending
    sort does.  Nothing more is said of profiles of equal total: their
    relative order is the engine's. *)
Theorem leaderboard_order (host : Host) (env : Env) (force : bool)
    (w w' : World) (res : ScreeningResult) (threshold : Z) :
  let d := db w in
  let evaluated := getAllProfilesWithWallets d in
  let lpPairs := getEnabledLpPairs d in
  let runId := randomUUID host (steps w) in
  let allEligible :=
    List.map (rankedOf host env lpPairs)
      (List.filter (fun p => total host env lpPairs (snd p) >=? threshold)
         evaluated) in
  let sorted := array_sort host byTotalDesc allEligible in
  let top :=
    List.map (fun r => mkListed (k_handle r) (k_totalChog r))
      (firstn 10 sorted) in
  let today :=
    isoDate host
      (date_now host
         (S (S (steps w)) + ticks host env lpPairs (flat_map snd evaluated))) in
  let previousEligible := previousEligibleOf (baseline d) in
  runScreening host env force w = (inr res, w') ->
  error res = None ->
  Js.BigInt (thresholdOf d) = Some threshold ->
  trace w'
  = trace w ++ RunStatusWrite runId RunRunning
      :: flat_map (reads host env lpPairs) (flat_map snd evaluated)
      ++ posts host env d
           (mkSummary today (eligibleCount res)
              (newly host env lpPairs previousEligible threshold evaluated)
              (dropped host env lpPairs previousEligible threshold evaluated)
              top)
      ++ [RunStatusWrite runId RunSuccess] /\
  eligibleCount res = Z.of_nat (List.length allEligible) /\
  (sort_sound (array_sort host) -> StronglySorted descending sorted) /\
  (sort_conforms (array_sort host) ->
   Permutation allEligible sorted /\
   List.length top = Nat.min 10 (List.length allEligible) /\
   (List.NoDup (List.map k_totalRaw allEligible) ->
    StronglySorted strictly_descending sorted /\
    top = stableTop allEligible)).
Proof.
  intros d evaluated lpPairs runId allEligible sorted top today
    previousEligible Hrun Herr Hthr.
  destruct (ScreeningFacts.run_posts host env force w w' res threshold
              Hrun Herr Hthr) as ((sent & Hres) & _ & Htr).
  split; [|split; [|split]].
  - rewrite Htr. unfold summaryOf. rewrite Hres. reflexivity.
  - rewrite Hres. unfold allEligible. rewrite length_map. reflexivity.
  - intros Hsound. apply Hsound.
    + unfold descending. intros; lia.
    + intros a b _ _. apply byTotalDesc_sound.
  - intros Hconf.
    assert (Hperm : Permutation allEligible sorted)
      by apply (sort_perm _ Hconf).
    split; [exact Hperm|]. split.
    + unfold top. rewrite length_map, length_firstn.
      rewrite (Permutation_length Hperm). reflexivity.
    + intros Hnd.
      assert (Hall : List.NoDup allEligible) by exact (NoDup_map_inv _ _ Hnd).
      assert (Heq : sorted = insertion_sort byTotalDesc3 allEligible).
      { unfold sorted.
        rewrite (sort_irrefl _ Hconf byTotalDesc byTotalDesc3 allEligible Hall).
        - apply (sort_stable _ Hconf). apply byTotalDesc3_consistent.
        - intros a b Ha Hb Hne. apply byTotalDesc_agrees.
          exact (totals_distinct allEligible a b Hnd Ha Hb Hne). }
      split; [|unfold top, stableTop; rewrite Heq; reflexivity].
      rewrite Heq. apply descending_strict; [apply insertion_sort_descending|].
      eapply Permutation_NoDup; [|exact Hnd].
      apply Permutation_map. apply insertion_sort_perm.
Qed.

(** With totals A: 500, B: 2,000,000 and C: 1,000,000 and a threshold of
    1,000,000 the eligible profiles are B and C and the leaderboard of the
    run's summary is B, C.  On a chain where A, B and C hold 5,000,000 each
    and D twice as much, all four are eligible and the leaderboard starts
    with D; the totals of the sorted profiles do not increase. *)
Lemma leaderboard_order_witness :
  (exists res w',
      runScreening Scenario.reporter Demo.env true Demo.world = (inr res, w') /\
      eligibleCount res = 2 /\
      exists requests,
        trace w'
        = RunStatusWrite "run-0" RunRunning :: requests
          ++ [TelegramPost "bot-token" "-100200300"
                (Message.formatEligibilityMessage Scenario.plain
                   (mkSummary "2023-11-14" 2
                      [mkListed "carol" "1000000"] ["alice"]
                      [mkListed "bob" "2000000"; mkListed "carol" "1000000"]));
              RunStatusWrite "run-0" RunSuccess]) /\
  (exists res w' sorted,
      runScreening Scenario.flat Demo.env true Demo.world = (inr res, w') /\
      eligibleCount res = 4 /\
      StronglySorted descending sorted /\
      List.map k_handle sorted = ["dave"; "carol"; "bob"; "alice"] /\
      List.map k_totalRaw sorted = [10000000; 5000000; 5000000; 5000000] /\
      exists requests,
        trace w'
        = RunStatusWrite "run-0" RunRunning :: requests
          ++ [TelegramPost "bot-token" "-100200300"
                (Message.formatEligibilityMessage Scenario.plain
                   (mkSummary "2023-11-14" 4
                      [mkListed "carol" "5000000"; mkListed "dave" "10000000"]
                      []
                      (List.map (fun r => mkListed (k_handle r) (k_totalChog r))
                         sorted)));
              RunStatusWrite "run-0" RunSuccess]).
Proof.
  split.
  - destruct (runScreening Scenario.reporter Demo.env true Demo.world)
      as [[err|res] w'] eqn:Hrun.
    { vm_compute in Hrun. discriminate Hrun. }
    assert (Herr : error res = None).
    { pose proof Hrun as Hc. vm_compute in Hc. injection Hc as <- _.
      reflexivity. }
    destruct (leaderboard_order Scenario.reporter Demo.env true Demo.world w'
                res 1000000 Hrun Herr eq_refl)
      as (Htr & Hcount & _ & _).
    exists res, w'. split; [reflexivity|].
    split; [rewrite Hcount; reflexivity|].
    exists (flat_map
              (reads Scenario.reporter Demo.env (getEnabledLpPairs Demo.store))
              (flat_map snd (getAllProfilesWithWallets Demo.store))).
    rewrite Htr, Hcount. vm_compute. reflexivity.
  - destruct (runScreening Scenario.flat Demo.env true Demo.world)
      as [[err|res] w'] eqn:Hrun.
    { vm_compute in Hrun. discriminate Hrun. }
    assert (Herr : error res = None).
    { pose proof Hrun as Hc. vm_compute in Hc. injection Hc as <- _.
      reflexivity. }
    destruct (leaderboard_order Scenario.flat Demo.env true Demo.world w'
                res 1000000 Hrun Herr eq_refl)
      as (Htr & Hcount & Hsound & Hconf).
    specialize (Hsound insertion_sort_sound).
    destruct (Hconf insertion_sort_conforms) as (Hperm & _).
    exists res, w'. eexists.
    split; [reflexivity|]. split; [rewrite Hcount; reflexivity|].
    split; [exact Hsound|].
    split; [vm_compute; reflexivity|]. split; [vm_compute; reflexivity|].
    exists (flat_map
              (reads Scenario.flat Demo.env (getEnabledLpPairs Demo.store))
              (flat_map snd (getAllProfilesWithWallets Demo.store))).
    rewrite Htr, Hcount. vm_compute. reflexivity.
Defined.

(** The specification has ties kept in a stable order.  Insertion sort is
    a conforming engine, and with the job's comparison function, which never
    answers 0, it returns two profiles of equal total in reverse order, while
    a stable descending sort keeps them as they were; and no order of them is
    strictly descending. *)
Lemma leaderboard_ties_not_stable :
  sort_conforms (array_sort Demo.host) /\
  List.map handle (topEligibleOf Demo.host Demo.tied) = ["second"; "first"] /\
  List.map handle (stableTop Demo.tied) = ["first"; "second"] /\
  topEligibleOf Demo.host Demo.tied <> stableTop Demo.tied /\
  ~ StronglySorted strictly_descending
      (array_sort Demo.host byTotalDesc Demo.tied).
Proof.
  split; [exact insertion_sort_conforms|].
  split; [reflexivity|]. split; [reflexivity|]. split; [discriminate|].
  intros Hs. vm_compute in Hs. apply StronglySorted_inv in Hs.
  destruct Hs as [_ Hs]. apply Forall_inv in Hs. discriminate Hs.
Qed.

End Leaderboard.

(* ===================================================================== *)
(** ** More on the exposure calculator *)
(* ===================================================================== *)

Module ExposureFacts.
Import Db Rt Chog Ref ChogFacts.

(** The three requests [getLpChogExposure] sends for a pair. *)
Lemma poolReads_three (host : Host) (rpcUrl chogContract user : string)
    (lpPair : LpPair) :
  poolReads host rpcUrl chogContract user lpPair =
    [ReadContract rpcUrl (pair_address lpPair) "balanceOf" [user];
     ReadContract rpcUrl (pair_address lpPair) "totalSupply" [];
     ReadContract rpcUrl (pair_address lpPair) "getReserves" []].
Proof.
  unfold poolReads, events_of, getLpChogExposure. run.
  destruct (balanceOf host rpcUrl (pair_address lpPair) user); simpl;
    [reflexivity|].
  destruct (totalSupply host rpcUrl (pair_address lpPair)); simpl;
    [reflexivity|].
  destruct (getReserves host rpcUrl (pair_address lpPair)); simpl;
    [reflexivity|].
  destruct (_ || _); simpl; [reflexivity|].
  destruct (Js.bigint_div _ _); reflexivity.
Qed.

(** X1. A wallet's claim on a pool lies between 0 and the reserve of the
    side the pool is configured with (side 0 selects [reserve0], every other
    value [reserve1]), as long as the wallet holds no more shares than
    exist; the LP balance reported is 0 or the wallet's share balance, and it
    is the share balance whenever the claim is positive. *)
Theorem lp_position_bounds (host : Host) (rpcUrl chogContract : string)
    (lpPair : LpPair) (user : string) (w : World)
    (share supply : N) (rs : Reserves) :
  balanceOf host rpcUrl (pair_address lpPair) user = inr share ->
  totalSupply host rpcUrl (pair_address lpPair) = inr supply ->
  getReserves host rpcUrl (pair_address lpPair) = inr rs ->
  (share <= supply)%N ->
  exists r,
    fst (getLpChogExposure host rpcUrl chogContract lpPair user w) = inr r /\
    0 <= chogUnderlying r
      <= Z.of_N (if chog_side lpPair =? 0 then reserve0 rs else reserve1 rs) /\
    (userLpBalance r = 0 \/ userLpBalance r = Z.of_N share) /\
    (chogUnderlying r > 0 -> userLpBalance r = Z.of_N share /\ share <> 0%N).
Proof.
  intros Hb Hs Hr Hle. unfold getLpChogExposure. run. rewrite Hb, Hs, Hr. simpl.
  destruct (Z.eqb_spec (Z.of_N share) 0) as [E1|E1]; simpl.
  - eexists; split; [reflexivity|]. simpl.
    split; [destruct (chog_side lpPair =? 0); lia|]. split; [left; reflexivity|lia].
  - destruct (Z.eqb_spec (Z.of_N supply) 0) as [E2|E2]; simpl; [lia|].
    set (reserve := if chog_side lpPair =? 0 then reserve0 rs else reserve1 rs).
    assert (Hres : (if chog_side lpPair =? 0 then Z.of_N (reserve0 rs)
                    else Z.of_N (reserve1 rs)) = Z.of_N reserve)
      by (unfold reserve; destruct (chog_side lpPair =? 0); reflexivity).
    rewrite Hres.
    rewrite JsFacts.bigint_div_floor by lia. simpl.
    eexists; split; [reflexivity|]. simpl.
    split; [|split; [right; reflexivity|intros _; split; [reflexivity|lia]]].
    split; [apply Z.div_pos; lia|].
    apply Z.div_le_upper_bound; [lia|]. nia.
Qed.

Lemma lp_position_bounds_witness :
  exists r,
    fst (getLpChogExposure Demo.host "https://rpc.monad.xyz" Demo.chog
           Demo.pairP "0xw" Demo.world) = inr r /\
    0 <= chogUnderlying r <= 5000 /\ userLpBalance r = 10.
Proof.
  destruct (lp_position_bounds Demo.host "https://rpc.monad.xyz" Demo.chog
              Demo.pairP "0xw" Demo.world 10 100 (mkReserves 5000 77 0)
              eq_refl eq_refl eq_refl ltac:(discriminate))
    as (r & Hr & Hbound & _ & _).
  exists r. split; [exact Hr|]. split; [exact Hbound|].
  assert (Hc : fst (getLpChogExposure Demo.host "https://rpc.monad.xyz" Demo.chog
                      Demo.pairP "0xw" Demo.world) = inr r) by exact Hr.
  vm_compute in Hc. injection Hc as <-. reflexivity.
Defined.

(** X2. [getTotalChogExposure] never touches the store or the clock.  It
    first asks for the direct balance; if that read throws the exception
    goes to the caller and no pool is asked at all; otherwise it returns and
    has sent, in order, the three reads of every pool, whether or not they
    failed: one plus three times the number of pools. *)
Theorem exposure_requests (host : Host) (rpcUrl chogContract : string)
    (lpPairs : list LpPair) (user : string) (w : World) :
  let out := getTotalChogExposure host rpcUrl chogContract lpPairs user w in
  let direct := ReadContract rpcUrl chogContract "balanceOf" [user] in
  let pool lp :=
    [ReadContract rpcUrl (pair_address lp) "balanceOf" [user];
     ReadContract rpcUrl (pair_address lp) "totalSupply" [];
     ReadContract rpcUrl (pair_address lp) "getReserves" []] in
  db (snd out) = db w /\ steps (snd out) = steps w /\
  match balanceOf host rpcUrl chogContract user with
  | inl err => fst out = inl err /\ trace (snd out) = trace w ++ [direct]
  | inr d =>
      (exists e, fst out = inr e /\ directBalance e = Z.of_N d) /\
      trace (snd out) = trace w ++ direct :: flat_map pool lpPairs /\
      List.length (direct :: flat_map pool lpPairs)
      = (1 + 3 * List.length lpPairs)%nat
  end.
Proof.
  intros out direct pool. subst out.
  unfold getTotalChogExposure, getDirectChogBalance, readBalanceOf. run.
  destruct (balanceOf host rpcUrl chogContract user) as [err|d]; simpl.
  - repeat split.
  - rewrite lpLoop_run. simpl. split; [reflexivity|]. split; [reflexivity|].
    split; [eexists; split; reflexivity|].
    assert (Hreads : flat_map (poolReads host rpcUrl chogContract user) lpPairs
                     = flat_map pool lpPairs).
    { apply flat_map_ext. intros lp. apply poolReads_three. }
    rewrite Hreads. split; [rewrite <- app_assoc; reflexivity|].
    clear Hreads. simpl. f_equal.
    induction lpPairs as [|lp lps IH]; simpl; [reflexivity|].
    rewrite IH. lia.
Qed.

(** X3. In a returned exposure the balances are non-negative, the total is
    the direct balance plus the pool balance, and the pool balance is the sum
    of the rows of the breakdown.  Every row of the breakdown has a strictly
    positive underlying amount and a strictly positive LP balance and names
    one of the pools given, and there are no more rows than pools. *)
Theorem exposure_invariants (host : Host) (rpcUrl chogContract : string)
    (lpPairs : list LpPair) (user : string) (w w' : World) (e : ChogExposure) :
  getTotalChogExposure host rpcUrl chogContract lpPairs user w = (inr e, w') ->
  0 <= directBalance e /\ 0 <= lpBalance e /\
  totalBalance e = directBalance e + lpBalance e /\
  lpBalance e = sumZ (List.map b_chogUnderlying (lpBreakdown e)) /\
  (List.length (lpBreakdown e) <= List.length lpPairs)%nat /\
  Forall (fun row =>
            b_chogUnderlying row > 0 /\ b_userLpBalance row > 0 /\
            exists lp, In lp lpPairs /\ pairAddress row = pair_address lp
                       /\ pairName row = name lp)
    (lpBreakdown e).
Proof.
  unfold getTotalChogExposure, getDirectChogBalance, readBalanceOf. run.
  destruct (balanceOf host rpcUrl chogContract user) as [err|d]; simpl;
    [discriminate|].
  rewrite lpLoop_run. simpl. intros [= <- _]. simpl.
  assert (Hnn : forall lps,
             0 <= sumZ (List.map (contribution host rpcUrl chogContract user) lps)).
  { induction lps as [|lp lps IH]; simpl; [lia|].
    pose proof (poolOf_nonneg host rpcUrl chogContract user lp) as Hp.
    unfold contribution at 1.
    destruct (poolOf host rpcUrl chogContract user lp) as [err|r];
      [lia|specialize (Hp r eq_refl); lia]. }
  split; [lia|]. split; [apply Hnn|]. split; [reflexivity|].
  split; [symmetry; apply sumZ_shareRows|].
  split.
  - induction lpPairs as [|lp lps IH]; simpl; [lia|].
    rewrite length_app. unfold shareRows at 1.
    destruct (poolOf host rpcUrl chogContract user lp) as [err|r]; simpl; [lia|].
    destruct (chogUnderlying r >? 0); simpl; lia.
  - apply Forall_flat_map, Forall_forall. intros lp Hlp.
    apply list_elem_of_In in Hlp. unfold shareRows.
    destruct (poolOf host rpcUrl chogContract user lp) as [err|r] eqn:Ep;
      [constructor|].
    destruct (Z.gtb_spec (chogUnderlying r) 0) as [Hpos|Hz]; [|constructor].
    constructor; [|constructor]. simpl.
    split; [lia|]. split; [|exists lp; repeat split; assumption].
    revert Ep Hpos. unfold poolOf, result_of, getLpChogExposure. run.
    destruct (balanceOf host rpcUrl (pair_address lp) user) as [?|b]; simpl;
      [discriminate|].
    destruct (totalSupply host rpcUrl (pair_address lp)) as [?|s]; simpl;
      [discriminate|].
    destruct (getReserves host rpcUrl (pair_address lp)) as [?|rs]; simpl;
      [discriminate|].
    destruct (Z.eqb_spec (Z.of_N b) 0); simpl; [intros [= <-]; simpl; lia|].
    destruct (Z.of_N s =? 0); simpl; [intros [= <-]; simpl; lia|].
    destruct (Js.bigint_div _ _); simpl; [discriminate|].
    intros [= <-]. simpl. lia.
Qed.

Lemma exposure_invariants_witness :
  exists e w',
    getTotalChogExposure Demo.host "https://rpc.monad.xyz" Demo.chog
      [Demo.pairP; Demo.pairQ] "0xw" Demo.world = (inr e, w') /\
    totalBalance e = directBalance e + lpBalance e /\
    List.length (lpBreakdown e) = 1%nat.
Proof.
  eexists; eexists. split; [vm_compute; reflexivity|].
  match goal with
  | |- _ /\ List.length (lpBreakdown ?e) = _ =>
      destruct (exposure_invariants Demo.host "https://rpc.monad.xyz" Demo.chog
                  [Demo.pairP; Demo.pairQ] "0xw" Demo.world
                  (snd (getTotalChogExposure Demo.host "https://rpc.monad.xyz"
                          Demo.chog [Demo.pairP; Demo.pairQ] "0xw" Demo.world))
                  e ltac:(vm_compute; reflexivity))
        as (_ & _ & Htotal & _)
  end.
  split; [exact Htotal|reflexivity].
Defined.

End ExposureFacts.

(* ===================================================================== *)
(** ** More on a run of the job *)
(* ===================================================================== *)

Module RunFacts.
Import Db Rt Chog Telegram Screening Ref ChogFacts ScreeningFacts.

Section Run.
Context (host : Host) (env : Env).

(** What the gate answers with, when it holds an invocation back. *)
Lemma gate_skipped (force : bool) (startedAt : Z) (w w' : World)
    (result : ScreeningResult) :
  intervalGate force startedAt w = (inr (Some result), w') ->
  exists hoursRemaining, result = skipped hoursRemaining.
Proof.
  unfold intervalGate. destruct force; simpl; [discriminate|]. run.
  destruct (getLastScreeningRun (db w)) as [lastRun|]; [|discriminate].
  destruct (RunStatus_eqb _ _); simpl; [|discriminate].
  destruct (Js.parseInt _) as [hours|]; simpl; [|discriminate].
  destruct (_ <? _); [|discriminate].
  intros [= <- _]. eexists; reflexivity.
Qed.

(** The closed form of an invocation that returns without an error text:
    the job ran to its end. *)
Lemma run_completed (force : bool) (w w' : World) (res : ScreeningResult) :
  let d := db w in
  let profiles := getAllProfilesWithWallets d in
  let lpPairs := getEnabledLpPairs d in
  let ws := flat_map snd profiles in
  let runId := randomUUID host (steps w) in
  let startedAt := date_now host (S (steps w)) in
  let n := (S (S (steps w)) + ticks host env lpPairs ws)%nat in
  runScreening host env force w = (inr res, w') ->
  error res = None ->
  exists threshold sent tg,
    (profiles = [] \/ Js.BigInt (thresholdOf d) = Some threshold) /\
    res = mkScreeningResult runId RunSuccess
            (Z.of_nat (List.length profiles))
            (Z.of_nat (ticks host env lpPairs ws))
            (Z.of_nat (List.length
                         (List.filter (eligibleNow host env lpPairs threshold)
                            profiles)))
            sent None /\
    db w' =
      mkDB (Db.profiles d)
        (List.map (touch host env lpPairs ws (S (S (steps w)))) (wallets d))
        (lp_pairs d)
        (List.map
           (set_success (date_now host (S n))
              (Z.of_nat (List.length profiles))
              (Z.of_nat (ticks host env lpPairs ws))
              (Z.of_nat (List.length
                           (List.filter (eligibleNow host env lpPairs threshold)
                              profiles)))
              (if sent then 1 else 0) runId)
           (screening_runs d
            ++ [mkScreeningRun runId startedAt None RunRunning None 0 0 0 0]))
        (profile_snapshots d
         ++ List.map (snapshotOf host env lpPairs threshold runId) profiles)
        (settings d) /\
    steps w' = S (S n) /\
    trace w' = trace w ++ RunStatusWrite runId RunRunning
                 :: flat_map (reads host env lpPairs) ws ++ tg
                 ++ [RunStatusWrite runId RunSuccess] /\
    (tg = [] \/ exists chatId message,
        tg = [TelegramPost (TELEGRAM_BOT_TOKEN env) chatId message]).
Proof.
  intros d profiles lpPairs ws runId startedAt n Hrun Herr.
  destruct (runScreening_run host env force w) as (gate & Hg & Hrun').
  rewrite Hrun in Hrun'. destruct gate as [result|].
  - injection Hrun' as -> _.
    destruct (gate_skipped _ _ _ _ _ Hg) as (h & ->). discriminate Herr.
  - change (mkWorld _ _ _) with (inserted host w) in Hrun'.
    pose proof (getAllProfilesWithWallets_inserted host w) as Hps.
    subst d profiles lpPairs ws runId startedAt n.
    destruct (getAllProfilesWithWallets (db w)) as [|profile rest] eqn:Eps.
    + destruct (screen_ok host env (randomUUID host (steps w)) 0 (inserted host w))
        as (sent & tg & Hs & Htg & _).
      { left. rewrite Hps. reflexivity. }
      rewrite Hps in Hs. rewrite Hs in Hrun'. injection Hrun' as -> ->.
      exists 0, sent, tg. simpl.
      split; [left; reflexivity|]. split; [reflexivity|].
      split; [reflexivity|]. split; [reflexivity|].
      split; [rewrite <- app_assoc; reflexivity|].
      destruct Htg as [->|[chatId ->]]; [left; reflexivity|right; eauto].
    + destruct (Js.BigInt (thresholdOf (db w))) as [threshold|] eqn:Ethr.
      * destruct (screen_ok host env (randomUUID host (steps w)) threshold
                    (inserted host w))
          as (sent & tg & Hs & Htg & _).
        { right. exact Ethr. }
        rewrite Hps in Hs. rewrite Hs in Hrun'. injection Hrun' as -> ->.
        exists threshold, sent, tg.
        split; [right; reflexivity|]. split; [reflexivity|].
        split; [reflexivity|]. split; [reflexivity|].
        split; [simpl; rewrite <- !app_assoc; reflexivity|].
        destruct Htg as [->|[chatId ->]]; [left; reflexivity|right; eauto].
      * pose proof (screen_bad host env (randomUUID host (steps w))
                      (inserted host w) profile rest) as Hbad.
        specialize (Hbad Hps Ethr).
        rewrite Hbad in Hrun'. injection Hrun' as -> _. discriminate Herr.
Qed.

(** The closed form of an invocation that answers [error]: the threshold
    cannot be read as an integer and the first profile stopped the loop. *)
Lemma run_failed (force : bool) (w w' : World) (res : ScreeningResult) :
  let d := db w in
  let lpPairs := getEnabledLpPairs d in
  let runId := randomUUID host (steps w) in
  let startedAt := date_now host (S (steps w)) in
  let message := "Cannot convert " +:+ thresholdOf d +:+ " to a BigInt" in
  runScreening host env force w = (inr res, w') ->
  status res = RunError ->
  exists profile rest,
    getAllProfilesWithWallets d = profile :: rest /\
    Js.BigInt (thresholdOf d) = None /\
    res = mkScreeningResult runId RunError 0 0 0 false (Some message) /\
    db w' =
      mkDB (Db.profiles d)
        (List.map (touch host env lpPairs (snd profile) (S (S (steps w))))
           (wallets d))
        (lp_pairs d)
        (List.map
           (set_failed
              (date_now host
                 (S (S (steps w)) + ticks host env lpPairs (snd profile)))
              message runId)
           (screening_runs d
            ++ [mkScreeningRun runId startedAt None RunRunning None 0 0 0 0]))
        (profile_snapshots d) (settings d) /\
    trace w' = trace w ++ RunStatusWrite runId RunRunning
                 :: flat_map (reads host env lpPairs) (snd profile)
                 ++ [RunStatusWrite runId RunError].
Proof.
  intros d lpPairs runId startedAt message Hrun Hst.
  destruct (runScreening_run host env force w) as (gate & Hg & Hrun').
  rewrite Hrun in Hrun'. destruct gate as [result|].
  - injection Hrun' as -> _.
    destruct (gate_skipped _ _ _ _ _ Hg) as (h & ->). discriminate Hst.
  - change (mkWorld _ _ _) with (inserted host w) in Hrun'.
    pose proof (getAllProfilesWithWallets_inserted host w) as Hps.
    subst d lpPairs runId startedAt message.
    destruct (getAllProfilesWithWallets (db w)) as [|profile rest] eqn:Eps.
    + destruct (screen_ok host env (randomUUID host (steps w)) 0 (inserted host w))
        as (sent & tg & Hs & _).
      { left. rewrite Hps. reflexivity. }
      rewrite Hs in Hrun'. injection Hrun' as -> _. discriminate Hst.
    + destruct (Js.BigInt (thresholdOf (db w))) as [threshold|] eqn:Ethr.
      * destruct (screen_ok host env (randomUUID host (steps w)) threshold
                    (inserted host w))
          as (sent & tg & Hs & _).
        { right. exact Ethr. }
        rewrite Hs in Hrun'. injection Hrun' as -> _. discriminate Hst.
      * pose proof (screen_bad host env (randomUUID host (steps w))
                      (inserted host w) profile rest Hps Ethr) as Hbad.
        rewrite Hbad in Hrun'. injection Hrun' as -> ->.
        exists profile, rest.
        split; [reflexivity|]. split; [reflexivity|]. split; [reflexivity|].
        split; [reflexivity|]. simpl. rewrite <- !app_assoc. reflexivity.
Qed.

(** Rewriting a run table whose ids differ from [runId] leaves it as it
    is. *)
Lemma map_fresh (f : ScreeningRun -> ScreeningRun) (runId : string)
    (rs : list ScreeningRun) :
  (forall r, r_id r <> runId -> f r = r) ->
  (forall r, In r rs -> r_id r <> runId) ->
  List.map f rs = rs.
Proof.
  intros Hf Hfresh. rewrite <- (List.map_id rs) at 2.
  apply List.map_ext_in. intros r Hr. apply Hf, Hfresh, Hr.
Qed.

Lemma details_addresses (lpPairs : list LpPair) (ws : list Wallet) :
  List.map d_address (flat_map (detail host env lpPairs) ws)
  = List.map w_address (List.filter (succeeded host env lpPairs) ws).
Proof.
  induction ws as [|wallet ws IH]; [reflexivity|].
  cbn [flat_map List.filter]. rewrite List.map_app, IH.
  unfold detail, succeeded.
  destruct (exposure host env lpPairs wallet); reflexivity.
Qed.

Lemma eligible_snapshots (lpPairs : list LpPair) (threshold : Z)
    (runId : string) (ps : list (Profile * list Wallet)) :
  List.length
    (List.filter (fun s => s_eligible s =? 1)
       (List.map (snapshotOf host env lpPairs threshold runId) ps))
  = List.length (List.filter (eligibleNow host env lpPairs threshold) ps).
Proof.
  induction ps as [|p ps IH]; [reflexivity|].
  cbn [List.map List.filter]. unfold snapshotOf at 1. cbn [s_eligible].
  destruct (eligibleNow host env lpPairs threshold p); simpl; rewrite IH;
    reflexivity.
Qed.

Lemma Forall2_map_self {A B : Type} (P : B -> A -> Prop) (f : A -> B)
    (l : list A) :
  (forall a, In a l -> P (f a) a) -> Forall2 P (List.map f l) l.
Proof.
  induction l as [|a l IH]; intros H; simpl; constructor.
  - apply H. left. reflexivity.
  - apply IH. intros b Hb. apply H. right. exact Hb.
Qed.

(** A row whose wallets, among those processed, can all be read with the
    exposure [e]: it keeps everything but the cached balances and the time
    of the check. *)
Lemma touch_recomputed (lpPairs : list LpPair) (ws : list Wallet) (n : nat)
    (row : Wallet) (e : ChogExposure) :
  (forall pw, In pw ws -> w_id pw = w_id row ->
              exposure host env lpPairs pw = inr e) ->
  existsb (fun pw => String.eqb (w_id pw) (w_id row)) ws = true ->
  exists k,
    (n <= k < n + ticks host env lpPairs ws)%nat /\
    touch host env lpPairs ws n row =
      mkWallet (w_id row) (w_profile_id row) (w_address row) (w_wallet_rdns row)
        (w_verified_at row) (Some (date_now host k))
        (Some (Js.toString (directBalance e)))
        (Some (Js.toString (lpBalance e)))
        (Some (Js.toString (totalBalance e)))
        (w_status row) (w_error_reason row) (w_created_at row).
Proof.
  revert n row. induction ws as [|pw rest IH]; intros n row Hok Hex;
    [discriminate Hex|].
  cbn [touch existsb] in *. unfold ticks, succeeded. cbn [List.filter].
  fold (succeeded host env lpPairs).
  destruct (String.eqb_spec (w_id pw) (w_id row)) as [Eid|Nid]; cbn [orb] in Hex.
  - rewrite (Hok pw (or_introl eq_refl) Eid). cbn [List.length].
    set (row1 := set_balances _ _ _ _ _ row).
    assert (Hrow1 : row1 =
              mkWallet (w_id row) (w_profile_id row) (w_address row)
                (w_wallet_rdns row) (w_verified_at row) (Some (date_now host n))
                (Some (Js.toString (directBalance e)))
                (Some (Js.toString (lpBalance e)))
                (Some (Js.toString (totalBalance e)))
                (w_status row) (w_error_reason row) (w_created_at row)).
    { unfold row1, set_balances. rewrite Eid, String.eqb_refl. reflexivity. }
    destruct (existsb (fun pw => String.eqb (w_id pw) (w_id row)) rest) eqn:Erest.
    + destruct (IH (S n) row1) as (k & Hk & Ht).
      * rewrite Hrow1. cbn [w_id]. intros pw' Hin E.
        apply Hok; [right; exact Hin|exact E].
      * rewrite Hrow1. cbn [w_id]. exact Erest.
      * exists k. split; [unfold ticks in Hk; lia|].
        rewrite Ht, Hrow1. reflexivity.
    + exists n. split; [lia|].
      rewrite touch_other; [exact Hrow1|].
      intros pw' Hin E. rewrite Hrow1 in E. cbn [w_id] in E.
      assert (Hc : existsb (fun pw => String.eqb (w_id pw) (w_id row)) rest = true).
      { apply existsb_exists. exists pw'. split; [exact Hin|].
        apply String.eqb_eq. exact E. }
      congruence.
  - assert (Hrow : w_id row <> w_id pw) by congruence.
    destruct (exposure host env lpPairs pw) as [err'|e'] eqn:Epw.
    + rewrite set_error_other by exact Hrow.
      destruct (IH n row) as (k & Hk & Ht);
        [intros pw' Hin; apply Hok; right; exact Hin|exact Hex|].
      exists k. split; [|exact Ht]. unfold ticks in Hk. exact Hk.
    + rewrite set_balances_other by exact Hrow.
      destruct (IH (S n) row) as (k & Hk & Ht);
        [intros pw' Hin; apply Hok; right; exact Hin|exact Hex|].
      exists k. split; [|exact Ht]. unfold ticks in Hk. cbn [List.length]. lia.
Qed.

End Run.

(** X4. A run that completes appends one snapshot per evaluated profile, in
    the order of evaluation, and leaves the snapshots of earlier runs where
    they were.  Each new snapshot carries the run's id; its total reads back
    through [BigInt] as the profile's aggregate; its eligibility flag is 1
    when the aggregate reaches the threshold and 0 otherwise; its details
    list the wallets that could be read, in order.  The counts answered are
    the number of new snapshots and the number of them flagged eligible. *)
Theorem completed_run_snapshots (host : Host) (env : Env) (force : bool)
    (w w' : World) (res : ScreeningResult) (threshold : Z) :
  let lpPairs := getEnabledLpPairs (db w) in
  let evaluated := getAllProfilesWithWallets (db w) in
  runScreening host env force w = (inr res, w') ->
  error res = None ->
  Js.BigInt (thresholdOf (db w)) = Some threshold ->
  exists added,
    profile_snapshots (db w') = profile_snapshots (db w) ++ added /\
    Z.of_nat (List.length added) = profilesProcessed res /\
    Z.of_nat (List.length (List.filter (fun s => s_eligible s =? 1) added))
    = eligibleCount res /\
    Forall2
      (fun s p =>
         s_run_id s = Screening.runId res /\
         s_profile_id s = p_id (fst p) /\
         Js.BigInt (s_total_chog_raw s)
         = Some (total host env lpPairs (snd p)) /\
         (total host env lpPairs (snd p) >= threshold -> s_eligible s = 1) /\
         (total host env lpPairs (snd p) < threshold -> s_eligible s = 0) /\
         List.map d_address (s_details_json s)
         = List.map w_address
             (List.filter (succeeded host env lpPairs) (snd p)))
      added evaluated.
Proof.
  intros lpPairs evaluated Hrun Herr Hthr.
  destruct (run_completed host env force w w' res Hrun Herr)
    as (t & sent & tg & Hcase & -> & Hdb & _).
  assert (Hsnap :
            List.map (snapshotOf host env lpPairs t (randomUUID host (steps w)))
              evaluated
            = List.map
                (snapshotOf host env lpPairs threshold (randomUUID host (steps w)))
                evaluated
            /\ List.filter (eligibleNow host env lpPairs t) evaluated
               = List.filter (eligibleNow host env lpPairs threshold) evaluated).
  { destruct Hcase as [Hnil|Ht].
    - fold evaluated in Hnil. rewrite Hnil. split; reflexivity.
    - rewrite Hthr in Ht. injection Ht as <-. split; reflexivity. }
  destruct Hsnap as [Hsnap Hfilter].
  exists (List.map
            (snapshotOf host env lpPairs threshold (randomUUID host (steps w)))
            evaluated).
  split; [rewrite Hdb; cbn [profile_snapshots]; fold lpPairs evaluated;
          rewrite Hsnap; reflexivity|].
  split; [rewrite length_map; reflexivity|].
  split.
  - rewrite eligible_snapshots. cbn [eligibleCount]. fold lpPairs evaluated.
    rewrite Hfilter. reflexivity.
  - apply Forall2_map_self. intros p _. cbn [Screening.runId].
    unfold snapshotOf. cbn [s_run_id s_profile_id s_total_chog_raw s_eligible
                              s_details_json].
    split; [reflexivity|]. split; [reflexivity|].
    split; [apply JsFacts.BigInt_toString|].
    unfold eligibleNow.
    destruct (Z.geb_spec (total host env lpPairs (snd p)) threshold).
    + split; [reflexivity|]. split; [lia|apply details_addresses].
    + split; [lia|]. split; [reflexivity|apply details_addresses].
Qed.

Lemma completed_run_snapshots_witness :
  exists added,
    profile_snapshots
      (db (snd (runScreening Demo.host Demo.env true Demo.world)))
    = profile_snapshots (db Demo.world) ++ added /\
    List.map (fun s => (s_profile_id s, s_total_chog_raw s, s_eligible s)) added
    = [("A", "500", 0); ("B", "2000000", 1); ("C", "1000000", 1); ("D", "42", 0)].
Proof.
  destruct (completed_run_snapshots Demo.host Demo.env true Demo.world
              (snd (runScreening Demo.host Demo.env true Demo.world))
              (match fst (runScreening Demo.host Demo.env true Demo.world) with
               | inr res => res
               | inl _ => skipped 0
               end)
              1000000)
    as (added & Hadded & _).
  - vm_compute. reflexivity.
  - vm_compute. reflexivity.
  - vm_compute. reflexivity.
  - exists added. split; [exact Hadded|].
    vm_compute in Hadded. injection Hadded as <-. reflexivity.
Defined.

(** X5. A run that completes adds one row to the run table and changes no
    other, its id being new to the table: the row has the run's id and start
    time, a finish time, status [success], no error text, and the counters
    and the sent flag that the invocation answers with.  Profiles, LP pairs
    and settings are as before. *)
Theorem completed_run_record (host : Host) (env : Env) (force : bool)
    (w w' : World) (res : ScreeningResult) :
  runScreening host env force w = (inr res, w') ->
  error res = None ->
  (forall r, In r (screening_runs (db w)) -> r_id r <> Screening.runId res) ->
  (exists finished,
      screening_runs (db w') =
        screening_runs (db w)
        ++ [mkScreeningRun (Screening.runId res) (date_now host (S (steps w)))
              (Some finished) RunSuccess None
              (profilesProcessed res) (walletsProcessed res)
              (eligibleCount res) (if messageSent res then 1 else 0)]) /\
  profiles (db w') = profiles (db w) /\
  lp_pairs (db w') = lp_pairs (db w) /\
  settings (db w') = settings (db w).
Proof.
  intros Hrun Herr Hfresh.
  destruct (run_completed host env force w w' res Hrun Herr)
    as (t & sent & tg & _ & -> & Hdb & _).
  cbn [Screening.runId profilesProcessed walletsProcessed eligibleCount
         messageSent] in *.
  rewrite Hdb. cbn [screening_runs profiles lp_pairs settings].
  split; [|repeat split].
  eexists. rewrite List.map_app.
  rewrite (map_fresh _ (randomUUID host (steps w)) (screening_runs (db w)));
    [|intros r Hr; apply set_success_spec; exact Hr|exact Hfresh].
  cbn [List.map]. unfold set_success at 1. cbn [r_id].
  rewrite String.eqb_refl. reflexivity.
Qed.

Lemma completed_run_record_witness :
  exists finished,
    screening_runs (db (snd (runScreening Demo.host Demo.env true Demo.world)))
    = screening_runs (db Demo.world)
      ++ [mkScreeningRun "run-0" 1700000001000 (Some finished) RunSuccess None
            4 4 2 0].
Proof.
  destruct (completed_run_record Demo.host Demo.env true Demo.world
              (snd (runScreening Demo.host Demo.env true Demo.world))
              (match fst (runScreening Demo.host Demo.env true Demo.world) with
               | inr res => res
               | inl _ => skipped 0
               end))
    as ((finished & Hruns) & _).
  - vm_compute. reflexivity.
  - vm_compute. reflexivity.
  - vm_compute. intros r [<-|[]] E. discriminate E.
  - exists finished. rewrite Hruns. vm_compute. reflexivity.
Defined.

(** X6. A run that answers [error] met a threshold setting that does not
    read as an integer while there was a profile to evaluate.  It wrote no
    snapshot and sent no message, and it answers zero counts, but the wallets
    of the first profile had already been processed: their rows carry the new
    balances or the error status.  The error text answered is the one kept in
    the run's row, which has a finish time, and the only requests were the
    chain reads of that first profile. *)
Theorem failed_run_effects (host : Host) (env : Env) (force : bool)
    (w w' : World) (res : ScreeningResult) :
  let lpPairs := getEnabledLpPairs (db w) in
  runScreening host env force w = (inr res, w') ->
  status res = RunError ->
  exists profile rest message,
    getAllProfilesWithWallets (db w) = profile :: rest /\
    Js.BigInt (thresholdOf (db w)) = None /\
    error res = Some message /\
    profilesProcessed res = 0 /\ walletsProcessed res = 0 /\
    eligibleCount res = 0 /\ messageSent res = false /\
    profile_snapshots (db w') = profile_snapshots (db w) /\
    wallets (db w')
    = List.map (touch host env lpPairs (snd profile) (S (S (steps w))))
        (wallets (db w)) /\
    trace w' = trace w ++ RunStatusWrite (Screening.runId res) RunRunning
                 :: flat_map (reads host env lpPairs) (snd profile)
                 ++ [RunStatusWrite (Screening.runId res) RunError] /\
    exists r finished,
      In r (screening_runs (db w')) /\ r_id r = Screening.runId res /\
      r_status r = RunError /\ r_error r = Some message /\
      r_finished_at r = Some finished /\
      r_profiles_processed r = 0 /\ r_wallets_processed r = 0 /\
      r_eligible_count r = 0 /\ r_message_sent r = 0.
Proof.
  intros lpPairs Hrun Hst.
  destruct (run_failed host env force w w' res Hrun Hst)
    as (profile & rest & Hps & Hthr & -> & Hdb & Htr).
  exists profile, rest. eexists.
  split; [exact Hps|]. split; [exact Hthr|]. split; [reflexivity|].
  cbn [profilesProcessed walletsProcessed eligibleCount messageSent
         Screening.runId].
  do 4 (split; [reflexivity|]).
  rewrite Hdb. cbn [profile_snapshots wallets screening_runs].
  split; [reflexivity|]. split; [reflexivity|]. split; [exact Htr|].
  eexists; eexists. split.
  - apply in_map, in_or_app. right. left. reflexivity.
  - unfold set_failed. cbn [r_id]. rewrite String.eqb_refl. cbn.
    repeat split.
Qed.

Lemma failed_run_effects_witness :
  exists res w',
    runScreening Demo.host Demo.env true Scenario.misconfigured = (inr res, w') /\
    error res = Some "Cannot convert 1e24 to a BigInt" /\
    profile_snapshots (db w') = profile_snapshots (db Scenario.misconfigured) /\
    List.map w_last_total_chog_raw (wallets (db w'))
    = [Some "500"; Some "7"; Some "7"; Some "7"; Some "7"].
Proof.
  destruct (failed_run_effects Demo.host Demo.env true Scenario.misconfigured
              (snd (runScreening Demo.host Demo.env true Scenario.misconfigured))
              (match fst (runScreening Demo.host Demo.env true
                            Scenario.misconfigured) with
               | inr res => res
               | inl _ => skipped 0
               end))
    as (profile & rest & message & _ & _ & Herr & _ & _ & _ & _ & Hsnap & _).
  - vm_compute. reflexivity.
  - vm_compute. reflexivity.
  - eexists; eexists. split; [vm_compute; reflexivity|].
    split; [vm_compute; reflexivity|]. split; [exact Hsnap|].
    vm_compute. reflexivity.
Defined.

(** X7. An invocation that completes holds back the next unforced one:
    with an interval setting that reads as a number of hours, an unforced
    invocation that starts less than that interval after the completed one
    started changes nothing in the store, sends nothing, and answers with
    the empty run id, zero counts and a text that says it was skipped. *)
Theorem rerun_held_back (host : Host) (env : Env) (force : bool)
    (w w1 : World) (res : ScreeningResult) (hours : Z) :
  runScreening host env force w = (inr res, w1) ->
  error res = None ->
  intervalHoursOf (db w) = Some hours ->
  date_now host (S (steps w1)) - date_now host (S (steps w))
    < hours * 60 * 60 * 1000 ->
  exists res2 w2 hoursRemaining,
    runScreening host env false w1 = (inr res2, w2) /\
    untouched w1 w2 /\
    res2 = skipped hoursRemaining /\
    0 < hoursRemaining.
Proof.
  intros Hrun Herr Hint Hnear.
  destruct (run_completed host env force w w1 res Hrun Herr)
    as (t & sent & tg & _ & _ & Hdb & _).
  destruct (runScreening_run host env false w1) as (gate & Hg & Hrun2).
  destruct (intervalGate_run false (date_now host (S (steps w1)))
              (mkWorld (db w1) (S (S (steps w1))) (trace w1)))
    as (gate' & Hg' & _ & _ & _ & Hheld).
  rewrite Hg in Hg'. injection Hg' as <-.
  cbn [db] in Hheld.
  pose proof (getLastScreeningRun_spec (db w1)) as Hlast.
  assert (Hnew : exists r, In r (screening_runs (db w1))
                           /\ r_status r = RunSuccess
                           /\ r_started_at r = date_now host (S (steps w))).
  { rewrite Hdb. cbn [screening_runs]. eexists. split.
    - apply in_map, in_or_app. right. left. reflexivity.
    - unfold set_success. cbn [r_id]. rewrite String.eqb_refl. split; reflexivity. }
  destruct Hnew as (r & Hr & Hrs & Hrt).
  destruct (getLastScreeningRun (db w1)) as [lastRun|] eqn:Elast;
    [|exfalso; exact (Hlast r Hr Hrs)].
  destruct Hlast as (_ & _ & Hmax). specialize (Hmax r Hr Hrs).
  assert (Hint1 : intervalHoursOf (db w1) = Some hours).
  { unfold intervalHoursOf, select_setting in *. rewrite Hdb.
    cbn [settings]. exact Hint. }
  destruct (Hheld lastRun hours eq_refl eq_refl Hint1) as [Hskip _].
  rewrite (Hskip ltac:(lia)) in Hrun2.
  eexists; eexists; eexists. split; [exact Hrun2|].
  split; [split; reflexivity|]. split; [reflexivity|].
  apply ceil_div_pos; lia.
Qed.

Lemma rerun_held_back_witness :
  exists res2 w2,
    runScreening Demo.host Demo.env false
      (snd (runScreening Demo.host Demo.env true Demo.world)) = (inr res2, w2) /\
    db w2 = db (snd (runScreening Demo.host Demo.env true Demo.world)) /\
    Screening.runId res2 = "".
Proof.
  destruct (rerun_held_back Demo.host Demo.env true Demo.world
              (snd (runScreening Demo.host Demo.env true Demo.world))
              (match fst (runScreening Demo.host Demo.env true Demo.world) with
               | inr res => res
               | inl _ => skipped 0
               end)
              24)
    as (res2 & w2 & h & Hrun2 & [Hdb _] & -> & _).
  - vm_compute. reflexivity.
  - vm_compute. reflexivity.
  - vm_compute. reflexivity.
  - vm_compute. reflexivity.
  - exists (skipped h), w2. split; [exact Hrun2|]. split; [exact Hdb|reflexivity].
Defined.

(** X8. A wallet that a completed run could read, ids being unique in the
    wallets table: its row ends with the three balances of the exposure as
    decimal strings, which read back through [BigInt] as those balances, and
    with the time of the check.  Nothing else in the row changes: in
    particular a status [error] and an error reason left by an earlier run
    stay, since a successful recomputation never resets them. *)
Theorem recomputed_wallet_row (host : Host) (env : Env) (force : bool)
    (w w' : World) (res : ScreeningResult) (row : Wallet) (e : ChogExposure) :
  runScreening host env force w = (inr res, w') ->
  error res = None ->
  List.NoDup (List.map w_id (wallets (db w))) ->
  In row (flat_map snd (getAllProfilesWithWallets (db w))) ->
  exposure host env (getEnabledLpPairs (db w)) row = inr e ->
  exists row' checked direct lp total,
    In row' (wallets (db w')) /\
    row' = mkWallet (w_id row) (w_profile_id row) (w_address row)
             (w_wallet_rdns row) (w_verified_at row) (Some checked)
             (Some direct) (Some lp) (Some total)
             (w_status row) (w_error_reason row) (w_created_at row) /\
    Js.BigInt direct = Some (directBalance e) /\
    Js.BigInt lp = Some (lpBalance e) /\
    Js.BigInt total = Some (totalBalance e).
Proof.
  intros Hrun Herr Hnd Hin He.
  destruct (run_completed host env force w w' res Hrun Herr)
    as (t & sent & tg & _ & _ & Hdb & _).
  assert (Hrow : In row (wallets (db w)))
    by (apply processed_wallets_rows; exact Hin).
  destruct (touch_recomputed host env (getEnabledLpPairs (db w))
              (flat_map snd (getAllProfilesWithWallets (db w)))
              (S (S (steps w))) row e)
    as (k & _ & Ht).
  - intros pw Hpw Hid.
    rewrite (NoDup_key_inj w_id _ pw row Hnd
               (processed_wallets_rows _ _ Hpw) Hrow Hid).
    exact He.
  - apply existsb_exists. exists row. split; [exact Hin|apply String.eqb_refl].
  - eexists; eexists; eexists; eexists; eexists.
    split; [rewrite Hdb; cbn [wallets]; apply in_map; exact Hrow|].
    split; [exact Ht|].
    repeat split; apply JsFacts.BigInt_toString.
Qed.

Lemma recomputed_wallet_row_witness :
  exists res w' row',
    runScreening Demo.host Demo.env true Demo.world = (inr res, w') /\
    In row' (wallets (db w')) /\
    w_id row' = "wd" /\ w_last_total_chog_raw row' = Some "42" /\
    w_status row' = WVerified.
Proof.
  destruct (runScreening Demo.host Demo.env true Demo.world)
    as [[err|res] w'] eqn:Hrun.
  - vm_compute in Hrun. discriminate Hrun.
  - assert (Hin : In Demo.walletD
                    (flat_map snd (getAllProfilesWithWallets (db Demo.world))))
      by (vm_compute; tauto).
    assert (Herr : error res = None).
    { pose proof Hrun as Hc. vm_compute in Hc. injection Hc as <- _. reflexivity. }
    destruct (recomputed_wallet_row Demo.host Demo.env true Demo.world w' res
                Demo.walletD (mkChogExposure 42 0 42 [])
                Hrun Herr demo_wallet_ids Hin eq_refl)
      as (row' & checked & direct & lp & total & Hrow' & Heq & _ & _ & Htotal).
    exists res, w', row'. split; [reflexivity|]. split; [exact Hrow'|].
    pose proof Hrun as Hc. vm_compute in Hc. injection Hc as _ <-.
    rewrite Heq in Hrow' |- *. cbn [w_id w_last_total_chog_raw w_status].
    split; [reflexivity|]. split; [|reflexivity].
    cbn in Hrow'.
    repeat (destruct Hrow' as [Hrow'|Hrow']; [try discriminate Hrow'|]);
      [|destruct Hrow'].
    injection Hrow' as _ _ _ <-. reflexivity.
Defined.

End RunFacts.

(* ===================================================================== *)
(** ** More on the delivery of the summary *)
(* ===================================================================== *)

Module DeliveryFacts.
Import Db Rt Telegram Screening Ref ChogFacts ScreeningFacts.

(** X9. [sendTelegramMessage] never throws and never touches the store: it
    sends exactly one request and returns.  The result is a success exactly
    when the API answered with [ok]; a success carries no error text, and a
    failure carries one: the message of the exception when the request threw,
    the description of the API's answer or [Unknown error] when the API
    refused. *)
Theorem sendTelegramMessage_total (host : Host) (botToken chatId text : string)
    (w : World) :
  exists result,
    sendTelegramMessage host botToken chatId text w =
      (inr result,
       mkWorld (db w) (steps w) (trace w ++ [TelegramPost botToken chatId text])) /\
    (success result = true <->
     exists reply, postSendMessage host botToken chatId text = inr reply
                   /\ ok reply = true) /\
    (success result = true -> send_error result = None) /\
    (success result = false -> messageId result = None /\
       exists reason, send_error result = Some reason /\
         match postSendMessage host botToken chatId text with
         | inl err => reason = Js.errMessage err
         | inr reply =>
             reason = match description reply with
                      | Some (String c s) => String c s
                      | _ => "Unknown error"
                      end
         end).
Proof.
  unfold sendTelegramMessage. run.
  destruct (postSendMessage host botToken chatId text) as [err|reply]; simpl.
  - eexists; split; [reflexivity|]. simpl.
    split; [split; [discriminate|intros (reply & Hr & _); discriminate Hr]|].
    split; [discriminate|]. intros _. split; [reflexivity|].
    eexists; split; reflexivity.
  - destruct (ok reply) eqn:Hok; simpl.
    + eexists; split; [reflexivity|]. simpl.
      split; [split; [intros _; exists reply; split; [reflexivity|exact Hok]
                     |reflexivity]|].
      split; [reflexivity|discriminate].
    + eexists; split; [reflexivity|]. simpl.
      split; [split; [discriminate|intros (reply' & [= <-] & Hok'); congruence]|].
      split; [discriminate|]. intros _. split; [reflexivity|].
      eexists; split; [reflexivity|].
      unfold Js.or_else. destruct (description reply) as [[|c s]|]; reflexivity.
Qed.

(** X10. The summary goes out in at most one request and the store is not
    touched.  The request is sent exactly when the bot token is not empty,
    the chat id is not empty and the setting [bot_notifications_enabled] is
    not the string [false]; the chat id is the setting [telegram_chat_id]
    when that is set and not empty, and the environment's otherwise.  When
    nothing is sent the answer is [false]. *)
Theorem notify_gating (host : Host) (env : Env) (message : string) (w : World) :
  let chatId :=
    match select_setting (db w) "telegram_chat_id" with
    | Some (String c s) => String c s
    | _ => TELEGRAM_CHAT_ID env
    end in
  let post := TelegramPost (TELEGRAM_BOT_TOKEN env) chatId message in
  exists sent tg,
    notify host env message w =
      (inr sent, mkWorld (db w) (steps w) (trace w ++ tg)) /\
    (tg = [] \/ tg = [post]) /\
    (tg = [post] <->
     TELEGRAM_BOT_TOKEN env <> "" /\ chatId <> "" /\
     select_setting (db w) "bot_notifications_enabled" <> Some "false") /\
    (tg = [] -> sent = false) /\
    (sent = true <->
     tg = [post] /\
     exists reply,
       postSendMessage host (TELEGRAM_BOT_TOKEN env) chatId message = inr reply
       /\ ok reply = true).
Proof.
  intros chatId post.
  assert (Hchat : Js.or_else (select_setting (db w) "telegram_chat_id")
                    (TELEGRAM_CHAT_ID env) = chatId).
  { unfold Js.or_else, chatId.
    destruct (select_setting (db w) "telegram_chat_id") as [[|c s]|];
      reflexivity. }
  unfold notify, getGroupChatId. run. rewrite Hchat.
  assert (Hquiet : forall P : Prop, ~ P ->
            exists sent tg,
              (inr false : Js.exn + bool, w)
              = (inr sent, mkWorld (db w) (steps w) (trace w ++ tg)) /\
              (tg = [] \/ tg = [post]) /\ (tg = [post] <-> P) /\
              (tg = [] -> sent = false) /\
              (sent = true <->
               tg = [post] /\
               exists reply,
                 postSendMessage host (TELEGRAM_BOT_TOKEN env) chatId message
                 = inr reply /\ ok reply = true)).
  { intros P HP. exists false, []. rewrite world_eta.
    split; [reflexivity|]. split; [left; reflexivity|].
    split; [split; [discriminate|intros H; destruct (HP H)]|].
    split; [reflexivity|]. split; [discriminate|intros [H _]; discriminate H]. }
  destruct (TELEGRAM_BOT_TOKEN env) as [|c0 s0] eqn:Etok.
  - apply Hquiet. intros [H _]. apply H. reflexivity.
  - destruct chatId as [|c1 s1] eqn:Echat.
    + apply Hquiet. intros (_ & H & _). apply H. reflexivity.
    + destruct (select_setting (db w) "bot_notifications_enabled") as [v|] eqn:Eset.
      * destruct (String.eqb_spec v "false") as [->|Hv]; simpl.
        -- apply Hquiet. intros (_ & _ & H). apply H. reflexivity.
        -- destruct (sendTelegramMessage_run host (String c0 s0) (String c1 s1)
                       message w) as (result & Hsend & Hok).
           rewrite Hsend. simpl. exists (success result). eexists.
           split; [reflexivity|]. split; [right; reflexivity|].
           split; [split; [intros _; repeat split; congruence|reflexivity]|].
           split; [discriminate|].
           rewrite Hok. split; [intros H; split; [reflexivity|exact H]|tauto].
      * simpl.
        destruct (sendTelegramMessage_run host (String c0 s0) (String c1 s1)
                    message w) as (result & Hsend & Hok).
        rewrite Hsend. simpl. exists (success result). eexists.
        split; [reflexivity|]. split; [right; reflexivity|].
        split; [split; [intros _; repeat split; congruence|reflexivity]|].
        split; [discriminate|].
        rewrite Hok. split; [intros H; split; [reflexivity|exact H]|tauto].
Qed.

End DeliveryFacts.

(* ===================================================================== *)
(** ** More on the queries of the store *)
(* ===================================================================== *)

Module QueryFacts.
Import Db Rt Ref ScreeningFacts.

Lemma insert_desc_perm {A : Type} (key : A -> Z) (x : A) (l : list A) :
  Permutation (x :: l) (insert_desc key x l).
Proof.
  induction l as [|y l IH]; simpl; [reflexivity|].
  destruct (key y <=? key x); [reflexivity|].
  rewrite perm_swap. constructor. exact IH.
Qed.

Lemma order_by_desc_perm {A : Type} (key : A -> Z) (l : list A) :
  Permutation l (order_by_desc key l).
Proof.
  induction l as [|x l IH]; simpl; [reflexivity|].
  rewrite <- insert_desc_perm. constructor. exact IH.
Qed.

Lemma insert_desc_sorted {A : Type} (key : A -> Z) (x : A) (l : list A) :
  StronglySorted (fun a b => key a >= key b) l ->
  StronglySorted (fun a b => key a >= key b) (insert_desc key x l).
Proof.
  induction 1 as [|y l Hs IH Hy]; simpl.
  - constructor; constructor.
  - destruct (Z.leb_spec (key y) (key x)) as [Hle|Hgt].
    + constructor; [constructor; assumption|].
      constructor; [lia|].
      eapply List.Forall_impl; [|exact Hy]. simpl. intros a Ha. lia.
    + constructor; [exact IH|].
      apply List.Forall_forall. intros a Ha. apply In_insert_desc in Ha.
      destruct Ha as [->|Ha]; [lia|].
      rewrite List.Forall_forall in Hy. apply Hy. exact Ha.
Qed.

Lemma order_by_desc_sorted {A : Type} (key : A -> Z) (l : list A) :
  StronglySorted (fun a b => key a >= key b) (order_by_desc key l).
Proof.
  induction l as [|x l IH]; simpl; [constructor|].
  apply insert_desc_sorted. exact IH.
Qed.

Lemma getWalletsByProfile_nonempty (d : DB) (profileId : string) :
  (0 <? Z.of_nat (List.length (getWalletsByProfile d profileId)))
  = existsb (fun w => String.eqb (w_profile_id w) profileId) (wallets d).
Proof.
  unfold getWalletsByProfile.
  rewrite <- (Permutation_length (order_by_desc_perm w_created_at _)).
  induction (wallets d) as [|x l IH]; [reflexivity|].
  cbn [List.filter existsb].
  destruct (String.eqb (w_profile_id x) profileId); [reflexivity|exact IH].
Qed.

(** X11. [getAllProfilesWithWallets] returns, in the order of the profiles
    table, exactly the profiles that own at least one row of the wallets
    table.  Each comes with all of its wallets and no other, the most
    recently created first.  So a wallet is evaluated by a run exactly when
    its row names a profile that exists. *)
Theorem profiles_with_wallets (d : DB) :
  List.map fst (getAllProfilesWithWallets d)
  = List.filter
      (fun p => existsb (fun w => String.eqb (w_profile_id w) (p_id p)) (wallets d))
      (profiles d) /\
  Forall
    (fun pw =>
       snd pw <> [] /\
       Permutation (snd pw)
         (List.filter (fun w => String.eqb (w_profile_id w) (p_id (fst pw)))
            (wallets d)) /\
       StronglySorted (fun a b => w_created_at a >= w_created_at b) (snd pw))
    (getAllProfilesWithWallets d) /\
  (forall wallet,
      In wallet (flat_map snd (getAllProfilesWithWallets d)) <->
      In wallet (wallets d) /\
      exists p, In p (profiles d) /\ p_id p = w_profile_id wallet).
Proof.
  unfold getAllProfilesWithWallets. generalize (profiles d) as ps.
  intros ps. split; [|split].
  - induction ps as [|p ps IH]; [reflexivity|].
    cbn [profilesWithWallets List.filter].
    rewrite getWalletsByProfile_nonempty.
    destruct (existsb _ (wallets d)); cbn [List.map]; rewrite IH; reflexivity.
  - induction ps as [|p ps IH]; [constructor|].
    cbn [profilesWithWallets].
    destruct (0 <? _) eqn:Hn; [|exact IH].
    constructor; [|exact IH]. cbn [fst snd].
    split; [|split].
    + intros E. rewrite E in Hn. discriminate Hn.
    + symmetry. apply order_by_desc_perm.
    + apply order_by_desc_sorted.
  - intros wallet. induction ps as [|p ps IH]; simpl.
    + split; [tauto|]. intros (_ & p & [] & _).
    + assert (Hown : In wallet (getWalletsByProfile d (p_id p)) <->
                     In wallet (wallets d) /\ p_id p = w_profile_id wallet).
      { unfold getWalletsByProfile. rewrite In_order_by_desc, List.filter_In.
        split; intros [H1 H2]; (split; [exact H1|]).
        - apply String.eqb_eq in H2. congruence.
        - apply String.eqb_eq. congruence. }
      destruct (0 <? _) eqn:Hn.
      * cbn [flat_map snd]. rewrite in_app_iff, Hown, IH.
        split.
        -- intros [[H1 H2]|(H1 & q & Hq & Hid)].
           ++ split; [exact H1|]. exists p. split; [left; reflexivity|exact H2].
           ++ split; [exact H1|]. exists q. split; [right; exact Hq|exact Hid].
        -- intros (H1 & q & [->|Hq] & Hid).
           ++ left. split; assumption.
           ++ right. split; [exact H1|]. exists q. split; assumption.
      * rewrite IH. split.
        -- intros (H1 & q & Hq & Hid). split; [exact H1|].
           exists q. split; [right; exact Hq|exact Hid].
        -- intros (H1 & q & [->|Hq] & Hid).
           ++ exfalso.
              assert (Hin : In wallet (getWalletsByProfile d (p_id q)))
                by (apply Hown; split; assumption).
              destruct (getWalletsByProfile d (p_id q)); [destruct Hin|].
              discriminate Hn.
           ++ split; [exact H1|]. exists q. split; assumption.
Qed.

End QueryFacts.

(* ===================================================================== *)
(** ** Profiles, wallets and snapshots *)
(* ===================================================================== *)

Module AccountFacts.
Import Db Rt Screening Ref Text Accounts ChogFacts ScreeningFacts.

Lemma lower_char_idem (c : ascii) : lower_char (lower_char c) = lower_char c.
Proof.
  destruct c as [[] [] [] [] [] [] [] []]; reflexivity.
Qed.

Lemma toLowerCase_idem (s : string) : toLowerCase (toLowerCase s) = toLowerCase s.
Proof.
  induction s as [|c s IH]; simpl; [reflexivity|].
  rewrite lower_char_idem, IH. reflexivity.
Qed.

Lemma find_last {A : Type} (f : A -> bool) (l : list A) (x : A) :
  List.find f (l ++ [x]) =
    match List.find f l with
    | Some y => Some y
    | None => if f x then Some x else None
    end.
Proof.
  induction l as [|y l IH]; simpl; [reflexivity|].
  destruct (f y); [reflexivity|exact IH].
Qed.

Lemma find_absent {A : Type} (f : A -> bool) (l : list A) :
  (forall x, In x l -> f x = false) -> List.find f l = None.
Proof.
  induction l as [|y l IH]; intros H; simpl; [reflexivity|].
  rewrite (H y (or_introl eq_refl)). apply IH.
  intros x Hx. apply H. right. exact Hx.
Qed.

Lemma db_eta (d : DB) :
  mkDB (profiles d) (wallets d) (lp_pairs d) (screening_runs d)
    (profile_snapshots d) (settings d) = d.
Proof. destruct d; reflexivity. Qed.

Lemma filter_all {A : Type} (f : A -> bool) (l : list A) :
  (forall x, In x l -> f x = true) -> List.filter f l = l.
Proof.
  induction l as [|y l IH]; intros H; simpl; [reflexivity|].
  rewrite (H y (or_introl eq_refl)). f_equal. apply IH.
  intros x Hx. apply H. right. exact Hx.
Qed.

(** X12. Linking then looking up.  When no wallet of the table has the id
    or the address, letter case apart, [createWallet] appends one row: the address
    in lower case, status [verified], the time of the call as verification
    and creation time, no balance yet.  From then on [getWalletByAddress]
    finds that row under any spelling of the address that differs only in
    letter case, [getProfileByWalletAddress] answers with the profile the
    wallet was linked to, and the lookups of other addresses answer as
    before. *)
Theorem linked_wallet_found (host : Host) (id profileId address : string)
    (walletRdns : option string) (w : World) (spelling : string)
    (profile : Profile) :
  (forall row, In row (wallets (db w)) -> w_id row <> id) ->
  (forall row, In row (wallets (db w)) ->
               sql_lower (w_address row) <> toLowerCase address) ->
  toLowerCase spelling = toLowerCase address ->
  getProfileById (db w) profileId = Some profile ->
  exists w',
    createWallet host id profileId address walletRdns w = (inr tt, w') /\
    wallets (db w') =
      wallets (db w)
      ++ [mkWallet id profileId (toLowerCase address) walletRdns
            (Some (date_now host (steps w))) None None None None WVerified None
            (date_now host (steps w))] /\
    getWalletByAddress (db w') spelling =
      Some (mkWallet id profileId (toLowerCase address) walletRdns
              (Some (date_now host (steps w))) None None None None WVerified None
              (date_now host (steps w))) /\
    getProfileByWalletAddress (db w') spelling = Some profile /\
    (forall other, toLowerCase other <> toLowerCase address ->
                   getWalletByAddress (db w') other
                   = getWalletByAddress (db w) other) /\
    profiles (db w') = profiles (db w) /\ trace w' = trace w.
Proof.
  intros _ Hfree Hsp Hprofile. unfold createWallet. run.
  eexists. split; [reflexivity|]. cbn [db wallets with_wallets profiles trace].
  split; [reflexivity|].
  assert (Hnone : List.find
                    (fun w0 => String.eqb (sql_lower (w_address w0))
                                 (toLowerCase spelling))
                    (wallets (db w)) = None).
  { apply find_absent. intros row Hrow. apply String.eqb_neq.
    rewrite Hsp. apply Hfree. exact Hrow. }
  split; [|split; [|split; [|split; reflexivity]]].
  - unfold getWalletByAddress, with_wallets. cbn [wallets]. rewrite find_last, Hnone.
    cbn [w_address]. unfold sql_lower. rewrite toLowerCase_idem, Hsp.
    rewrite String.eqb_refl. reflexivity.
  - unfold getProfileByWalletAddress, with_wallets. cbn [wallets].
    rewrite find_last, Hnone.
    cbn [w_address]. unfold sql_lower. rewrite toLowerCase_idem, Hsp.
    rewrite String.eqb_refl. cbn [w_profile_id].
    unfold getProfileById in *. cbn [profiles]. exact Hprofile.
  - intros other Hother. unfold getWalletByAddress, with_wallets. cbn [wallets].
    rewrite find_last. cbn [w_address]. unfold sql_lower at 2.
    rewrite toLowerCase_idem.
    destruct (String.eqb_spec (toLowerCase address) (toLowerCase other))
      as [E|_]; [congruence|].
    clear Hnone. destruct (List.find _ (wallets (db w))); reflexivity.
Qed.

Lemma linked_wallet_found_witness :
  exists w',
    createWallet Demo.host "wn" "E" "0xABCDEF" None Demo.world = (inr tt, w') /\
    (w_address <$> getWalletByAddress (db w') "0xabCDef") = Some "0xabcdef" /\
    (p_telegram_handle <$> getProfileByWalletAddress (db w') "0xABCDEF")
    = Some "@erin".
Proof.
  destruct (linked_wallet_found Demo.host "wn" "E" "0xABCDEF" None Demo.world
              "0xabCDef" (mkProfile "E" "@erin" "h" 5 5))
    as (w' & Hrun & _ & Hfound & _).
  - intros row Hrow. simpl in Hrow.
    repeat (destruct Hrow as [<-|Hrow]; [vm_compute; discriminate|]).
    destruct Hrow.
  - intros row Hrow. simpl in Hrow.
    repeat (destruct Hrow as [<-|Hrow]; [vm_compute; discriminate|]).
    destruct Hrow.
  - reflexivity.
  - reflexivity.
  - exists w'. split; [exact Hrun|]. split; [rewrite Hfound; reflexivity|].
    assert (Hc : createWallet Demo.host "wn" "E" "0xABCDEF" None Demo.world
                 = (inr tt, w')) by exact Hrun.
    vm_compute in Hc. injection Hc as <-. reflexivity.
Defined.

(** X13. [deleteWallet] removes exactly the rows of the given profile whose
    address is the given one, letter case apart, and leaves the other rows in
    their order; nothing else in the store changes and nothing is sent.  It
    answers [true] exactly when there was such a row.  In particular, with
    the id of a profile that does not own the address it answers [false] and
    the store is as before. *)
Theorem deleteWallet_owner_only (profileId address : string) (w : World) :
  let mine row :=
    w_profile_id row = profileId
    /\ sql_lower (w_address row) = toLowerCase address in
  exists deleted w',
    deleteWallet profileId address w = (inr deleted, w') /\
    (deleted = true <-> exists row, In row (wallets (db w)) /\ mine row) /\
    (forall row, In row (wallets (db w')) <->
                 In row (wallets (db w)) /\ ~ mine row) /\
    (exists keep, wallets (db w') = List.filter keep (wallets (db w))) /\
    (deleted = false -> w' = w) /\
    with_wallets (db w') (wallets (db w)) = db w /\
    steps w' = steps w /\ trace w' = trace w.
Proof.
  intros mine. unfold deleteWallet. run.
  assert (Hrow : forall row,
             deleted_row profileId (toLowerCase address) row = true <-> mine row).
  { intros row. unfold deleted_row, mine.
    rewrite andb_true_iff, !String.eqb_eq. reflexivity. }
  eexists; eexists. split; [reflexivity|].
  cbn [db wallets with_wallets steps trace].
  split; [|split; [|split; [|split; [|split; [|split; reflexivity]]]]].
  - rewrite Z.ltb_lt. split.
    + intros Hpos.
      destruct (List.filter _ (wallets (db w))) as [|row l] eqn:E;
        [simpl in Hpos; lia|].
      assert (Hin : In row (List.filter
                              (deleted_row profileId (toLowerCase address))
                              (wallets (db w)))) by (rewrite E; left; reflexivity).
      apply List.filter_In in Hin. exists row.
      split; [tauto|apply Hrow; tauto].
    + intros (row & Hin & Hm).
      assert (Hf : In row (List.filter
                             (deleted_row profileId (toLowerCase address))
                             (wallets (db w))))
        by (apply List.filter_In; split; [exact Hin|apply Hrow; exact Hm]).
      destruct (List.filter _ (wallets (db w))); [destruct Hf|simpl; lia].
  - intros row. rewrite List.filter_In, negb_true_iff, <- Hrow.
    destruct (deleted_row profileId (toLowerCase address) row);
      intuition congruence.
  - eexists; reflexivity.
  - intros Hnone. apply Z.ltb_ge in Hnone.
    assert (Hempty : List.filter (deleted_row profileId (toLowerCase address))
                       (wallets (db w)) = []).
    { destruct (List.filter _ (wallets (db w))); [reflexivity|simpl in Hnone; lia]. }
    rewrite filter_all.
    + unfold with_wallets. rewrite db_eta. destruct w; reflexivity.
    + intros row Hin. apply negb_true_iff.
      destruct (deleted_row profileId (toLowerCase address) row) eqn:E;
        [|reflexivity].
      assert (Hf : In row (List.filter
                             (deleted_row profileId (toLowerCase address))
                             (wallets (db w))))
        by (apply List.filter_In; split; assumption).
      rewrite Hempty in Hf. destruct Hf.
  - unfold with_wallets. cbn. apply db_eta.
Qed.

Lemma lower_char_at (c : ascii) :
  Ascii.eqb (lower_char c) "@" = Ascii.eqb c "@".
Proof.
  destruct c as [[] [] [] [] [] [] [] []]; reflexivity.
Qed.

Lemma sql_replace_at_length (s : string) :
  (String.length (sql_replace_at s) <= String.length s)%nat.
Proof.
  induction s as [|c s IH]; simpl; [lia|].
  destruct (Ascii.eqb c "@"); simpl; lia.
Qed.

(** A string without [@] does not start with one, in any letter case. *)
Lemma replace_leading_at_plain (name spelling : string) :
  sql_replace_at name = name ->
  toLowerCase spelling = toLowerCase name ->
  replace_leading_at (toLowerCase spelling) = toLowerCase name.
Proof.
  intros Hplain ->. destruct name as [|c name]; [reflexivity|].
  simpl in *. rewrite lower_char_at.
  destruct (Ascii.eqb c "@"); [|reflexivity].
  pose proof (sql_replace_at_length name) as Hlen.
  rewrite Hplain in Hlen. simpl in Hlen. lia.
Qed.

(** X14. Creating then looking up a profile, for ASCII handles.  Take an
    id that is new to the table and an ASCII name without [@] that no
    profile of the table has, letter case and [@] signs apart, and create a
    profile whose handle is the name, bare or with [@] in front.  Then
    [getProfileById] finds the new profile, and so does [getProfileByHandle]
    under any ASCII spelling of the name that differs only in letter case,
    with or without a leading [@]; the profiles that were found under an
    ASCII spelling are found as before.  A name with a letter outside ASCII
    is left out: JavaScript folds its case in the lookup and SQLite does not
    in the comparison, so the lookup can miss the profile it has stored. *)
Theorem created_profile_found (host : Host) (id handle name hash : string)
    (w : World) (spelling : string) :
  ascii_only name = true ->
  ascii_only spelling = true ->
  sql_replace_at name = name ->
  handle = name \/ handle = String "@" name ->
  (forall p, In p (profiles (db w)) -> p_id p <> id) ->
  (forall p, In p (profiles (db w)) ->
             sql_lower (sql_replace_at (p_telegram_handle p)) <> toLowerCase name) ->
  toLowerCase spelling = toLowerCase name ->
  let created :=
    mkProfile id handle hash (date_now host (steps w)) (date_now host (steps w)) in
  exists w',
    createProfile host id handle hash w = (inr tt, w') /\
    profiles (db w') = profiles (db w) ++ [created] /\
    getProfileById (db w') id = Some created /\
    getProfileByHandle (db w') spelling = Some created /\
    getProfileByHandle (db w') (String "@" spelling) = Some created /\
    (forall other p, ascii_only other = true ->
                     getProfileByHandle (db w) other = Some p ->
                     getProfileByHandle (db w') other = Some p) /\
    wallets (db w') = wallets (db w) /\ trace w' = trace w.
Proof.
  intros _ _ Hplain Hhandle Hid Hfree Hsp created. unfold createProfile. run.
  eexists. split; [reflexivity|].
  unfold with_profiles. cbn [db profiles wallets trace].
  split; [reflexivity|].
  assert (Hstored : sql_lower (sql_replace_at handle) = toLowerCase name).
  { destruct Hhandle as [->| ->]; simpl; rewrite Hplain; reflexivity. }
  assert (Hfound : forall normalized,
             normalized = toLowerCase name ->
             List.find
               (fun p => String.eqb
                           (sql_lower (sql_replace_at (p_telegram_handle p)))
                           normalized)
               (profiles (db w) ++ [created]) = Some created).
  { intros normalized ->. rewrite find_last, find_absent.
    - cbn [p_telegram_handle created]. rewrite Hstored, String.eqb_refl.
      reflexivity.
    - intros p Hp. apply String.eqb_neq. apply Hfree. exact Hp. }
  split; [|split; [|split; [|split; [|split; reflexivity]]]].
  - unfold getProfileById. cbn [profiles]. rewrite find_last, find_absent.
    + cbn [p_id created]. rewrite String.eqb_refl. reflexivity.
    + intros p Hp. apply String.eqb_neq. apply Hid. exact Hp.
  - unfold getProfileByHandle. cbn [profiles]. apply Hfound.
    apply replace_leading_at_plain; assumption.
  - unfold getProfileByHandle. cbn [profiles]. apply Hfound.
    simpl. exact Hsp.
  - intros other p _. unfold getProfileByHandle. cbn [profiles].
    rewrite find_last. intros ->. reflexivity.
Qed.

Lemma created_profile_found_witness :
  exists w' p,
    createProfile Demo.host "F" "@Frank_01" "h" Demo.world = (inr tt, w') /\
    getProfileByHandle (db w') "frank_01" = Some p /\
    getProfileByHandle (db w') "@FRANK_01" = Some p /\
    p_id p = "F".
Proof.
  destruct (created_profile_found Demo.host "F" "@Frank_01" "Frank_01" "h"
              Demo.world "FRANK_01")
    as (w' & Hrun & _ & _ & _ & Hat & _).
  - reflexivity.
  - reflexivity.
  - reflexivity.
  - right. reflexivity.
  - intros p Hp. simpl in Hp.
    repeat (destruct Hp as [<-|Hp]; [vm_compute; discriminate|]).
    destruct Hp.
  - intros p Hp. simpl in Hp.
    repeat (destruct Hp as [<-|Hp]; [vm_compute; discriminate|]).
    destruct Hp.
  - reflexivity.
  - destruct (created_profile_found Demo.host "F" "@Frank_01" "Frank_01" "h"
                Demo.world "frank_01")
      as (w2 & Hrun2 & _ & _ & Hbare & _).
    + reflexivity.
    + reflexivity.
    + reflexivity.
    + right. reflexivity.
    + intros p Hp. simpl in Hp.
      repeat (destruct Hp as [<-|Hp]; [vm_compute; discriminate|]).
      destruct Hp.
    + intros p Hp. simpl in Hp.
      repeat (destruct Hp as [<-|Hp]; [vm_compute; discriminate|]).
      destruct Hp.
    + reflexivity.
    + rewrite Hrun in Hrun2. injection Hrun2 as <-.
      eexists; eexists. split; [exact Hrun|].
      split; [exact Hbare|]. split; [exact Hat|reflexivity].
Defined.

(** The rows that [getLatestSnapshotForProfile] chooses from. *)
Lemma latest_rows (d : DB) (profileId : string) (s : ProfileSnapshot)
    (r : ScreeningRun) :
  In (s, r)
    (List.filter
       (fun row => String.eqb (s_profile_id (fst row)) profileId
                   && RunStatus_eqb (r_status (snd row)) RunSuccess)
       (joined d)) <->
  In s (profile_snapshots d) /\ In r (screening_runs d) /\
  s_run_id s = r_id r /\ s_profile_id s = profileId /\ r_status r = RunSuccess.
Proof.
  rewrite List.filter_In. unfold joined. rewrite in_flat_map.
  cbn [fst snd]. rewrite andb_true_iff, String.eqb_eq, RunStatus_eqb_eq.
  split.
  - intros [(ps & Hps & Hin) [Hpid Hst]].
    apply in_map_iff in Hin. destruct Hin as (sr & [= <- <-] & Hsr).
    apply List.filter_In in Hsr. destruct Hsr as [Hsr Hid].
    apply String.eqb_eq in Hid. tauto.
  - intros (Hs & Hr & Hid & Hpid & Hst). split; [|tauto].
    exists s. split; [exact Hs|]. apply in_map_iff. exists r.
    split; [reflexivity|]. apply List.filter_In. split; [exact Hr|].
    apply String.eqb_eq. exact Hid.
Qed.

(** X15. [getLatestSnapshotForProfile] answers with a snapshot of the
    profile that belongs to a run with status [success], and no successful
    run that evaluated the profile started later than that run.  Snapshots
    of runs that are still [running] or ended in [error] are never returned;
    the answer is null exactly when no successful run has a snapshot of the
    profile. *)
Theorem latest_snapshot_spec (d : DB) (profileId : string) :
  match getLatestSnapshotForProfile d profileId with
  | Some s =>
      In s (profile_snapshots d) /\ s_profile_id s = profileId /\
      exists r,
        In r (screening_runs d) /\ r_id r = s_run_id s /\
        r_status r = RunSuccess /\
        forall s' r',
          In s' (profile_snapshots d) -> s_profile_id s' = profileId ->
          In r' (screening_runs d) -> r_id r' = s_run_id s' ->
          r_status r' = RunSuccess ->
          r_started_at r' <= r_started_at r
  | None =>
      forall s' r',
        In s' (profile_snapshots d) -> s_profile_id s' = profileId ->
        In r' (screening_runs d) -> r_id r' = s_run_id s' ->
        r_status r' <> RunSuccess
  end.
Proof.
  unfold getLatestSnapshotForProfile.
  destruct (List.head _) as [[s r]|] eqn:E; cbn [fmap option_fmap option_map fst].
  - apply head_order_by_desc in E. destruct E as [Hin Hmax].
    apply latest_rows in Hin. destruct Hin as (Hs & Hr & Hid & Hpid & Hst).
    split; [exact Hs|]. split; [exact Hpid|].
    exists r. split; [exact Hr|]. split; [congruence|]. split; [exact Hst|].
    intros s' r' Hs' Hpid' Hr' Hid' Hst'.
    apply (Hmax (s', r')). apply latest_rows. repeat split; congruence.
  - intros s' r' Hs' Hpid' Hr' Hid' Hst'.
    assert (Hin : In (s', r')
                    (order_by_desc (fun row => r_started_at (snd row))
                       (List.filter
                          (fun row =>
                             String.eqb (s_profile_id (fst row)) profileId
                             && RunStatus_eqb (r_status (snd row)) RunSuccess)
                          (joined d)))).
    { apply In_order_by_desc, latest_rows. repeat split; congruence. }
    destruct (order_by_desc _ _); [destruct Hin|discriminate E].
Qed.

Lemma evaluated_wallets (d : DB) (p : Profile * list Wallet) :
  In p (getAllProfilesWithWallets d) ->
  snd p = getWalletsByProfile d (p_id (fst p)).
Proof.
  unfold getAllProfilesWithWallets. generalize (profiles d) as ps.
  induction ps as [|q ps IH]; simpl; [tauto|].
  destruct (0 <? _); [|exact IH].
  intros [<-|Hin]; [reflexivity|exact (IH Hin)].
Qed.

(** X16. After a run that completes, the latest snapshot of every profile
    it evaluated is the one this run wrote: it carries the run's id, its
    total reads back as the aggregate the run computed and its flag says
    whether that aggregate reaches the threshold.  The run's id is new to the
    run table and to the snapshots, and the runs that succeeded before
    started earlier than this one. *)
Theorem latest_snapshot_after_run (host : Host) (env : Env) (force : bool)
    (w w' : World) (res : ScreeningResult) (threshold : Z)
    (p : Profile * list Wallet) :
  let lpPairs := getEnabledLpPairs (db w) in
  runScreening host env force w = (inr res, w') ->
  error res = None ->
  Js.BigInt (thresholdOf (db w)) = Some threshold ->
  In p (getAllProfilesWithWallets (db w)) ->
  (forall r, In r (screening_runs (db w)) ->
             r_id r <> Screening.runId res /\
             (r_status r = RunSuccess ->
              r_started_at r < date_now host (S (steps w)))) ->
  (forall s, In s (profile_snapshots (db w)) ->
             s_run_id s <> Screening.runId res) ->
  exists s,
    getLatestSnapshotForProfile (db w') (p_id (fst p)) = Some s /\
    s_run_id s = Screening.runId res /\
    s_profile_id s = p_id (fst p) /\
    Js.BigInt (s_total_chog_raw s) = Some (total host env lpPairs (snd p)) /\
    (total host env lpPairs (snd p) >= threshold -> s_eligible s = 1) /\
    (total host env lpPairs (snd p) < threshold -> s_eligible s = 0).
Proof.
  intros lpPairs Hrun Herr Hthr Hp Hruns Hsnaps.
  destruct (RunFacts.run_completed host env force w w' res Hrun Herr)
    as (t & sent & tg & Hcase & -> & Hdb & _).
  cbn [Screening.runId] in *.
  assert (Ht : t = threshold).
  { destruct Hcase as [Hnil|Ht]; [rewrite Hnil in Hp; destruct Hp|congruence]. }
  subst t. fold lpPairs in Hdb.
  set (runId := randomUUID host (steps w)) in *.
  set (mine := snapshotOf host env lpPairs threshold runId p).
  exists mine.
  split; [|split; [reflexivity|split; [reflexivity|]]].
  - unfold getLatestSnapshotForProfile.
    set (rows := List.filter _ (joined (db w'))).
    assert (Hrow : forall s r, In (s, r) rows ->
               date_now host (S (steps w)) <= r_started_at r -> s = mine).
    { intros s r Hin Hlate. apply latest_rows in Hin.
      destruct Hin as (Hs & Hr & Hid & Hpid & Hst).
      rewrite Hdb in Hs, Hr. cbn [profile_snapshots screening_runs] in Hs, Hr.
      apply in_map_iff in Hr. destruct Hr as (r0 & <- & Hr0).
      apply in_app_or in Hr0. destruct Hr0 as [Hold|[<-|[]]].
      - exfalso. destruct (Hruns r0 Hold) as [Hne Hearly].
        pose proof (set_success_spec (date_now host
                      (S (S (S (steps w))
                          + ticks host env lpPairs
                              (flat_map snd (getAllProfilesWithWallets (db w))))))
                      (Z.of_nat (List.length (getAllProfilesWithWallets (db w))))
                      (Z.of_nat (ticks host env lpPairs
                                   (flat_map snd (getAllProfilesWithWallets (db w)))))
                      (Z.of_nat (List.length
                                   (List.filter
                                      (eligibleNow host env lpPairs threshold)
                                      (getAllProfilesWithWallets (db w)))))
                      (if sent then 1 else 0) runId r0)
          as (_ & _ & _ & Hsame).
        rewrite (Hsame Hne) in Hst, Hlate. specialize (Hearly Hst). lia.
      - unfold set_success in Hid. cbn [r_id] in Hid.
        rewrite String.eqb_refl in Hid. cbn [r_id] in Hid.
        apply in_app_or in Hs. destruct Hs as [Hold|Hnew].
        + exfalso. exact (Hsnaps s Hold Hid).
        + apply in_map_iff in Hnew. destruct Hnew as (q & <- & Hq).
          unfold mine, snapshotOf, eligibleNow.
          cbn [s_profile_id snapshotOf] in Hpid.
          rewrite (evaluated_wallets _ _ Hq), (evaluated_wallets _ _ Hp), Hpid.
          reflexivity. }
    assert (Hmine : In (mine,
                        mkScreeningRun runId (date_now host (S (steps w)))
                          (Some (date_now host
                             (S (S (S (steps w))
                                 + ticks host env lpPairs
                                     (flat_map snd
                                        (getAllProfilesWithWallets (db w)))))))
                          RunSuccess None
                          (Z.of_nat (List.length (getAllProfilesWithWallets (db w))))
                          (Z.of_nat (ticks host env lpPairs
                                       (flat_map snd
                                          (getAllProfilesWithWallets (db w)))))
                          (Z.of_nat (List.length
                                       (List.filter
                                          (eligibleNow host env lpPairs threshold)
                                          (getAllProfilesWithWallets (db w)))))
                          (if sent then 1 else 0))
                    rows).
    { apply latest_rows. rewrite Hdb. cbn [profile_snapshots screening_runs].
      split; [apply in_or_app; right; apply in_map; exact Hp|].
      split; [|repeat split].
      apply in_map_iff. eexists. split; [|apply in_or_app; right; left; reflexivity].
      unfold set_success. cbn [r_id]. rewrite String.eqb_refl. reflexivity. }
    destruct (List.head (order_by_desc (fun row => r_started_at (snd row)) rows))
      as [[s r]|] eqn:E.
    + cbn [fmap option_fmap option_map fst]. f_equal.
      apply head_order_by_desc in E. destruct E as [Hin Hmax].
      apply (Hrow s r Hin). exact (Hmax _ Hmine).
    + exfalso. apply (In_order_by_desc (fun row => r_started_at (snd row))) in Hmine.
      destruct (order_by_desc _ rows); [destruct Hmine|discriminate E].
  - unfold mine, snapshotOf. cbn [s_total_chog_raw s_eligible].
    split; [apply JsFacts.BigInt_toString|].
    unfold eligibleNow.
    destruct (Z.geb_spec (total host env lpPairs (snd p)) threshold);
      split; (reflexivity || lia).
Qed.

Lemma latest_snapshot_after_run_witness :
  exists res w' s,
    runScreening Demo.host Demo.env true Demo.world = (inr res, w') /\
    getLatestSnapshotForProfile (db w') "A" = Some s /\
    s_run_id s = "run-0" /\ s_total_chog_raw s = "500" /\ s_eligible s = 0.
Proof.
  destruct (runScreening Demo.host Demo.env true Demo.world)
    as [[err|res] w'] eqn:Hrun.
  - vm_compute in Hrun. discriminate Hrun.
  - assert (Hres : res = mkScreeningResult "run-0" RunSuccess 4 4 2 false None).
    { pose proof Hrun as Hc. vm_compute in Hc. injection Hc as <- _. reflexivity. }
    destruct (latest_snapshot_after_run Demo.host Demo.env true Demo.world w' res
                1000000 (mkProfile "A" "@alice" "h" 1 1, [Demo.walletA]) Hrun)
      as (s & Hlatest & Hid & _ & Htotal & _ & Hflag).
    + rewrite Hres. reflexivity.
    + reflexivity.
    + vm_compute. tauto.
    + rewrite Hres. simpl. intros r [<-|[]].
      split; [discriminate|]. intros _. vm_compute. reflexivity.
    + rewrite Hres. simpl. intros s [<-|[<-|[<-|[]]]]; discriminate.
    + exists res, w', s. split; [reflexivity|]. split; [exact Hlatest|].
      split; [rewrite Hid, Hres; reflexivity|].
      split; [|apply Hflag; vm_compute; reflexivity].
      pose proof Hrun as Hc. vm_compute in Hc. injection Hc as _ <-.
      vm_compute in Hlatest. injection Hlatest as <-. reflexivity.
Defined.

End AccountFacts.

(* ===================================================================== *)
(** ** The text of the summary *)
(* ===================================================================== *)

Module MessageFacts.
Import Rt Message.

Lemma topLines_length (numbers : Numbers) (i : nat) (users : list Listed) :
  List.length (topLines numbers i users) = List.length users.
Proof.
  revert i. induction users as [|u users IH]; intros i; simpl; [reflexivity|].
  rewrite IH. reflexivity.
Qed.

(** X17. The summary is made of at least 7 and at most 54 lines, however
    many profiles there are: each of the first 20 newly eligible profiles and
    each of the first 10 dropped ones gets a line, the others are counted in
    an [...and N more] line, and at most 10 top holders are listed.  With
    nothing to report the message is its 7 header lines. *)
Theorem message_bounded (numbers : Numbers) (data : Summary) :
  let lines := messageLines numbers data in
  formatEligibilityMessage numbers data = String.concat newline lines /\
  (7 <= List.length lines <= 54)%nat /\
  (newlyEligible data = [] -> droppedEligible data = [] ->
   topEligible data = [] -> List.length lines = 7%nat) /\
  (forall user, In user (firstn 20 (newlyEligible data)) ->
     In ("• @" +:+ handle user +:+ " — "
         +:+ formatNumber numbers (totalChog user) +:+ " CHOG") lines) /\
  (forall user, In user (firstn 10 (droppedEligible data)) ->
     In ("• @" +:+ user) lines) /\
  ((20 < List.length (newlyEligible data))%nat ->
   In ("  _...and "
       +:+ Js.toString (Z.of_nat (List.length (newlyEligible data)) - 20)
       +:+ " more_") lines) /\
  ((10 < List.length (droppedEligible data))%nat ->
   In ("  _...and "
       +:+ Js.toString (Z.of_nat (List.length (droppedEligible data)) - 10)
       +:+ " more_") lines).
Proof.
  intros lines. split; [reflexivity|].
  subst lines. unfold messageLines.
  set (newly := newlyEligible data). set (dropped := droppedEligible data).
  set (top := topEligible data).
  split; [|split; [|split; [|split; [|split]]]].
  - rewrite !length_app. cbn [List.length].
    pose proof (firstn_le_length 20 newly) as Hn.
    pose proof (firstn_le_length 10 dropped) as Hd.
    pose proof (firstn_le_length 10 top) as Ht.
    pose proof (length_firstn 20 newly) as Hn'.
    pose proof (length_firstn 10 dropped) as Hd'.
    pose proof (length_firstn 10 top) as Ht'.
    destruct (0 <? List.length newly)%nat;
      destruct (0 <? List.length dropped)%nat;
      destruct (0 <? List.length top)%nat;
      destruct (20 <? List.length newly)%nat;
      destruct (10 <? List.length dropped)%nat;
      repeat (rewrite ?length_app, ?length_map, ?topLines_length;
              cbn [List.length]);
      lia.
  - intros -> -> ->. reflexivity.
  - intros user Hin. apply in_or_app. right. apply in_or_app. left.
    destruct (Nat.ltb_spec 0 (List.length newly)) as [_|Hz].
    + apply in_or_app. right. apply in_or_app. left.
      apply in_map_iff. exists user. split; [reflexivity|exact Hin].
    + destruct newly; [destruct Hin|simpl in Hz; lia].
  - intros user Hin. apply in_or_app. right. apply in_or_app. right.
    apply in_or_app. left.
    destruct (Nat.ltb_spec 0 (List.length dropped)) as [_|Hz].
    + apply in_or_app. right. apply in_or_app. left.
      apply in_map_iff. exists user. split; [reflexivity|exact Hin].
    + destruct dropped; [destruct Hin|simpl in Hz; lia].
  - intros Hmany. apply in_or_app. right. apply in_or_app. left.
    destruct (Nat.ltb_spec 0 (List.length newly)) as [_|Hz]; [|lia].
    apply in_or_app. right. apply in_or_app. right. apply in_or_app. left.
    destruct (Nat.ltb_spec 20 (List.length newly)) as [_|Hz]; [|lia].
    left. reflexivity.
  - intros Hmany. apply in_or_app. right. apply in_or_app. right.
    apply in_or_app. left.
    destruct (Nat.ltb_spec 0 (List.length dropped)) as [_|Hz]; [|lia].
    apply in_or_app. right. apply in_or_app. right. apply in_or_app. left.
    destruct (Nat.ltb_spec 10 (List.length dropped)) as [_|Hz]; [|lia].
    left. reflexivity.
Qed.

End MessageFacts.

(* ===================================================================== *)
(** ** Group management *)
(* ===================================================================== *)

Module BotFacts.
Import Db Rt Text BotRt Bot ScreeningFacts.

Ltac brun :=
  unfold BotRt.bind, BotRt.ret, BotRt.try_catch, BotRt.call, BotRt.run; simpl.

(** X18. [kickChatMember] never throws and does not touch the store.  It
    asks for the ban first and for the unban only after the ban was
    accepted.  It reports success exactly when the ban was accepted and the
    unban request was answered, whatever that answer says; so when the unban
    request throws the user stays banned and a failure is reported.  A
    failure always carries an error text and a success never does. *)
Theorem kickChatMember_outcome (api : Api) (botToken chatId : string)
    (userId : Z) (revokeMessages : bool) (st : State) :
  let ban := BanChatMember botToken chatId userId revokeMessages in
  let unban := UnbanChatMember botToken chatId userId in
  let banned := exists reply, answer api ban = inr reply /\ a_ok reply = true in
  exists result st',
    kickChatMember api botToken chatId userId revokeMessages st
    = (inr result, st') /\
    base st' = base st /\
    (banned -> calls st' = calls st ++ [ban; unban]) /\
    (~ banned -> calls st' = calls st ++ [ban]) /\
    (api_success result = true <->
     banned /\ exists reply, answer api unban = inr reply) /\
    (api_success result = true -> api_error result = None) /\
    (api_success result = false -> is_Some (api_error result)).
Proof.
  intros ban unban banned. unfold kickChatMember. brun. fold ban.
  destruct (answer api ban) as [err|reply] eqn:Eban; simpl.
  - assert (Hno : ~ banned) by (intros (r & Hr & _); discriminate Hr).
    eexists; eexists. split; [reflexivity|]. simpl.
    split; [reflexivity|]. split; [tauto|]. split; [reflexivity|].
    split; [split; [discriminate|tauto]|]. split; [discriminate|eauto].
  - destruct (a_ok reply) eqn:Hok; simpl.
    + assert (Hyes : banned) by (exists reply; split; [reflexivity|exact Hok]).
      fold unban. destruct (answer api unban) as [err|reply'] eqn:Eunban; simpl.
      * eexists; eexists. split; [reflexivity|]. simpl.
        split; [reflexivity|].
        split; [intros _; rewrite <- app_assoc; reflexivity|].
        split; [tauto|].
        split; [split; [discriminate|intros [_ (r & Hr)]; discriminate Hr]|].
        split; [discriminate|eauto].
      * eexists; eexists. split; [reflexivity|]. simpl.
        split; [reflexivity|].
        split; [intros _; rewrite <- app_assoc; reflexivity|].
        split; [tauto|].
        split; [split; [intros _; split; [exact Hyes|eauto]|reflexivity]|].
        split; [reflexivity|discriminate].
    + assert (Hno : ~ banned).
      { intros (r & Hr & Hk). injection Hr as <-. congruence. }
      eexists; eexists. split; [reflexivity|]. simpl.
      split; [reflexivity|]. split; [tauto|]. split; [reflexivity|].
      split; [split; [discriminate|tauto]|]. split; [discriminate|eauto].
Qed.

(** *** The order of a text column *)

Lemma ascii_compare_N (a b : ascii) :
  Ascii.compare a b = N.compare (N_of_ascii a) (N_of_ascii b).
Proof. reflexivity. Qed.

Lemma string_leb_trans (a b c : string) :
  String.leb a b = true -> String.leb b c = true -> String.leb a c = true.
Proof.
  unfold String.leb. revert b c.
  induction a as [|x a IH]; intros [|y b] [|z c]; simpl; try congruence.
  rewrite !ascii_compare_N.
  destruct (N.compare_spec (N_of_ascii x) (N_of_ascii y)) as [Exy|Lxy|Gxy];
    destruct (N.compare_spec (N_of_ascii y) (N_of_ascii z)) as [Eyz|Lyz|Gyz];
    destruct (N.compare_spec (N_of_ascii x) (N_of_ascii z)) as [Exz|Lxz|Gxz];
    try congruence; try lia; try (intros; reflexivity).
  apply IH.
Qed.

Lemma text_le_total (a b : option string) :
  text_le a b = true \/ text_le b a = true.
Proof.
  destruct a as [x|], b as [y|]; simpl; try tauto. apply String.leb_total.
Qed.

Lemma text_le_trans (a b c : option string) :
  text_le a b = true -> text_le b c = true -> text_le a c = true.
Proof.
  destruct a as [x|], b as [y|], c as [z|]; simpl; try congruence.
  apply string_leb_trans.
Qed.

Lemma In_insert_desc_by {A K : Type} (le : K -> K -> bool) (key : A -> K)
    (x y : A) (l : list A) :
  In y (insert_desc_by le key x l) <-> y = x \/ In y l.
Proof.
  induction l as [|z l IH]; simpl; [intuition|].
  destruct (le (key z) (key x)); simpl; [intuition|].
  rewrite IH. intuition.
Qed.

Lemma In_order_by_desc_by {A K : Type} (le : K -> K -> bool) (key : A -> K)
    (y : A) (l : list A) :
  In y (order_by_desc_by le key l) <-> In y l.
Proof.
  induction l as [|x l IH]; simpl; [reflexivity|].
  rewrite In_insert_desc_by, IH. intuition.
Qed.

(** The first row of [ORDER BY key DESC] has the greatest key. *)
Lemma head_order_by_desc_by {A K : Type} (le : K -> K -> bool) (key : A -> K)
    (x : A) (l : list A) :
  (forall a b, le a b = true \/ le b a = true) ->
  (forall a b c, le a b = true -> le b c = true -> le a c = true) ->
  List.head (order_by_desc_by le key l) = Some x ->
  In x l /\ forall y, In y l -> le (key y) (key x) = true.
Proof.
  intros Htotal Htrans. revert x.
  induction l as [|a l IH]; intros x; simpl; [discriminate|].
  destruct (order_by_desc_by le key l) as [|z sorted] eqn:E; simpl.
  - intros [= <-]. split; [left; reflexivity|].
    intros y [->|Hy]; [destruct (Htotal (key y) (key y)); assumption|].
    apply (In_order_by_desc_by le key) in Hy. rewrite E in Hy. destruct Hy.
  - specialize (IH z eq_refl). destruct IH as [Hz Hmax].
    destruct (le (key z) (key a)) eqn:Hle; simpl; intros [= <-].
    + split; [left; reflexivity|].
      intros y [->|Hy]; [destruct (Htotal (key y) (key y)); assumption|].
      exact (Htrans _ _ _ (Hmax y Hy) Hle).
    + split; [right; exact Hz|].
      intros y [->|Hy]; [|exact (Hmax y Hy)].
      destruct (Htotal (key y) (key z)) as [H|H]; [exact H|congruence].
Qed.

Lemma In_left_join (d : DB) (p q : Profile) (o : option ProfileSnapshot) :
  In (q, o) (left_join d p) <->
  q = p /\
  match o with
  | Some ps => In ps (profile_snapshots d) /\ s_profile_id ps = p_id p
  | None => forall ps, In ps (profile_snapshots d) -> s_profile_id ps <> p_id p
  end.
Proof.
  unfold left_join.
  destruct (List.filter _ (profile_snapshots d)) as [|ps0 rest] eqn:E.
  - simpl. split.
    + intros [[= <- <-]|[]]. split; [reflexivity|].
      intros ps Hps Hid.
      assert (Hin : In ps (List.filter
                             (fun ps => String.eqb (p_id p) (s_profile_id ps))
                             (profile_snapshots d))).
      { apply List.filter_In. split; [exact Hps|].
        apply String.eqb_eq. congruence. }
      rewrite E in Hin. destruct Hin.
    + intros [-> Ho]. destruct o as [ps|]; [|left; reflexivity].
      exfalso. destruct Ho as [Hps Hid].
      assert (Hin : In ps (List.filter
                             (fun ps => String.eqb (p_id p) (s_profile_id ps))
                             (profile_snapshots d))).
      { apply List.filter_In. split; [exact Hps|].
        apply String.eqb_eq. congruence. }
      rewrite E in Hin. destruct Hin.
  - rewrite <- E. rewrite in_map_iff. split.
    + intros (ps & [= <- <-] & Hin). apply List.filter_In in Hin.
      destruct Hin as [Hin Hid]. apply String.eqb_eq in Hid.
      split; [reflexivity|]. split; [exact Hin|congruence].
    + intros [-> Ho]. destruct o as [ps|].
      * exists ps. split; [reflexivity|]. apply List.filter_In.
        destruct Ho as [Hps Hid]. split; [exact Hps|].
        apply String.eqb_eq. congruence.
      * exfalso.
        assert (Hin : In ps0 (List.filter
                                (fun ps => String.eqb (p_id p) (s_profile_id ps))
                                (profile_snapshots d)))
          by (rewrite E; left; reflexivity).
        apply List.filter_In in Hin. destruct Hin as [Hin Hid].
        apply String.eqb_eq in Hid. apply (Ho ps0 Hin). congruence.
Qed.

(** The row that the bot reads for a user name. *)
Lemma profileWithSnapshot_spec (d : DB) (username : string) :
  let registered p :=
    In p (profiles d)
    /\ sql_lower (sql_replace_at (p_telegram_handle p)) = username in
  match profileWithSnapshot d username with
  | None => forall p, ~ registered p
  | Some (p, Some ps) =>
      registered p /\ In ps (profile_snapshots d) /\ s_profile_id ps = p_id p /\
      forall p' ps',
        registered p' -> In ps' (profile_snapshots d) ->
        s_profile_id ps' = p_id p' ->
        String.leb (s_run_id ps') (s_run_id ps) = true
  | Some (p, None) =>
      registered p /\
      forall p' ps',
        registered p' -> In ps' (profile_snapshots d) ->
        s_profile_id ps' <> p_id p'
  end.
Proof.
  intros registered. unfold profileWithSnapshot.
  set (rows := flat_map (left_join d) _).
  assert (Hrows : forall q o, In (q, o) rows <->
            registered q /\
            match o with
            | Some ps => In ps (profile_snapshots d) /\ s_profile_id ps = p_id q
            | None => forall ps, In ps (profile_snapshots d) ->
                                 s_profile_id ps <> p_id q
            end).
  { intros q o. unfold rows. rewrite in_flat_map. split.
    - intros (p & Hp & Hin). apply In_left_join in Hin. destruct Hin as [-> Ho].
      apply List.filter_In in Hp. destruct Hp as [Hp Hm].
      apply String.eqb_eq in Hm. split; [split; assumption|exact Ho].
    - intros [[Hq Hm] Ho]. exists q. split.
      + apply List.filter_In. split; [exact Hq|]. apply String.eqb_eq. exact Hm.
      + apply In_left_join. split; [reflexivity|exact Ho]. }
  destruct (List.head _) as [[p o]|] eqn:E.
  - apply (head_order_by_desc_by text_le) in E;
      [|exact text_le_total|exact text_le_trans].
    destruct E as [Hin Hmax]. apply Hrows in Hin. destruct Hin as [Hreg Ho].
    destruct o as [ps|].
    + destruct Ho as [Hps Hid]. split; [exact Hreg|]. split; [exact Hps|].
      split; [exact Hid|]. intros p' ps' Hreg' Hps' Hid'.
      apply (Hmax (p', Some ps')). apply Hrows. split; [exact Hreg'|].
      split; assumption.
    + split; [exact Hreg|]. intros p' ps' Hreg' Hps' Hid'.
      specialize (Hmax (p', Some ps')). simpl in Hmax.
      assert (Hc : false = true); [|discriminate Hc].
      apply Hmax. apply Hrows. split; [exact Hreg'|]. split; assumption.
  - intros p Hreg.
    assert (Hex : exists o, In (p, o) rows).
    { destruct (List.filter (fun ps => String.eqb (p_id p) (s_profile_id ps))
                  (profile_snapshots d)) as [|ps rest] eqn:Ef.
      - exists None. apply Hrows. split; [exact Hreg|].
        intros ps Hps Hid.
        assert (Hin : In ps (List.filter
                               (fun ps => String.eqb (p_id p) (s_profile_id ps))
                               (profile_snapshots d))).
        { apply List.filter_In. split; [exact Hps|].
          apply String.eqb_eq. congruence. }
        rewrite Ef in Hin. destruct Hin.
      - exists (Some ps). apply Hrows. split; [exact Hreg|].
        assert (Hin : In ps (List.filter
                               (fun ps => String.eqb (p_id p) (s_profile_id ps))
                               (profile_snapshots d)))
          by (rewrite Ef; left; reflexivity).
        apply List.filter_In in Hin. destruct Hin as [Hin Hid].
        apply String.eqb_eq in Hid. split; [exact Hin|congruence]. }
    destruct Hex as (o & Hin).
    apply (In_order_by_desc_by text_le (fun row => s_run_id <$> snd row)) in Hin.
    destruct (order_by_desc_by _ _ rows); [destruct Hin|discriminate E].
Qed.

Lemma declineChatJoinRequest_run (api : Api) (botToken chatId : string)
    (userId : Z) (st : State) :
  exists result,
    declineChatJoinRequest api botToken chatId userId st =
      (inr result,
       mkState (base st)
         (calls st ++ [DeclineChatJoinRequest botToken chatId userId])).
Proof.
  unfold declineChatJoinRequest. brun.
  destruct (answer api _); eexists; reflexivity.
Qed.

Lemma approveChatJoinRequest_run (api : Api) (botToken chatId : string)
    (userId : Z) (st : State) :
  exists result,
    approveChatJoinRequest api botToken chatId userId st =
      (inr result,
       mkState (base st)
         (calls st ++ [ApproveChatJoinRequest botToken chatId userId])) /\
    (api_success result = true <->
     exists reply,
       answer api (ApproveChatJoinRequest botToken chatId userId) = inr reply
       /\ a_ok reply = true).
Proof.
  unfold approveChatJoinRequest. brun.
  destruct (answer api _) as [err|reply]; simpl.
  - eexists. split; [reflexivity|]. simpl.
    split; [discriminate|intros (r & Hr & _); discriminate Hr].
  - eexists. split; [reflexivity|]. simpl. split.
    + intros Hok. exists reply. split; [reflexivity|exact Hok].
    + intros (r & [= <-] & Hok). exact Hok.
Qed.

(** X19. A join request is answered with exactly one call, an approval or a
    refusal, and the store is not touched.  It is approved exactly when the
    user has a name, a profile is registered under that name (letter case
    and [@] signs apart) and, among the snapshots of the profiles registered
    under it, the one the bot reads is flagged eligible; that snapshot is one
    whose run id is greatest as a text, whatever the status or the start time
    of that run.  An approval is followed by one welcome message, sent
    whether or not the approval was accepted; a refusal sends no message. *)
Theorem join_request_decision (api : Api) (host : Host) (env : Env)
    (request : ChatJoinRequest) (st : State) :
  let d := db (base st) in
  let token := TELEGRAM_BOT_TOKEN env in
  let chat := Js.toString (chat_id request) in
  let approve := ApproveChatJoinRequest token chat (from_id request) in
  let decline := DeclineChatJoinRequest token chat (from_id request) in
  let registered username p :=
    In p (profiles d)
    /\ sql_lower (sql_replace_at (p_telegram_handle p)) = username in
  exists st',
    handleJoinRequest api host env request st = (inr tt, st') /\
    db (base st') = d /\
    ((calls st' = calls st ++ [approve] /\
      exists name p ps,
        from_username request = Some name /\ toLowerCase name <> "" /\
        trace (base st')
        = trace (base st) ++ [TelegramPost token chat (welcome (toLowerCase name))] /\
        registered (toLowerCase name) p /\
        In ps (profile_snapshots d) /\ s_profile_id ps = p_id p /\
        s_eligible ps = 1 /\
        forall p' ps',
          registered (toLowerCase name) p' -> In ps' (profile_snapshots d) ->
          s_profile_id ps' = p_id p' ->
          String.leb (s_run_id ps') (s_run_id ps) = true)
     \/
     (calls st' = calls st ++ [decline] /\
      trace (base st') = trace (base st) /\
      (from_username request = None
       \/ exists name,
            from_username request = Some name /\
            (toLowerCase name = ""
             \/ (forall p, ~ registered (toLowerCase name) p)
             \/ (forall p' ps',
                   registered (toLowerCase name) p' ->
                   In ps' (profile_snapshots d) ->
                   s_profile_id ps' <> p_id p')
             \/ exists p ps,
                  registered (toLowerCase name) p /\
                  In ps (profile_snapshots d) /\ s_profile_id ps = p_id p /\
                  s_eligible ps <> 1 /\
                  forall p' ps',
                    registered (toLowerCase name) p' ->
                    In ps' (profile_snapshots d) ->
                    s_profile_id ps' = p_id p' ->
                    String.leb (s_run_id ps') (s_run_id ps) = true)))).
Proof.
  intros d token chat approve decline registered.
  unfold handleJoinRequest. fold token chat.
  destruct (from_username request) as [name|] eqn:Ename; simpl.
  - destruct (toLowerCase name) as [|c username] eqn:Elower.
    + unfold BotRt.bind.
      destruct (declineChatJoinRequest_run api token chat (from_id request) st)
        as (result & ->).
      eexists. split; [reflexivity|]. split; [reflexivity|]. right.
      split; [reflexivity|]. split; [reflexivity|]. right. exists name.
      split; [reflexivity|]. left. exact Elower.
    + unfold BotRt.bind at 1. unfold BotRt.run at 1, query. cbn [base calls].
      pose proof (profileWithSnapshot_spec (db (base st)) (String c username))
        as Hspec.
      destruct (profileWithSnapshot (db (base st)) (String c username))
        as [[p [ps|]]|] eqn:Erow; cbn [snd].
      * destruct Hspec as (Hreg & Hps & Hid & Hmax).
        destruct (Z.eqb_spec (s_eligible ps) 1) as [Hel|Hnot].
        -- unfold BotRt.bind.
           destruct (approveChatJoinRequest_run api token chat (from_id request)
                       (mkState (base st) (calls st)))
             as (result & -> & _).
           unfold BotRt.run. cbn [base calls].
           destruct (sendTelegramMessage_run host token chat
                       (welcome (String c username)) (base st))
             as (sent & -> & _).
           eexists. split; [reflexivity|]. split; [reflexivity|]. left.
           split; [reflexivity|]. exists name, p, ps.
           rewrite Elower. split; [reflexivity|]. split; [discriminate|].
           repeat split; try assumption; apply Hreg.
        -- unfold BotRt.bind.
           destruct (declineChatJoinRequest_run api token chat (from_id request)
                       (mkState (base st) (calls st)))
             as (result & ->).
           eexists. split; [reflexivity|]. split; [reflexivity|]. right.
           split; [reflexivity|]. split; [reflexivity|]. right. exists name.
           split; [reflexivity|]. right. right. right. exists p, ps.
           rewrite Elower. repeat split; try assumption; apply Hreg.
      * destruct Hspec as (Hreg & Hnone).
        unfold BotRt.bind.
        destruct (declineChatJoinRequest_run api token chat (from_id request)
                    (mkState (base st) (calls st)))
          as (result & ->).
        eexists. split; [reflexivity|]. split; [reflexivity|]. right.
        split; [reflexivity|]. split; [reflexivity|]. right. exists name.
        split; [reflexivity|]. right. right. left.
        rewrite Elower. exact Hnone.
      * unfold BotRt.bind.
        destruct (declineChatJoinRequest_run api token chat (from_id request)
                    (mkState (base st) (calls st)))
          as (result & ->).
        eexists. split; [reflexivity|]. split; [reflexivity|]. right.
        split; [reflexivity|]. split; [reflexivity|]. right. exists name.
        split; [reflexivity|]. right. left.
        rewrite Elower. exact Hspec.
  - unfold BotRt.bind.
    destruct (declineChatJoinRequest_run api token chat (from_id request) st)
      as (result & ->).
    eexists. split; [reflexivity|]. split; [reflexivity|]. right.
    split; [reflexivity|]. split; [reflexivity|]. left. reflexivity.
Qed.

(** In the store [stale] the latest successful run found the profile below
    the threshold, yet the join request is approved: the bot reads the
    snapshot of [b-run], whose id is the greater text. *)
Lemma join_request_decision_witness :
  exists st',
    handleJoinRequest Scenario.accepting Demo.host Demo.env
      (mkChatJoinRequest (-100) 7 (Some "Alice"))
      (mkState (mkWorld Scenario.stale 0 []) []) = (inr tt, st') /\
    calls st' = [ApproveChatJoinRequest "bot-token" "-100" 7] /\
    (s_eligible <$> Accounts.getLatestSnapshotForProfile Scenario.stale "A")
    = Some 0.
Proof.
  destruct (join_request_decision Scenario.accepting Demo.host Demo.env
              (mkChatJoinRequest (-100) 7 (Some "Alice"))
              (mkState (mkWorld Scenario.stale 0 []) []))
    as (st' & Hrun & _ & Hcase).
  exists st'. split; [exact Hrun|]. split; [|reflexivity].
  destruct Hcase as [[Hcalls _]|[Hcalls _]]; [exact Hcalls|].
  vm_compute in Hrun. injection Hrun as <-. discriminate Hcalls.
Defined.

End BotFacts.

(* ===================================================================== *)
(** ** Routes and triggers *)
(* ===================================================================== *)

Module RouteFacts.
Import Db Rt Screening Ref Text Accounts Routes ChogFacts ScreeningFacts.



Lemma find_map_same {A : Type} (f : A -> A) (test : A -> bool) (l : list A) :
  (forall x, test (f x) = test x) ->
  List.find test (List.map f l) = f <$> List.find test l.
Proof.
  intros H. induction l as [|x l IH]; simpl; [reflexivity|].
  rewrite H. destruct (test x); [reflexivity|exact IH].
Qed.

Lemma getProfileById_id (d : DB) (id : string) (profile : Profile) :
  getProfileById d id = Some profile -> p_id profile = id.
Proof.
  unfold getProfileById. intros H. apply List.find_some in H.
  destruct H as [_ H]. apply String.eqb_eq. exact H.
Qed.

(** The wallet behind an answer of [getProfileByWalletAddress]. *)
Lemma getProfileByWalletAddress_wallet (d : DB) (address : string)
    (profile : Profile) :
  getProfileByWalletAddress d address = Some profile ->
  getProfileById d (p_id profile) = Some profile /\
  exists row,
    In row (wallets d) /\ w_profile_id row = p_id profile /\
    sql_lower (w_address row) = toLowerCase address.
Proof.
  unfold getProfileByWalletAddress.
  destruct (List.find _ (wallets d)) as [row|] eqn:E; [|discriminate].
  intros Hp. pose proof (getProfileById_id _ _ _ Hp) as Hid.
  rewrite Hid. split; [exact Hp|].
  apply List.find_some in E. destruct E as [Hin Hm].
  apply String.eqb_eq in Hm. exists row. repeat split; assumption.
Qed.

Lemma deleted_some (profileId normalized : string) (l : list Wallet) :
  (0 <? Z.of_nat (List.length (List.filter (deleted_row profileId normalized) l)))
  = true <->
  exists row, In row l /\ w_profile_id row = profileId
              /\ sql_lower (w_address row) = normalized.
Proof.
  rewrite Z.ltb_lt. split.
  - intros Hpos. destruct (List.filter _ l) as [|row rest] eqn:E;
      [simpl in Hpos; lia|].
    assert (Hin : In row (List.filter (deleted_row profileId normalized) l))
      by (rewrite E; left; reflexivity).
    apply List.filter_In in Hin. destruct Hin as [Hin Hhit].
    unfold deleted_row in Hhit. apply andb_true_iff in Hhit.
    rewrite !String.eqb_eq in Hhit. exists row. tauto.
  - intros (row & Hin & Hp & Ha).
    assert (Hf : In row (List.filter (deleted_row profileId normalized) l)).
    { apply List.filter_In. split; [exact Hin|]. unfold deleted_row.
      apply andb_true_iff. rewrite !String.eqb_eq. tauto. }
    destruct (List.filter _ l); [destruct Hf|simpl; lia].
Qed.

Lemma recover_run (crypto : Crypto) (host : Host) (address : string)
    (w : World) (profile : Profile) :
  address <> "" ->
  getProfileByWalletAddress (db w) address = Some profile ->
  let secret := generateSecret crypto (steps w) in
  let d1 :=
    with_profiles (db w)
      (List.map
         (set_edit_secret (hashSecret crypto secret)
            (date_now host (S (steps w))) (p_id profile))
         (profiles (db w))) in
  recover crypto host address w =
    (inr (Json 200
            (Recovered (p_id profile) (p_telegram_handle profile) secret
               (getWalletsByProfile d1 (p_id profile))
               (getLatestSnapshotForProfile d1 (p_id profile)))),
     mkWorld d1 (S (S (steps w))) (trace w)).
Proof.
  intros Haddr Hp secret d1. unfold recover.
  destruct address as [|c address]; [contradiction|].
  unfold updateProfileEditSecret. run. rewrite Hp. reflexivity.
Qed.

(** X21. [POST /recover] asks for nothing but an address.  For an address
    that is linked it answers 200 with a fresh edit secret, and from then on
    that secret is the one that verifies against the profile: the stored hash
    is the hash of the secret handed out, and a secret verifies only if it
    has that hash.  The handle, the wallets, the runs and the snapshots are
    untouched and nothing is sent. *)
Theorem recover_hands_out_secret (crypto : Crypto) (host : Host)
    (address : string) (w : World) (profile : Profile) :
  address <> "" ->
  getProfileByWalletAddress (db w) address = Some profile ->
  let secret := generateSecret crypto (steps w) in
  exists w' linked snapshot profile',
    recover crypto host address w =
      (inr (Json 200
              (Recovered (p_id profile) (p_telegram_handle profile) secret
                 linked snapshot)),
       w') /\
    getProfileById (db w') (p_id profile) = Some profile' /\
    p_edit_secret_hash profile' = hashSecret crypto secret /\
    verifySecret crypto secret (p_edit_secret_hash profile') = true /\
    (forall other,
        verifySecret crypto other (p_edit_secret_hash profile') = true <->
        hashSecret crypto other = hashSecret crypto secret) /\
    p_telegram_handle profile' = p_telegram_handle profile /\
    wallets (db w') = wallets (db w) /\
    screening_runs (db w') = screening_runs (db w) /\
    profile_snapshots (db w') = profile_snapshots (db w) /\
    trace w' = trace w.
Proof.
  intros Haddr Hp secret.
  rewrite (recover_run crypto host address w profile Haddr Hp).
  destruct (getProfileByWalletAddress_wallet _ _ _ Hp) as [Hid _].
  eexists; eexists; eexists; eexists. split; [reflexivity|].
  cbn [db trace]. unfold with_profiles.
  cbn [profiles wallets screening_runs profile_snapshots].
  split.
  - unfold getProfileById in *. cbn [profiles].
    rewrite find_map_same.
    + rewrite Hid. reflexivity.
    + intros p. unfold set_edit_secret.
      destruct (String.eqb (p_id p) (p_id profile)) eqn:E; cbn [p_id]; exact E.
  - unfold set_edit_secret. rewrite String.eqb_refl. cbn [p_edit_secret_hash
      p_telegram_handle]. unfold verifySecret.
    split; [reflexivity|]. split; [apply String.eqb_refl|].
    split; [intros other; apply String.eqb_eq|].
    repeat split.
Qed.

Lemma recover_hands_out_secret_witness :
  exists w' linked snapshot,
    recover Scenario.crypto
      Demo.host "0xA" Demo.world =
      (inr (Json 200 (Recovered "A" "@alice" "secret-0" linked snapshot)), w') /\
    (p_edit_secret_hash <$> getProfileById (db w') "A") = Some "sha:secret-0".
Proof.
  destruct (recover_hands_out_secret
              Scenario.crypto
              Demo.host "0xA" Demo.world (mkProfile "A" "@alice" "h" 1 1))
    as (w' & linked & snapshot & profile' & Hrun & Hfound & Hhash & _).
  - discriminate.
  - reflexivity.
  - exists w', linked, snapshot. split; [exact Hrun|].
    simpl in Hfound. rewrite Hfound. simpl. rewrite Hhash. reflexivity.
Defined.

(** X22. [POST /unlink] answers 200 exactly when all three fields are
    given, the profile exists, the secret hashes to the profile's stored hash
    and the profile owns a wallet with the address, letter case apart.  Then
    exactly those wallet rows are gone and the body is [{ success: true }].
    In every other case the answer is 400, 404 or 403 and the store is as it
    was.  Nothing is ever sent. *)
Theorem unlink_authorised (crypto : Crypto)
    (profile_id edit_secret address : string) (w : World) :
  let mine row :=
    w_profile_id row = profile_id
    /\ sql_lower (w_address row) = toLowerCase address in
  exists response w',
    unlink crypto profile_id edit_secret address w = (inr response, w') /\
    steps w' = steps w /\ trace w' = trace w /\
    (code response = 200 <->
     profile_id <> "" /\ edit_secret <> "" /\ address <> "" /\
     (exists profile,
         getProfileById (db w) profile_id = Some profile /\
         hashSecret crypto edit_secret = p_edit_secret_hash profile) /\
     exists row, In row (wallets (db w)) /\ mine row) /\
    (code response = 200 ->
     body response = Success /\
     forall row, In row (wallets (db w')) <->
                 In row (wallets (db w)) /\ ~ mine row) /\
    (code response <> 200 ->
     w' = w /\
     (code response = 400 \/ code response = 403 \/ code response = 404) /\
     exists error, body response = Failure error).
Proof.
  intros mine.
  assert (Hbad : forall status error,
            status <> 200 ->
            (status = 400 \/ status = 403 \/ status = 404) ->
            ~ (profile_id <> "" /\ edit_secret <> "" /\ address <> "" /\
               (exists profile,
                   getProfileById (db w) profile_id = Some profile /\
                   hashSecret crypto edit_secret = p_edit_secret_hash profile) /\
               exists row, In row (wallets (db w)) /\ mine row) ->
            exists response w',
              (inr (Json status (Failure error)) : Js.exn + Response, w)
              = (inr response, w') /\
              steps w' = steps w /\ trace w' = trace w /\
              (code response = 200 <->
               profile_id <> "" /\ edit_secret <> "" /\ address <> "" /\
               (exists profile,
                   getProfileById (db w) profile_id = Some profile /\
                   hashSecret crypto edit_secret = p_edit_secret_hash profile) /\
               exists row, In row (wallets (db w)) /\ mine row) /\
              (code response = 200 ->
               body response = Success /\
               forall row, In row (wallets (db w')) <->
                           In row (wallets (db w)) /\ ~ mine row) /\
              (code response <> 200 ->
               w' = w /\
               (code response = 400 \/ code response = 403 \/ code response = 404) /\
               exists error, body response = Failure error)).
  { intros status error Hne Hcodes Hno.
    eexists; eexists. split; [reflexivity|]. cbn [code body].
    split; [reflexivity|]. split; [reflexivity|].
    split; [split; [intros E; contradiction|intros H; destruct (Hno H)]|].
    split; [intros E; contradiction|].
    intros _. split; [reflexivity|]. split; [exact Hcodes|eauto]. }
  unfold unlink.
  destruct profile_id as [|c0 id0];
    [apply Hbad; [discriminate|tauto|intros (H & _); apply H; reflexivity]|].
  destruct edit_secret as [|c1 s1];
    [apply Hbad; [discriminate|tauto|intros (_ & H & _); apply H; reflexivity]|].
  destruct address as [|c2 a2];
    [apply Hbad; [discriminate|tauto|intros (_ & _ & H & _); apply H; reflexivity]|].
  unfold bind at 1. unfold query at 1.
  destruct (getProfileById (db w) (String c0 id0)) as [profile|] eqn:Eprofile.
  - unfold verifySecret.
    destruct (String.eqb_spec (hashSecret crypto (String c1 s1))
                (p_edit_secret_hash profile)) as [Hhash|Hhash]; cbn [negb].
    + unfold deleteWallet, bind, query, exec, ret. cbv beta iota zeta.
      cbn [db steps trace].
      destruct (0 <? Z.of_nat _) eqn:Edel; cbn [negb].
      * apply deleted_some in Edel.
        eexists; eexists. split; [reflexivity|]. cbn [code body steps trace db].
        split; [reflexivity|]. split; [reflexivity|].
        split; [split; [intros _|reflexivity]|].
        { split; [discriminate|]. split; [discriminate|]. split; [discriminate|].
          split; [exists profile; split; [reflexivity|exact Hhash]|exact Edel]. }
        split; [|intros E; contradiction].
        intros _. split; [reflexivity|].
        intros row. unfold with_wallets. cbn [wallets].
        rewrite List.filter_In, negb_true_iff. unfold deleted_row, mine.
        destruct (String.eqb_spec (w_profile_id row) (String c0 id0));
          destruct (String.eqb_spec (sql_lower (w_address row))
                      (toLowerCase (String c2 a2)));
          cbn [andb]; intuition congruence.
      * assert (Hnone : ~ exists row, In row (wallets (db w)) /\ mine row).
        { intros H. apply deleted_some in H. unfold mine in *. congruence. }
        assert (Hsame : List.filter
                          (fun w0 => negb (deleted_row (String c0 id0)
                                             (toLowerCase (String c2 a2)) w0))
                          (wallets (db w)) = wallets (db w)).
        { apply AccountFacts.filter_all. intros row Hin. apply negb_true_iff.
          destruct (deleted_row (String c0 id0) (toLowerCase (String c2 a2)) row)
            eqn:E; [|reflexivity].
          exfalso. apply Hnone. exists row. split; [exact Hin|].
          unfold deleted_row in E. apply andb_true_iff in E.
          rewrite !String.eqb_eq in E. exact E. }
        rewrite Hsame. unfold with_wallets. rewrite AccountFacts.db_eta.
        replace (mkWorld (db w) (steps w) (trace w)) with w
          by (destruct w; reflexivity).
        apply Hbad; [discriminate|tauto|]. intros (_ & _ & _ & _ & H).
        exact (Hnone H).
    + apply Hbad; [discriminate|tauto|].
      intros (_ & _ & _ & (p & [= <-] & Hh) & _). contradiction.
  - apply Hbad; [discriminate|tauto|].
    intros (_ & _ & _ & (p & Hp & _) & _). discriminate Hp.
Qed.

(** X23. Whoever knows an address that is linked can remove it: the secret
    that [POST /recover] hands out for the address is accepted by
    [POST /unlink] for the profile that owns it, and after the two requests
    the profile has no wallet with that address. *)
Theorem recovered_secret_unlinks (crypto : Crypto) (host : Host)
    (address : string) (w : World) (profile : Profile) :
  address <> "" ->
  getProfileByWalletAddress (db w) address = Some profile ->
  p_id profile <> "" ->
  generateSecret crypto (steps w) <> "" ->
  exists secret linked snapshot w1 w2,
    recover crypto host address w =
      (inr (Json 200
              (Recovered (p_id profile) (p_telegram_handle profile) secret
                 linked snapshot)),
       w1) /\
    unlink crypto (p_id profile) secret address w1
    = (inr (Json 200 Success), w2) /\
    (exists row, In row (wallets (db w)) /\ w_profile_id row = p_id profile
                 /\ sql_lower (w_address row) = toLowerCase address) /\
    (forall row, In row (wallets (db w2)) ->
                 ~ (w_profile_id row = p_id profile
                    /\ sql_lower (w_address row) = toLowerCase address)).
Proof.
  intros Haddr Hp Hid Hsecret.
  rewrite (recover_run crypto host address w profile Haddr Hp).
  destruct (getProfileByWalletAddress_wallet _ _ _ Hp) as [Hfind Hrow].
  destruct (p_id profile) as [|c0 id0] eqn:Eid; [contradiction|].
  destruct (generateSecret crypto (steps w)) as [|c1 s1] eqn:Esecret;
    [contradiction|].
  destruct address as [|c2 a2]; [contradiction|].
  eexists; eexists; eexists; eexists; eexists. split; [reflexivity|].
  unfold unlink.
  unfold bind at 1. unfold query at 1. cbn [db].
  assert (Hfound : getProfileById
                     (with_profiles (db w)
                        (List.map
                           (set_edit_secret (hashSecret crypto (String c1 s1))
                              (date_now host (S (steps w))) (String c0 id0))
                           (profiles (db w))))
                     (String c0 id0)
                   = Some (set_edit_secret (hashSecret crypto (String c1 s1))
                             (date_now host (S (steps w))) (String c0 id0)
                             profile)).
  { unfold getProfileById in *. unfold with_profiles. cbn [profiles].
    rewrite find_map_same.
    - rewrite Hfind. reflexivity.
    - intros p. unfold set_edit_secret.
      destruct (String.eqb (p_id p) (String c0 id0)) eqn:E; cbn [p_id]; exact E. }
  rewrite Hfound. unfold set_edit_secret at 1. rewrite Eid, String.eqb_refl.
  cbn [p_edit_secret_hash]. unfold verifySecret. rewrite String.eqb_refl.
  cbn [negb]. unfold deleteWallet, bind, query, exec, ret. cbv beta iota zeta.
  cbn [db steps trace].
  assert (Hdel : (0 <? Z.of_nat
                        (List.length
                           (List.filter
                              (deleted_row (String c0 id0)
                                 (toLowerCase (String c2 a2)))
                              (wallets (db w))))) = true)
    by (apply deleted_some; exact Hrow).
  unfold with_profiles at 1. cbn [wallets]. rewrite Hdel. cbn [negb].
  split; [reflexivity|]. split; [exact Hrow|].
  intros row. unfold with_wallets, with_profiles. cbn [db wallets].
  rewrite List.filter_In, negb_true_iff. unfold deleted_row.
  intros [_ Hkeep] [H1 H2]. rewrite H1, H2, !String.eqb_refl in Hkeep.
  discriminate Hkeep.
Qed.

Lemma recovered_secret_unlinks_witness :
  exists secret linked snapshot w1 w2,
    recover Scenario.crypto
      Demo.host "0xA" Demo.world =
      (inr (Json 200 (Recovered "A" "@alice" secret linked snapshot)), w1) /\
    unlink Scenario.crypto
      "A" secret "0xA" w1 = (inr (Json 200 Success), w2) /\
    List.map w_id (wallets (db w2)) = ["wb"; "wc"; "wx"; "wd"].
Proof.
  destruct (recovered_secret_unlinks
              Scenario.crypto
              Demo.host "0xA" Demo.world (mkProfile "A" "@alice" "h" 1 1))
    as (secret & linked & snapshot & w1 & w2 & Hrec & Hun & _).
  - discriminate.
  - reflexivity.
  - discriminate.
  - discriminate.
  - exists secret, linked, snapshot, w1, w2.
    split; [exact Hrec|]. split; [exact Hun|].
    pose proof Hrec as Hc. vm_compute in Hc. injection Hc as <- <- <- <-.
    pose proof Hun as Hc. vm_compute in Hc. injection Hc as <-. reflexivity.
Defined.

Lemma find_filter {A : Type} (test keep : A -> bool) (l : list A) :
  (forall x, test x = true -> keep x = true) ->
  List.find test (List.filter keep l) = List.find test l.
Proof.
  intros H. induction l as [|x l IH]; simpl; [reflexivity|].
  destruct (test x) eqn:Et.
  - rewrite (H x Et). simpl. rewrite Et. reflexivity.
  - destruct (keep x); simpl; [rewrite Et|]; exact IH.
Qed.

Lemma replace_setting_same (key value : string) (d : DB) :
  select_setting (replace_setting key value d) key = Some value.
Proof.
  unfold select_setting, replace_setting, with_settings. cbn [settings].
  rewrite AccountFacts.find_last, AccountFacts.find_absent.
  - cbn [fst]. rewrite String.eqb_refl. reflexivity.
  - intros kv Hin. apply List.filter_In in Hin. destruct Hin as [_ Hne].
    apply negb_true_iff in Hne. exact Hne.
Qed.

Lemma replace_setting_other (key value other : string) (d : DB) :
  other <> key ->
  select_setting (replace_setting key value d) other = select_setting d other.
Proof.
  intros Hne. unfold select_setting, replace_setting, with_settings.
  cbn [settings]. rewrite AccountFacts.find_last. cbn [fst].
  destruct (String.eqb_spec key other) as [E|_]; [congruence|].
  rewrite find_filter.
  - destruct (List.find _ (settings d)); reflexivity.
  - intros kv Ht. apply String.eqb_eq in Ht. apply negb_true_iff.
    apply String.eqb_neq. congruence.
Qed.

(** X24. [PUT /settings/:key] saves a value exactly when the value is not
    empty and the key is one of the eight known keys; nothing about the
    value itself is checked.  After a save the setting reads back as the
    value that was sent, every other setting reads as before and no other
    table has changed.  Otherwise the answer is 400 and the store is as it
    was. *)
Theorem setting_saved (key value : string) (w : World) :
  exists response w',
    putSetting key value w = (inr response, w') /\
    steps w' = steps w /\ trace w' = trace w /\
    (code response = 200 <-> value <> "" /\ In key allowedSettings) /\
    (code response = 200 ->
     body response = Saved key value /\
     select_setting (db w') key = Some value /\
     (forall other, other <> key ->
                    select_setting (db w') other = select_setting (db w) other) /\
     with_settings (db w') (settings (db w)) = db w) /\
    (code response <> 200 -> code response = 400 /\ w' = w).
Proof.
  unfold putSetting. destruct value as [|c value].
  - eexists; eexists. split; [reflexivity|]. cbn [code body].
    split; [reflexivity|]. split; [reflexivity|].
    split; [split; [discriminate|intros [H _]; contradiction]|].
    split; [discriminate|]. intros _. split; reflexivity.
  - destruct (existsb (String.eqb key) allowedSettings) eqn:Eallowed; cbn [negb].
    + assert (Hin : In key allowedSettings).
      { apply existsb_exists in Eallowed. destruct Eallowed as (k & Hk & E).
        apply String.eqb_eq in E. subst k. exact Hk. }
      unfold bind, exec, ret. eexists; eexists. split; [reflexivity|].
      cbn [code body db steps trace].
      split; [reflexivity|]. split; [reflexivity|].
      split; [split; [intros _; split; [discriminate|exact Hin]|reflexivity]|].
      split; [|intros H; contradiction].
      intros _. split; [reflexivity|].
      split; [apply replace_setting_same|].
      split; [intros other Hne; apply replace_setting_other; exact Hne|].
      unfold replace_setting, with_settings. cbn. apply AccountFacts.db_eta.
    + eexists; eexists. split; [reflexivity|]. cbn [code body].
      split; [reflexivity|]. split; [reflexivity|].
      split; [split; [discriminate|]|].
      * intros [_ Hin]. exfalso.
        assert (Hc : existsb (String.eqb key) allowedSettings = true).
        { apply existsb_exists. exists key. split; [exact Hin|].
          apply String.eqb_refl. }
        congruence.
      * split; [discriminate|]. intros _. split; reflexivity.
Qed.

(** X25. The threshold is saved unchecked, and a threshold that does not
    read as an integer makes the runs fail: once such a value is saved, a
    manual run with at least one profile to evaluate ends in [error] with
    the text of the conversion failure, and writes no snapshot. *)
Theorem unchecked_threshold_fails_runs (host : Host) (env : Env)
    (value : string) (w : World) :
  value <> "" ->
  Js.BigInt value = None ->
  getAllProfilesWithWallets (db w) <> [] ->
  exists w1 res w2,
    putSetting "eligibility_threshold_raw" value w
    = (inr (Json 200 (Saved "eligibility_threshold_raw" value)), w1) /\
    runNow host env w1 = (inr (Json 200 (RunNow res)), w2) /\
    status res = RunError /\
    error res = Some ("Cannot convert " +:+ value +:+ " to a BigInt") /\
    profile_snapshots (db w2) = profile_snapshots (db w).
Proof.
  intros Hvalue Hbad Hps.
  unfold putSetting. destruct value as [|c value]; [contradiction|].
  cbn [existsb allowedSettings String.eqb Ascii.eqb Bool.eqb orb negb].
  unfold bind at 1. unfold exec at 1. unfold ret at 1.
  set (w1 := mkWorld (replace_setting "eligibility_threshold_raw"
                        (String c value) (db w)) (steps w) (trace w)).
  assert (Hthr : thresholdOf (db w1) = String c value).
  { unfold thresholdOf, w1. cbn [db]. rewrite replace_setting_same.
    reflexivity. }
  assert (Hsame : getAllProfilesWithWallets (db (inserted host w1))
                  = getAllProfilesWithWallets (db w)).
  { rewrite getAllProfilesWithWallets_inserted. unfold w1. cbn [db].
    unfold getAllProfilesWithWallets.
    rewrite (profilesWithWallets_wallets (db w)
               (replace_setting "eligibility_threshold_raw" (String c value)
                  (db w))); reflexivity. }
  destruct (getAllProfilesWithWallets (db w)) as [|profile rest] eqn:Eps;
    [contradiction|].
  destruct (runScreening_run host env true w1) as (gate & Hg & Hrun).
  destruct (intervalGate_run true (date_now host (S (steps w1)))
              (mkWorld (db w1) (S (S (steps w1))) (trace w1)))
    as (gate' & Hg' & Hforced & _).
  rewrite Hg in Hg'. injection Hg' as <-. rewrite (Hforced eq_refl) in Hrun.
  change (mkWorld _ _ (trace w1 ++ _)) with (inserted host w1) in Hrun.
  assert (Hbad1 : Js.BigInt (thresholdOf (db (inserted host w1))) = None).
  { change (thresholdOf (db (inserted host w1))) with (thresholdOf (db w1)).
    rewrite Hthr. exact Hbad. }
  pose proof (screen_bad host env (randomUUID host (steps w1))
                (inserted host w1) profile rest Hsame Hbad1) as Hscreen.
  rewrite Hscreen in Hrun.
  exists w1. eexists; eexists. split; [reflexivity|].
  unfold runNow, try_catch, bind. rewrite Hrun.
  split; [reflexivity|]. cbn [status error].
  split; [reflexivity|].
  change (thresholdOf (db (inserted host w1))) with (thresholdOf (db w1)).
  rewrite Hthr. split; reflexivity.
Qed.

Lemma unchecked_threshold_fails_runs_witness :
  exists w1 res w2,
    putSetting "eligibility_threshold_raw" "1e24" Demo.world
    = (inr (Json 200 (Saved "eligibility_threshold_raw" "1e24")), w1) /\
    runNow Demo.host Demo.env w1 = (inr (Json 200 (RunNow res)), w2) /\
    error res = Some "Cannot convert 1e24 to a BigInt".
Proof.
  destruct (unchecked_threshold_fails_runs Demo.host Demo.env "1e24" Demo.world)
    as (w1 & res & w2 & Hput & Hrun & _ & Herr & _).
  - discriminate.
  - reflexivity.
  - vm_compute. discriminate.
  - exists w1, res, w2. split; [exact Hput|]. split; [exact Hrun|exact Herr].
Defined.

End RouteFacts.

(* ===================================================================== *)
(** ** One run after another *)
(* ===================================================================== *)

Module SequenceFacts.
Import Db Rt Chog Screening Ref ChogFacts ScreeningFacts.

(** X26. The next run compares against this one.  After a run that
    completes, the snapshots that the following run builds its
    previously-eligible set from are exactly those this run wrote, so that a
    profile counts as previously eligible exactly when this run evaluated it
    and found its aggregate at or above the threshold.  The run's id is new
    to the run table and to the snapshots, and the runs that succeeded
    before started earlier than this one. *)
Theorem next_run_baseline (host : Host) (env : Env) (force : bool)
    (w w' : World) (res : ScreeningResult) (threshold : Z) :
  let lpPairs := getEnabledLpPairs (db w) in
  let evaluated := getAllProfilesWithWallets (db w) in
  runScreening host env force w = (inr res, w') ->
  error res = None ->
  Js.BigInt (thresholdOf (db w)) = Some threshold ->
  (forall r, In r (screening_runs (db w)) ->
             r_id r <> Screening.runId res /\
             (r_status r = RunSuccess ->
              r_started_at r < date_now host (S (steps w)))) ->
  (forall s, In s (profile_snapshots (db w)) ->
             s_run_id s <> Screening.runId res) ->
  (r_id <$> getLastScreeningRun (db w')) = Some (Screening.runId res) /\
  baseline (db w')
  = List.map (snapshotOf host env lpPairs threshold (Screening.runId res))
      evaluated /\
  forall pid,
    is_Some (previousEligibleOf (baseline (db w')) !! pid) <->
    exists p, In p evaluated /\ p_id (fst p) = pid
              /\ total host env lpPairs (snd p) >= threshold.
Proof.
  intros lpPairs evaluated Hrun Herr Hthr Hruns Hsnaps.
  destruct (RunFacts.run_completed host env force w w' res Hrun Herr)
    as (t & sent & tg & Hcase & -> & Hdb & _).
  cbn [Screening.runId] in *. fold lpPairs evaluated in Hdb, Hcase.
  set (runId := randomUUID host (steps w)) in *.
  assert (Hsnap : List.map (snapshotOf host env lpPairs t runId) evaluated
                  = List.map (snapshotOf host env lpPairs threshold runId)
                      evaluated).
  { destruct Hcase as [->|Ht]; [reflexivity|]. congruence. }
  rewrite Hsnap in Hdb. clear Hsnap Hcase.
  assert (Hlast : exists lastRun,
             getLastScreeningRun (db w') = Some lastRun /\ r_id lastRun = runId).
  { pose proof (getLastScreeningRun_spec (db w')) as Hspec.
    assert (Hnew : exists r, In r (screening_runs (db w'))
                             /\ r_status r = RunSuccess
                             /\ r_started_at r = date_now host (S (steps w))).
    { rewrite Hdb. cbn [screening_runs]. eexists. split.
      - apply in_map, in_or_app. right. left. reflexivity.
      - unfold set_success. cbn [r_id]. rewrite String.eqb_refl.
        split; reflexivity. }
    destruct Hnew as (r & Hr & Hrs & Hrt).
    destruct (getLastScreeningRun (db w')) as [lastRun|];
      [|exfalso; exact (Hspec r Hr Hrs)].
    exists lastRun. split; [reflexivity|].
    destruct Hspec as (Hin & Hst & Hmax). specialize (Hmax r Hr Hrs).
    rewrite Hdb in Hin. cbn [screening_runs] in Hin.
    apply in_map_iff in Hin. destruct Hin as (r0 & <- & Hr0).
    apply in_app_or in Hr0. destruct Hr0 as [Hold|[<-|[]]].
    - exfalso. destruct (Hruns r0 Hold) as [Hne Hearly].
      unfold set_success in Hst, Hmax.
      destruct (String.eqb_spec (r_id r0) runId) as [E|_]; [contradiction|].
      specialize (Hearly Hst). lia.
    - unfold set_success. cbn [r_id]. rewrite String.eqb_refl. reflexivity. }
  destruct Hlast as (lastRun & Hlast & Hid).
  assert (Hbase : baseline (db w')
                  = List.map (snapshotOf host env lpPairs threshold runId)
                      evaluated).
  { unfold baseline. rewrite Hlast, Hid. unfold getSnapshotsForRun.
    rewrite Hdb. cbn [profile_snapshots]. rewrite List.filter_app.
    rewrite Leaderboard.filter_none, AccountFacts.filter_all.
    - reflexivity.
    - intros s Hs. apply in_map_iff in Hs. destruct Hs as (p & <- & _).
      cbn [s_run_id snapshotOf]. apply String.eqb_refl.
    - intros s Hs. apply String.eqb_neq. exact (Hsnaps s Hs). }
  split; [rewrite Hlast, <- Hid; reflexivity|]. split; [exact Hbase|].
  intros pid. rewrite previousEligibleOf_spec, Hbase. split.
  - intros (s & Hs & Hpid & Hel). apply in_map_iff in Hs.
    destruct Hs as (p & <- & Hp). exists p. split; [exact Hp|].
    split; [exact Hpid|]. cbn [s_eligible snapshotOf] in Hel.
    unfold eligibleNow in Hel.
    destruct (Z.geb_spec (total host env lpPairs (snd p)) threshold);
      [lia|contradiction].
  - intros (p & Hp & Hpid & Hge).
    exists (snapshotOf host env lpPairs threshold runId p).
    split; [apply in_map; exact Hp|]. split; [exact Hpid|].
    cbn [s_eligible snapshotOf]. unfold eligibleNow.
    destruct (Z.geb_spec (total host env lpPairs (snd p)) threshold);
      [discriminate|lia].
Qed.

Lemma next_run_baseline_witness :
  exists res w',
    runScreening Demo.host Demo.env true Demo.world = (inr res, w') /\
    List.map s_profile_id
      (List.filter (fun s => negb (s_eligible s =? 0)) (baseline (db w')))
    = ["B"; "C"].
Proof.
  destruct (runScreening Demo.host Demo.env true Demo.world)
    as [[err|res] w'] eqn:Hrun.
  - vm_compute in Hrun. discriminate Hrun.
  - assert (Hres : res = mkScreeningResult "run-0" RunSuccess 4 4 2 false None).
    { pose proof Hrun as Hc. vm_compute in Hc. injection Hc as <- _. reflexivity. }
    destruct (next_run_baseline Demo.host Demo.env true Demo.world w' res
                1000000 Hrun)
      as (_ & Hbase & _).
    + rewrite Hres. reflexivity.
    + reflexivity.
    + rewrite Hres. simpl. intros r [<-|[]].
      split; [discriminate|]. intros _. vm_compute. reflexivity.
    + rewrite Hres. simpl. intros s [<-|[<-|[<-|[]]]]; discriminate.
    + exists res, w'. split; [reflexivity|]. rewrite Hbase, Hres.
      vm_compute. reflexivity.
Defined.

End SequenceFacts.
